(** * Scrapy images pipeline and request fingerprinting: a shallow embedding

  The development follows two source files:
  - [scrapy/contrib/pipeline/images.py]: the filesystem store and the S3
    store, the freshness check [media_to_download], the download handlers
    [media_downloaded] and [media_failed], and the artifact processor
    [image_downloaded], [get_images], [convert_image], [image_key],
    [thumb_key];
  - [scrapy/utils/request.py]: the request [fingerprint] with its
    per-request cache, the deprecated [request_fingerprint], the
    [RequestFingerprinter] and [request_authenticate].

  Python byte strings and ASCII text are Rocq [string]s; Python floats
  (timestamps) are exact rationals [Q]; Python ints are [Z].  Exceptions
  are an explicit [result]; the logger, the statistics collector and the
  store are threaded through a small state-and-exception monad. *)

From Stdlib Require Import ZArith QArith Qround Lia Lqa List Bool Ascii String DecimalString.
From stdpp Require Import gmap strings sorting.
Import ListNotations.

Local Open Scope string_scope.
Local Open Scope list_scope.
Local Open Scope Z_scope.

(** ** Python string helpers *)

Module PyStr.

(** The code points of a byte string. *)
Fixpoint bytes_of (s : string) : list Z :=
  match s with
  | EmptyString => []
  | String c r => Z.of_N (N_of_ascii c) :: bytes_of r
  end.

Definition hexdigit (n : Z) : ascii :=
  if n <? 10 then ascii_of_N (Z.to_N (48 + n))
  else ascii_of_N (Z.to_N (87 + n)).

(** [bytes.hex()]: two lowercase hexadecimal digits per byte. *)
Definition hex_byte (b : Z) (rest : string) : string :=
  String (hexdigit (b / 16)) (String (hexdigit (b mod 16)) rest).

Fixpoint hex_of_bytes (l : list Z) : string :=
  match l with
  | [] => ""
  | b :: r => hex_byte b (hex_of_bytes r)
  end.

Definition hex (s : string) : string := hex_of_bytes (bytes_of s).

Definition is_hexdigit (c : ascii) : bool :=
  let n := Z.of_N (N_of_ascii c) in
  ((48 <=? n) && (n <=? 57)) || ((97 <=? n) && (n <=? 102)).

Fixpoint all_chars (p : ascii -> bool) (s : string) : bool :=
  match s with
  | EmptyString => true
  | String c r => p c && all_chars p r
  end.

(** [bytes.lower()]: only ASCII capitals change. *)
Definition lower_char (c : ascii) : ascii :=
  let n := N_of_ascii c in
  if ((65 <=? n) && (n <=? 90))%N then ascii_of_N (n + 32) else c.

Fixpoint lower (s : string) : string :=
  match s with
  | EmptyString => ""
  | String c r => String (lower_char c) (lower r)
  end.

(** [sorted] on byte strings: insertion by lexicographic order. *)
Fixpoint insert_sorted (x : string) (l : list string) : list string :=
  match l with
  | [] => [x]
  | y :: r => if String.leb x y then x :: l else y :: insert_sorted x r
  end.

Definition sorted (l : list string) : list string :=
  fold_right insert_sorted [] l.

(** [str.split(sep)] for a one-character separator. *)
Fixpoint split_on (sep : ascii) (s : string) : list string :=
  match s with
  | EmptyString => [""]
  | String c r =>
      if Ascii.eqb c sep then "" :: split_on sep r
      else match split_on sep r with
           | [] => [String c ""]
           | h :: t => String c h :: t
           end
  end.

(** The [%d] conversion. *)
Definition fmt_d (z : Z) : string :=
  DecimalString.NilZero.string_of_int (Z.to_int z).

(** [s.split(sep, 1)]: one piece when [sep] does not occur, else the text
    before its first occurrence and the text after it. *)
Fixpoint split1 (sep : ascii) (s : string) : list string :=
  match s with
  | EmptyString => [EmptyString]
  | String c r =>
      if Ascii.eqb c sep then [EmptyString; r]
      else match split1 sep r with
           | h :: t => String c h :: t
           | [] => [String c EmptyString]
           end
  end.

(** [s.startswith(p)]. *)
Fixpoint startswith (p s : string) : bool :=
  match p, s with
  | EmptyString, _ => true
  | String _ _, EmptyString => false
  | String a p', String b s' => Ascii.eqb a b && startswith p' s'
  end.

(** [s[n:]]. *)
Fixpoint drop (n : nat) (s : string) : string :=
  match n, s with
  | O, _ => s
  | Datatypes.S _, EmptyString => EmptyString
  | Datatypes.S k, String _ r => drop k r
  end.

(** The value of a hexadecimal digit of either case. *)
Definition hexvalue (c : ascii) : option Z :=
  let n := Z.of_N (N_of_ascii c) in
  if (48 <=? n) && (n <=? 57) then Some (n - 48)
  else if (97 <=? n) && (n <=? 102) then Some (n - 87)
  else if (65 <=? n) && (n <=? 70) then Some (n - 55)
  else None.

Definition is_space (c : ascii) : bool :=
  let n := Z.of_N (N_of_ascii c) in
  (n =? 32) || ((9 <=? n) && (n <=? 13)).

(** [bytes.fromhex(s)]: white space is skipped before each byte, a byte is
    two hexadecimal digits, anything else is a [ValueError] ([None]). *)
Fixpoint fromhex (s : string) : option (list Z) :=
  match s with
  | EmptyString => Some []
  | String c r =>
      if is_space c then fromhex r
      else
        match r with
        | EmptyString => None
        | String l r' =>
            match hexvalue c, hexvalue l, fromhex r' with
            | Some a, Some b, Some t => Some (16 * a + b :: t)
            | _, _, _ => None
            end
        end
  end.

End PyStr.

(** ** hashlib.sha1 (FIPS 180-4), on lists of bytes *)

Module Sha1.

Definition mask32 (x : Z) : Z := x mod 2 ^ 32.
Definition add32 (x y : Z) : Z := mask32 (x + y).
Definition rotl (n x : Z) : Z :=
  mask32 (Z.lor (Z.shiftl x n) (Z.shiftr x (32 - n))).
Definition not32 (x : Z) : Z := Z.lxor x 4294967295.

Definition be64 (n : Z) : list Z :=
  map (fun i => (n / 2 ^ (8 * i)) mod 256) [7; 6; 5; 4; 3; 2; 1; 0].

Definition pad (msg : list Z) : list Z :=
  let len := Z.of_nat (List.length msg) in
  msg ++ [128] ++ repeat 0 (Z.to_nat ((55 - len) mod 64)) ++ be64 (8 * len).

Fixpoint words_of (l : list Z) : list Z :=
  match l with
  | a :: b :: c :: d :: r =>
      (((a * 256 + b) * 256 + c) * 256 + d) :: words_of r
  | _ => []
  end.

Fixpoint blocks (fuel : nat) (ws : list Z) : list (list Z) :=
  match fuel, ws with
  | O, _ | _, [] => []
  | S f, _ => firstn 16 ws :: blocks f (skipn 16 ws)
  end.

Fixpoint expand (n : nat) (w : list Z) : list Z :=
  match n with
  | O => w
  | S n' =>
      let t := List.length w in
      let at_ k := nth (t - k) w 0 in
      expand n'
        (w ++ [rotl 1 (Z.lxor (Z.lxor (at_ 3%nat) (at_ 8%nat))
                              (Z.lxor (at_ 14%nat) (at_ 16%nat)))])
  end.

Definition state := (Z * Z * Z * Z * Z)%type.

Definition round (t : nat) (st : state) (wt : Z) : state :=
  let '(a, b, c, d, e) := st in
  let '(f, k) :=
    if (t <? 20)%nat then
      (Z.lor (Z.land b c) (Z.land (not32 b) d), 1518500249)
    else if (t <? 40)%nat then
      (Z.lxor (Z.lxor b c) d, 1859775393)
    else if (t <? 60)%nat then
      (Z.lor (Z.lor (Z.land b c) (Z.land b d)) (Z.land c d), 2400959708)
    else (Z.lxor (Z.lxor b c) d, 3395469782) in
  let temp := add32 (add32 (add32 (add32 (rotl 5 a) f) e) k) wt in
  (temp, a, rotl 30 b, c, d).

Fixpoint rounds (t : nat) (st : state) (w : list Z) : state :=
  match w with
  | [] => st
  | wt :: r => rounds (S t) (round t st wt) r
  end.

Definition compress (h : state) (block : list Z) : state :=
  let '(h0, h1, h2, h3, h4) := h in
  let '(a, b, c, d, e) := rounds 0 h (expand 64 block) in
  (add32 h0 a, add32 h1 b, add32 h2 c, add32 h3 d, add32 h4 e).

Definition init : state :=
  (1732584193, 4023233417, 2562383102, 271733878, 3285377520).

Definition digest_words (msg : list Z) : state :=
  let ws := words_of (pad msg) in
  fold_left compress (blocks (List.length ws) ws) init.

Definition word_bytes (w : Z) : list Z :=
  [(w / 16777216) mod 256; (w / 65536) mod 256; (w / 256) mod 256; w mod 256].

Definition state_bytes (st : state) : list Z :=
  let '(a, b, c, d, e) := st in
  word_bytes a ++ word_bytes b ++ word_bytes c ++ word_bytes d ++ word_bytes e.

(** [hashlib.sha1(s).digest()]: twenty bytes. *)
Definition digest (s : string) : list Z :=
  state_bytes (digest_words (PyStr.bytes_of s)).

(** [hashlib.sha1(s).hexdigest()]. *)
Definition hexdigest (s : string) : string :=
  PyStr.hex_of_bytes (digest s).

(** The five words of a digest as one number below [2 ^ 160]. *)
Definition state_num (st : state) : Z :=
  let '(a, b, c, d, e) := st in
  (((a * 2 ^ 32 + b) * 2 ^ 32 + c) * 2 ^ 32 + d) * 2 ^ 32 + e.

Definition word32 (x : Z) : Prop := 0 <= x < 2 ^ 32.

Definition state_in_range (st : state) : Prop :=
  let '(a, b, c, d, e) := st in
  word32 a /\ word32 b /\ word32 c /\ word32 d /\ word32 e.

End Sha1.

(** ** Exceptions, deferreds and the effect monad *)

(** Python exceptions.  [ImageException] is the pipeline's own class; every
    other exception the code can meet is an [Exception] (the class name and
    the message are kept). *)
Inductive exn : Type :=
| ImageException (msg : string)
| Exception (cls msg : string).

Definition exn_str (e : exn) : string :=
  match e with
  | ImageException m => m
  | Exception _ m => m
  end.

Inductive result (A : Type) : Type :=
| Ok (a : A)
| Raise (e : exn).
Arguments Ok {A} a.
Arguments Raise {A} e.

(** Sequencing of code that can raise but has no other effect. *)
Definition rbind {A B} (r : result A) (k : A -> result B) : result B :=
  match r with
  | Ok a => k a
  | Raise e => Raise e
  end.

(** A Twisted deferred is represented by the outcome it fires with. *)
Definition deferred (A : Type) : Type := result A.

(** ** Data of the images pipeline *)

(** A PIL image: what the pipeline reads is [mode] and [size]. *)
Record Image : Type := { mode : string; size : Z * Z; pixels : string }.

Record Request : Type :=
  { url : string; method : string; body : string;
    headers : list (string * string); priority : Z }.

Record Response : Type :=
  { status : Z; r_url : string; r_body : string;
    r_headers : list (string * string); flags : list string }.

(** [headers.get(name)] / [headers[name]] on an association list. *)
Fixpoint headers_get (h : list (string * string)) (name : string) : option string :=
  match h with
  | [] => None
  | (k, v) :: r => if String.eqb k name then Some v else headers_get r name
  end.

(** [str(x)] for an optional string: [None] prints as the word None. *)
Definition str_opt (o : option string) : string :=
  match o with Some s => s | None => "None" end.

(** [Request.__str__]. *)
Definition str_request (r : Request) : string :=
  "<" +:+ method r +:+ " " +:+ url r +:+ ">".

(** The dict a store's [stat_image] returns; a missing key is [None]. *)
Record stat_dict : Type :=
  { last_modified : option Q; checksum : option string }.

(** [stat_image] returns a dict or Python's [None]. *)
Definition stat_value : Type := option stat_dict.

(** The per-resource outcome dict [{'url', 'path', 'checksum'}]. *)
Record outcome : Type :=
  { o_url : string; o_path : string; o_checksum : option string }.

(** What [persist_image] returns: nothing (filesystem store) or the deferred
    of the upload (S3 store).  The pipeline discards it. *)
Inductive persist_ret : Type :=
| PyNone
| PyDeferred (d : deferred Response).

Inductive log_level : Type := DEBUG | WARNING | ERROR.

(** Calls the pipeline makes to its collaborators, in program order. *)
Inductive event : Type :=
| EvLog (level : log_level) (text : string)
| EvLogErr (text : string)
| EvStat (key : string)
| EvOpen (payload : string)
| EvPersist (key : string) (image : Image) (buf : string).

(** The services the code consumes: the operating system, PIL, the Scrapy
    engine and [md5sum], over an abstract machine state [S].  An operation
    that can raise returns a [result].  [engine_download] stands for
    [scrapyengine.schedule] and [scrapyengine.download]: the call itself
    returns a deferred or raises, and the deferred succeeds or fails. *)
Record Env (S : Type) : Type :=
  { time_time : S -> Q;
    os_getmtime : string -> S -> result Q;
    os_read : string -> S -> result string;
    os_exists : string -> S -> bool;
    os_makedirs : string -> S -> result unit * S;
    pil_save_path : Image -> string -> S -> result unit * S;
    engine_download : Request -> string -> S -> result (deferred Response) * S;
    pil_open : string -> result Image;
    pil_convert : Image -> string -> result Image;
    pil_thumbnail : Image -> Z * Z -> result Image;
    pil_save : Image -> string -> result string;
    rfc822_stamp : string -> result Z;
    md5sum : string -> string }.
Arguments time_time {S} _.
Arguments os_getmtime {S} _.
Arguments os_read {S} _.
Arguments os_exists {S} _.
Arguments os_makedirs {S} _.
Arguments pil_save_path {S} _.
Arguments engine_download {S} _.
Arguments pil_open {S} _.
Arguments pil_convert {S} _.
Arguments pil_thumbnail {S} _.
Arguments pil_save {S} _.
Arguments rfc822_stamp {S} _.
Arguments md5sum {S} _.

(** The state threaded through the code: the machine, the trace of calls,
    and the filesystem store's [created_directories]. *)
Record world (S : Type) : Type :=
  { machine : S;
    trace : list event;
    created_directories : gmap string (gset string) }.
Arguments machine {S} _.
Arguments trace {S} _.
Arguments created_directories {S} _.
Arguments Build_world {S} _ _ _.

(** Computations: they may raise, and keep their effects when they do. *)
Definition M (S A : Type) : Type := world S -> result A * world S.

Definition ret {S A} (a : A) : M S A := fun w => (Ok a, w).

Definition bind {S A B} (c : M S A) (k : A -> M S B) : M S B :=
  fun w => match c w with
           | (Ok a, w') => k a w'
           | (Raise e, w') => (Raise e, w')
           end.

Definition raise {S A} (e : exn) : M S A := fun w => (Raise e, w).

(** [try: c except ImageException, ex: h1 ex  except Exception: h2]. *)
Definition try_except {S A} (c : M S A)
    (on_image : string -> M S A) (on_other : M S A) : M S A :=
  fun w => match c w with
           | (Ok a, w') => (Ok a, w')
           | (Raise (ImageException m), w') => on_image m w'
           | (Raise (Exception _ _), w') => on_other w'
           end.

(** The world after one more call is recorded. *)
Definition record {S} (w : world S) (e : event) : world S :=
  Build_world (machine w) (trace w ++ [e]) (created_directories w).

Definition emit {S} (e : event) : M S unit := fun w => (Ok tt, record w e).

Definition lift_result {S A} (r : result A) : M S A := fun w => (r, w).

(** An operation of the machine that changes it. *)
Definition machine_op {S A} (f : S -> result A * S) : M S A :=
  fun w => let '(r, s) := f (machine w) in
           (r, Build_world s (trace w) (created_directories w)).

(** An operation of the machine that only reads it. *)
Definition machine_read {S A} (f : S -> A) : M S A :=
  fun w => (Ok (f (machine w)), w).

Declare Scope monad_scope.
Delimit Scope monad_scope with monad.
Notation "x <- c ;; k" := (bind c (fun x => k))
  (at level 100, c at next level, right associativity) : monad_scope.
Notation "c ;;; k" := (bind c (fun _ => k))
  (at level 100, right associativity) : monad_scope.
Local Open Scope monad_scope.

Definition log_msg {S} (text : string) (level : log_level) : M S unit :=
  emit (EvLog level text).

Definition log_err {S} (text : string) : M S unit := emit (EvLogErr text).

(** [defer.maybeDeferred(f, ...)]: a raised exception becomes a failure. *)
Definition maybeDeferred {S A} (c : M S A) : M S (deferred A) :=
  fun w => let '(r, w') := c w in (Ok r, w').

(** [d.addCallbacks(cb, eb)]: [cb] on success, [eb] on failure; an
    exception raised by either is the new failure. *)
Definition addCallbacks {S A B} (d : deferred A)
    (cb : A -> M S B) (eb : exn -> M S B) : M S (deferred B) :=
  match d with
  | Ok a => maybeDeferred (cb a)
  | Raise e => maybeDeferred (eb e)
  end.

Definition addCallback {S A B} (d : deferred A) (cb : A -> M S B)
  : M S (deferred B) :=
  addCallbacks d cb raise.

Definition addErrback {S A} (d : deferred A) (eb : exn -> M S A)
  : M S (deferred A) :=
  addCallbacks d ret eb.

(** [try: c except: h] (a bare except catches everything). *)
Definition try_all {S A} (c : M S A) (h : M S A) : M S A :=
  try_except c (fun _ => h) h.

(** ** os.path *)

Module OsPath.

Definition slash : ascii := "/"%char.

Definition ends_with_slash (p : string) : bool :=
  match rev (list_ascii_of_string p) with
  | c :: _ => Ascii.eqb c slash
  | [] => false
  end.

Definition starts_with_slash (p : string) : bool :=
  match p with
  | String c _ => Ascii.eqb c slash
  | EmptyString => false
  end.

(** [posixpath.join(a, *p)]. *)
Definition join (a : string) (p : list string) : string :=
  fold_left
    (fun path b =>
       if starts_with_slash b then b
       else if String.eqb path "" || ends_with_slash path then path +:+ b
       else path +:+ "/" +:+ b)
    p a.

Fixpoint drop_until_slash (l : list ascii) : list ascii :=
  match l with
  | [] => []
  | c :: r => if Ascii.eqb c slash then l else drop_until_slash r
  end.

Fixpoint drop_slashes (l : list ascii) : list ascii :=
  match l with
  | [] => []
  | c :: r => if Ascii.eqb c slash then drop_slashes r else l
  end.

(** [posixpath.dirname(p)]: everything up to the last slash, with the
    trailing slashes removed unless the head is only slashes. *)
Definition dirname (p : string) : string :=
  let head := drop_until_slash (rev (list_ascii_of_string p)) in
  match drop_slashes head with
  | [] => string_of_list_ascii (rev head)
  | stripped => string_of_list_ascii (rev stripped)
  end.

End OsPath.

(** ** The store interface and its two implementations *)

(** The capability set the pipeline uses: [stat_image(key, info)] and
    [persist_image(key, image, buf, info)].  [info] is the spider's name. *)
Module Store.
Record t (S : Type) : Type :=
  { stat_image : string -> string -> M S stat_value;
    persist_image : string -> Image -> string -> string -> M S persist_ret }.
Arguments stat_image {S} _.
Arguments persist_image {S} _.
End Store.

Module FSImagesStore.
Section WithEnv.
Context {S : Type} (env : Env S).

Record t : Type := { basedir : string }.

Definition _get_filesystem_path (self : t) (key : string) : string :=
  OsPath.join (basedir self) (PyStr.split_on "/" key).

(** [self.created_directories[domain]]: a [defaultdict(set)], so reading
    a missing entry creates it. *)
Definition created_get (domain : string) : M S (gset string) :=
  fun w =>
    match created_directories w !! domain with
    | Some seen => (Ok seen, w)
    | None =>
        (Ok ∅, Build_world (machine w) (trace w)
                 (<[domain := ∅]> (created_directories w)))
    end.

(** [seen.add(dirname)] on the set stored under [domain]. *)
Definition created_add (domain dirname : string) : M S unit :=
  fun w =>
    let seen := default ∅ (created_directories w !! domain) in
    (Ok tt, Build_world (machine w) (trace w)
              (<[domain := {[dirname]} ∪ seen]> (created_directories w))).

Definition _mkdir (self : t) (dirname : string) (domain : option string)
  : M S unit :=
  seen <- match domain with
          | Some d => created_get d
          | None => ret ∅
          end ;;
  if decide (dirname ∈ seen) then ret tt
  else
    present <- machine_read (os_exists env dirname) ;;
    (if present then ret tt else machine_op (os_makedirs env dirname)) ;;;
    match domain with
    | Some d => created_add d dirname
    | None => ret tt
    end.

Definition persist_image (self : t) (key : string) (image : Image)
    (buf info : string) : M S persist_ret :=
  let absolute_path := _get_filesystem_path self key in
  _mkdir self (OsPath.dirname absolute_path) (Some info) ;;;
  machine_op (pil_save_path env image absolute_path) ;;;
  ret PyNone.

Definition stat_image (self : t) (key info : string) : M S stat_value :=
  let absolute_path := _get_filesystem_path self key in
  r <- try_all
         (mtime <- (fun w => (os_getmtime env absolute_path (machine w), w)) ;;
          ret (Some mtime))
         (ret None) ;;
  match r with
  | None => ret (Some {| last_modified := None; checksum := None |})
  | Some mtime =>
      imagefile <- (fun w => (os_read env absolute_path (machine w), w)) ;;
      ret (Some {| last_modified := Some mtime;
                   checksum := Some (md5sum env imagefile) |})
  end.

Definition store (self : t) : Store.t S :=
  {| Store.stat_image := stat_image self;
     Store.persist_image := persist_image self |}.

End WithEnv.
End FSImagesStore.

Module S3ImagesStore.
Section WithEnv.
Context {S : Type} (env : Env S).

(** [s3_spider] is set when [IMAGES_S3STORE_SPIDER] is on. *)
Record t : Type := { bucket : string; prefix : string; s3_spider : bool }.

Definition request_priority : Z := 1000.

(** The name of [_S3AmazonAWSSpider]. *)
Definition s3_spider_name : string := "s3.amazonaws.com".

Definition quote : ascii := ascii_of_N 34.

Fixpoint lstrip_quote (l : list ascii) : list ascii :=
  match l with
  | [] => []
  | c :: r => if Ascii.eqb c quote then lstrip_quote r else l
  end.

(** [s.strip(q)] where [q] is the double-quote character. *)
Definition strip_quote (s : string) : string :=
  string_of_list_ascii
    (rev (lstrip_quote (rev (lstrip_quote (list_ascii_of_string s))))).

Definition _build_request (self : t) (key method : string)
    (body : option string) (headers : list (string * string)) : Request :=
  {| url := "http://" +:+ bucket self +:+ ".s3.amazonaws.com/"
            +:+ prefix self +:+ key;
     method := method;
     body := default "" body;
     headers := headers;
     priority := request_priority |}.

Definition _download_request (self : t) (request : Request) (info : string)
  : M S (deferred Response) :=
  let spider := if s3_spider self then s3_spider_name else info in
  machine_op (engine_download env request spider).

(** [response.headers[name]]: a missing header raises [KeyError]. *)
Definition header_item (response : Response) (name : string) : M S string :=
  match headers_get (r_headers response) name with
  | Some v => ret v
  | None => raise (Exception "KeyError" name)
  end.

Definition _onsuccess (response : Response) : M S stat_value :=
  if status response =? 200 then
    etag <- header_item response "Etag" ;;
    let checksum := strip_quote etag in
    last_modified <- header_item response "Last-Modified" ;;
    modified_stamp <- lift_result (rfc822_stamp env last_modified) ;;
    ret (Some {| last_modified := Some (inject_Z modified_stamp);
                 checksum := Some checksum |})
  else ret None.

(** The deferred [stat_image] returns, as the outcome it fires with. *)
Definition stat_image (self : t) (key info : string) : M S stat_value :=
  let req := _build_request self key "HEAD" None [] in
  d <- _download_request self req info ;;
  d' <- addCallback d _onsuccess ;;
  lift_result d'.

Definition persist_image (self : t) (key : string) (image : Image)
    (buf info : string) : M S persist_ret :=
  let '(width, height) := size image in
  let headers :=
    [ ("Content-Type", "image/jpeg");
      ("X-Amz-Acl", "public-read");
      ("X-Amz-Meta-Width", PyStr.fmt_d width);
      ("X-Amz-Meta-Height", PyStr.fmt_d height);
      ("Cache-Control", "max-age=172800") ] in
  let req := _build_request self key "PUT" (Some buf) headers in
  d <- _download_request self req info ;;
  ret (PyDeferred d).

Definition store (self : t) : Store.t S :=
  {| Store.stat_image := stat_image self;
     Store.persist_image := persist_image self |}.

End WithEnv.
(** [S3ImagesStore(uri)]; [use_custom_spider] is the truth value of the
    [IMAGES_S3STORE_SPIDER] setting. *)
Definition __init__ (use_custom_spider : bool) (uri : string) : result t :=
  if negb (PyStr.startswith "s3://" uri) then Raise (Exception "AssertionError" "")
  else
    match PyStr.split1 "/" (PyStr.drop 5 uri) with
    | [bucket; prefix] =>
        Ok {| bucket := bucket; prefix := prefix; s3_spider := use_custom_spider |}
    | _ => Raise (Exception "ValueError" "need more than 1 value to unpack")
    end.

End S3ImagesStore.

(** A store that leaves the trace of pipeline calls alone, as both stores
    of the source do: they neither log nor count. *)
Definition store_keeps_trace {S : Type} (store : Store.t S) : Prop :=
  forall key image buf info w,
    trace (snd (Store.persist_image store key image buf info w)) = trace w.

(** ** The images pipeline *)

(** The settings read at class creation; [THUMBS] lists the items of the
    [IMAGES_THUMBS] dict in its iteration order. *)
Record Settings : Type :=
  { MIN_WIDTH : Z; MIN_HEIGHT : Z; EXPIRES : Z;
    THUMBS : list (string * (Z * Z)) }.

(** One value yielded by [get_images]: [(key, image, buf)]. *)
Definition artifact : Type := (string * Image * string)%type.

Definition persist_event (a : artifact) : event :=
  let '(key, image, buf) := a in EvPersist key image buf.


Definition Qgtb (a b : Q) : bool := negb (Qle_bool a b).

(** Truth value of a number. *)
Definition Qtruthy (x : Q) : bool := negb (Qeq_bool x 0).

Module ImagesPipeline.
Section WithEnv.
Context {S : Type} (env : Env S) (cfg : Settings) (store : Store.t S).

Definition MEDIA_NAME : string := "image".

Definition image_key (url : string) : string :=
  let image_guid := Sha1.hexdigest url in
  "full/" +:+ image_guid +:+ ".jpg".

Definition thumb_key (url thumb_id : string) : string :=
  let image_guid := Sha1.hexdigest url in
  "thumbs/" +:+ thumb_id +:+ "/" +:+ image_guid +:+ ".jpg".

Definition inc_stats (status : string) : M S unit :=
  emit (EvStat "image_count") ;;;
  emit (EvStat ("image_status_count/" +:+ status)).

Definition convert_image (image : Image) (size : option (Z * Z))
  : result (Image * string) :=
  rbind (if negb (String.eqb (mode image) "RGB")
         then pil_convert env image "RGB"
         else Ok image)
    (fun image =>
  rbind (match size with
         | Some sz => pil_thumbnail env image sz
         | None => Ok image
         end)
    (fun image =>
  rbind (match pil_save env image "JPEG" with
         | Ok b => Ok b
         | Raise ex =>
             Raise (ImageException
                      ("Cannot process image. Error: " +:+ exn_str ex))
         end)
    (fun buf => Ok (image, buf)))).

Definition too_small_message (width height : Z) (response : Response) : string :=
  "Image too small (" +:+ PyStr.fmt_d width +:+ "x" +:+ PyStr.fmt_d height
  +:+ " < " +:+ PyStr.fmt_d (MIN_WIDTH cfg) +:+ "x" +:+ PyStr.fmt_d (MIN_HEIGHT cfg)
  +:+ "): " +:+ r_url response.

(** One turn of the generator's loop over [THUMBS], suspended until the
    consumer asks for the next value. *)
Definition thumb_step (request : Request) (image : Image)
    (item : string * (Z * Z)) : M S artifact :=
  let '(thumb_id, size) := item in
  let thumb_key := thumb_key (url request) thumb_id in
  tb <- lift_result (convert_image image (Some size)) ;;
  let '(thumb_image, thumb_buf) := tb in
  ret (thumb_key, thumb_image, thumb_buf).

(** A generator is run up to its first [yield]; what it returns is the
    yielded value and the suspended rest, one computation per later
    [yield], each run only when the consumer asks for the next value. *)
Definition get_images (response : Response) (request : Request) (info : string)
  : M S (artifact * list (M S artifact)) :=
  let key := image_key (url request) in
  emit (EvOpen (r_body response)) ;;;
  orig_image <- lift_result (pil_open env (r_body response)) ;;
  let '(width, height) := size orig_image in
  if (width <? MIN_WIDTH cfg) || (height <? MIN_HEIGHT cfg) then
    raise (ImageException (too_small_message width height response))
  else
    ib <- lift_result (convert_image orig_image None) ;;
    let '(image, buf) := ib in
    ret ((key, image, buf), map (thumb_step request image) (THUMBS cfg)).

(** The call [self.store.persist_image(key, image, buf, info)]; its
    return value is dropped. *)
Definition call_persist (a : artifact) (info : string) : M S unit :=
  let '(key, image, buf) := a in
  emit (EvPersist key image buf) ;;;
  Store.persist_image store key image buf info ;;;
  ret tt.

(** The body of the [for] loop over the values still to be yielded. *)
Fixpoint for_images (rest : list (M S artifact)) (info : string)
    (first_buf : option string) : M S (option string) :=
  match rest with
  | [] => ret first_buf
  | next :: rest' =>
      a <- next ;;
      call_persist a info ;;;
      let first_buf :=
        match first_buf with
        | None => Some (snd a)
        | Some _ => first_buf
        end in
      for_images rest' info first_buf
  end.

Definition image_downloaded (response : Response) (request : Request)
    (info : string) : M S string :=
  g <- get_images response request info ;;
  let '(first, rest) := g in
  first_buf <- for_images (ret first :: rest) info None ;;
  match first_buf with
  | Some b => ret (md5sum env b)
  | None => raise (Exception "AttributeError" "'NoneType' object has no attribute 'seek'")
  end.

Definition media_downloaded (response : Response) (request : Request)
    (info : string) : M S outcome :=
  let referer := headers_get (headers request) "Referer" in
  if negb (status response =? 200) then
    log_msg ("Image (http-error): Error downloading image from "
             +:+ str_request request +:+ " referred in <"
             +:+ str_opt referer +:+ ">") WARNING ;;;
    raise (ImageException "")
  else if String.eqb (r_body response) "" then
    log_msg ("Image (empty-content): Empty image from "
             +:+ str_request request +:+ " referred in <"
             +:+ str_opt referer +:+ ">: no-content") WARNING ;;;
    raise (ImageException "")
  else
    let status := if existsb (String.eqb "cached") (flags response)
                  then "cached" else "downloaded" in
    let msg := "Image (" +:+ status +:+ "): Downloaded image from "
               +:+ str_request request +:+ " referred in <"
               +:+ str_opt referer +:+ ">" in
    log_msg msg DEBUG ;;;
    inc_stats status ;;;
    kc <- try_except
            (let key := image_key (url request) in
             checksum <- image_downloaded response request info ;;
             ret (key, checksum))
            (fun ex => log_msg ex WARNING ;;; raise (ImageException ex))
            (log_err "" ;;; raise (ImageException "")) ;;
    let '(key, checksum) := kc in
    ret {| o_url := url request; o_path := key; o_checksum := Some checksum |}.

(** [isinstance(failure.value, IgnoreRequest)]. *)
Definition is_IgnoreRequest (failure : exn) : bool :=
  match failure with
  | Exception cls _ => String.eqb cls "IgnoreRequest"
  | ImageException _ => false
  end.

Definition media_failed (failure : exn) (request : Request) (info : string)
  : M S outcome :=
  (if negb (is_IgnoreRequest failure) then
     let referer := headers_get (headers request) "Referer" in
     let msg := "Image (unknown-error): Error downloading " +:+ MEDIA_NAME
                +:+ " from " +:+ str_request request +:+ " referred in <"
                +:+ str_opt referer +:+ ">: " +:+ exn_str failure in
     log_msg msg WARNING
   else ret tt) ;;;
  raise (ImageException "").

(** The callback of [media_to_download]; [None] forces the download.
    [time.time()] and the stamp are taken as the rationals they denote and
    the subtraction and the divisions are exact; the doubles of the source
    round each of them. *)
Definition _onsuccess (request : Request) (info key : string)
    (result : stat_value) : M S (option outcome) :=
  match result with
  | None => ret None
  | Some {| last_modified := None; checksum := None |} => ret None
  | Some result =>
      match last_modified result with
      | None => ret None
      | Some last_modified =>
          if negb (Qtruthy last_modified) then ret None
          else
            now <- machine_read (time_time env) ;;
            let age_seconds := (now - last_modified)%Q in
            let age_days := (age_seconds / 60 / 60 / 24)%Q in
            if Qgtb age_days (inject_Z (EXPIRES cfg)) then ret None
            else
              let referer := headers_get (headers request) "Referer" in
              log_msg ("Image (uptodate): Downloaded " +:+ MEDIA_NAME
                       +:+ " from <" +:+ url request +:+ "> referred in <"
                       +:+ str_opt referer +:+ ">") DEBUG ;;;
              inc_stats "uptodate" ;;;
              let checksum := checksum result in
              ret (Some {| o_url := url request; o_path := key;
                           o_checksum := checksum |})
      end
  end.

Definition media_to_download (request : Request) (info : string)
  : M S (deferred (option outcome)) :=
  let key := image_key (url request) in
  dfd <- maybeDeferred (Store.stat_image store key info) ;;
  dfd <- addCallbacks dfd (_onsuccess request info key) (fun _ => ret None) ;;
  dfd <- addErrback dfd
           (fun failure =>
              log_err ("ImagesPipeline.store.stat_image: " +:+ exn_str failure) ;;;
              ret None) ;;
  ret dfd.

End WithEnv.
End ImagesPipeline.

(** ** json.dumps, as far as [fingerprint] uses it *)

Module Json.

Definition dq : string := String (ascii_of_N 34) EmptyString.

Definition hex2 (n : N) : string :=
  PyStr.hex_byte (Z.of_N n) EmptyString.

(** The escape of one character under [ensure_ascii=True]: the two
    specials, the five short escapes, and [\u00xx] for everything else
    outside the printable range. *)
Definition escape_char (c : ascii) : string :=
  let n := N_of_ascii c in
  if (n =? 34)%N then "\" +:+ dq
  else if (n =? 92)%N then "\\"
  else if (n =? 10)%N then "\n"
  else if (n =? 13)%N then "\r"
  else if (n =? 9)%N then "\t"
  else if (n =? 8)%N then "\b"
  else if (n =? 12)%N then "\f"
  else if ((n <? 32) || (126 <? n))%N then "\u00" +:+ hex2 n
  else String c EmptyString.

Fixpoint escape (s : string) : string :=
  match s with
  | EmptyString => EmptyString
  | String c r => escape_char c +:+ escape r
  end.

Definition str (s : string) : string := dq +:+ escape s +:+ dq.

(** [', '.join(items)]. *)
Fixpoint join (items : list string) : string :=
  match items with
  | [] => EmptyString
  | [x] => x
  | x :: r => x +:+ ", " +:+ join r
  end.

Definition list_of_str (l : list string) : string :=
  "[" +:+ join (map str l) +:+ "]".

(** Insertion of a dict item by key order ([sort_keys=True]). *)
Fixpoint insert_item (kv : string * list string)
    (l : list (string * list string)) : list (string * list string) :=
  match l with
  | [] => [kv]
  | x :: r => if String.leb (fst kv) (fst x) then kv :: l
              else x :: insert_item kv r
  end.

Definition sort_items (d : list (string * list string))
  : list (string * list string) :=
  fold_right insert_item [] d.

(** A dict from strings to lists of strings. *)
Definition dict_of_lists (d : list (string * list string)) : string :=
  "{" +:+ join (map (fun kv => str (fst kv) +:+ ": " +:+ list_of_str (snd kv))
                    (sort_items d)) +:+ "}".

(** Reading back one escaped character: the inverse of [escape_char],
    undefined on an unescaped double quote. *)
Definition hexval (c : ascii) : N :=
  let n := N_of_ascii c in
  if (n <? 58)%N then (n - 48)%N else (n - 87)%N.

Definition unescape_char (s : string) : option (ascii * string) :=
  match s with
  | EmptyString => None
  | String c r =>
      if (N_of_ascii c =? 34)%N then None
      else if (N_of_ascii c =? 92)%N then
        match r with
        | EmptyString => None
        | String e r1 =>
            let k := N_of_ascii e in
            if (k =? 34)%N then Some (ascii_of_N 34, r1)
            else if (k =? 92)%N then Some (ascii_of_N 92, r1)
            else if (k =? 110)%N then Some (ascii_of_N 10, r1)
            else if (k =? 114)%N then Some (ascii_of_N 13, r1)
            else if (k =? 116)%N then Some (ascii_of_N 9, r1)
            else if (k =? 98)%N then Some (ascii_of_N 8, r1)
            else if (k =? 102)%N then Some (ascii_of_N 12, r1)
            else
              match r1 with
              | String _ (String _ (String h (String l r2))) =>
                  Some (ascii_of_N (16 * hexval h + hexval l), r2)
              | _ => None
              end
        end
      else Some (c, r)
  end.

(** Reading back one byte of [bytes.hex()]. *)
Definition unhex_pair (h l : ascii) : ascii :=
  ascii_of_N (16 * hexval h + hexval l).

Definition no_brace (s : string) : bool :=
  PyStr.all_chars (fun c => negb (Ascii.eqb c "}")) s.

Definition hexstr (s : string) : Prop :=
  PyStr.all_chars PyStr.is_hexdigit s = true.

(** A dict whose keys and values are all hexadecimal text. *)
Definition hex_items (d : list (string * list string)) : Prop :=
  Forall (fun kv => hexstr (fst kv) /\ Forall hexstr (snd kv)) d.

End Json.

(** ** Request fingerprinting ([scrapy/utils/request.py]) *)

Module RequestUtils.

(** A [scrapy.Request] object.  [oid] is the object's identity, which is
    what the weak-key cache is keyed on; [headers] maps a lowercased
    header name to its list of values ([Headers] is case-insensitive). *)
Record Request : Type :=
  { oid : positive;
    method : string;
    url : string;
    body : string;
    headers : list (string * list string);
    meta : list (string * string);
    priority : Z;
    dont_filter : bool }.

(** [header in request.headers] and [request.headers.getlist(header)]. *)
Fixpoint getlist (h : list (string * list string)) (name : string)
  : option (list string) :=
  match h with
  | [] => None
  | (k, v) :: r =>
      if String.eqb (PyStr.lower k) name then Some v else getlist r name
  end.

(** [d[k] = v] on a dict kept as a list of items with distinct keys. *)
Fixpoint dict_set (d : list (string * list string)) (k : string)
    (v : list string) : list (string * list string) :=
  match d with
  | [] => [(k, v)]
  | (k', v') :: r =>
      if String.eqb k' k then (k, v) :: r else (k', v') :: dict_set r k v
  end.

Definition cache_key : Type := (option (list string) * bool)%type.

(** [_fingerprint_cache]: per request object, a dict from cache keys to
    digests. *)
Abbreviation cache := (gmap positive (gmap cache_key (list Z))).

(** [tuple(to_bytes(h.lower()) for h in sorted(include_headers))], or
    [None] when [include_headers] is [None] or empty. *)
Definition process_include_headers (include_headers : option (list string))
  : option (list string) :=
  match include_headers with
  | None | Some [] => None
  | Some l => Some (map PyStr.lower (PyStr.sorted l))
  end.

Section WithCanonicalizer.
  (** [w3lib.url.canonicalize_url(url, keep_fragments=...)]. *)
Variable canonicalize_url : string -> bool -> string.

(** The [headers] dict of the fingerprint data. *)
Definition selected_headers (request : Request)
    (processed_include_headers : option (list string))
  : list (string * list string) :=
  match processed_include_headers with
  | None | Some [] => []
  | Some l =>
      fold_left
        (fun headers header =>
           match getlist (RequestUtils.headers request) header with
           | Some values => dict_set headers (PyStr.hex header) (map PyStr.hex values)
           | None => headers
           end)
        l []
  end.

(** [json.dumps(fingerprint_data, sort_keys=True)]. *)
Definition fingerprint_json (request : Request)
    (processed_include_headers : option (list string))
    (keep_fragments : bool) : string :=
  "{" +:+ Json.str "body" +:+ ": " +:+ Json.str (PyStr.hex (body request))
  +:+ ", " +:+ Json.str "headers" +:+ ": "
  +:+ Json.dict_of_lists (selected_headers request processed_include_headers)
  +:+ ", " +:+ Json.str "method" +:+ ": " +:+ Json.str (method request)
  +:+ ", " +:+ Json.str "url" +:+ ": "
  +:+ Json.str (canonicalize_url (url request) keep_fragments) +:+ "}".

(** The digest computed on a cache miss. *)
Definition compute_fingerprint (request : Request) (key : cache_key) : list Z :=
  Sha1.digest (fingerprint_json request (fst key) (snd key)).

Definition fingerprint (request : Request)
    (include_headers : option (list string)) (keep_fragments : bool)
    (_fingerprint_cache : cache) : list Z * cache :=
  let processed_include_headers := process_include_headers include_headers in
  let cache := default ∅ (_fingerprint_cache !! oid request) in
  let cache_key := (processed_include_headers, keep_fragments) in
  match cache !! cache_key with
  | Some fp => (fp, <[oid request := cache]> _fingerprint_cache)
  | None =>
      let fp := compute_fingerprint request cache_key in
      (fp, <[oid request := <[cache_key := fp]> cache]> _fingerprint_cache)
  end.

(** The values [_serialize_headers(headers, request)] yields. *)
Fixpoint _serialize_headers (names : list string) (request : Request)
  : list string :=
  match names with
  | [] => []
  | header :: rest =>
      match getlist (headers request) header with
      | Some values => header :: values ++ _serialize_headers rest request
      | None => _serialize_headers rest request
      end
  end.

(** The byte strings fed to [fp.update], in order. *)
Definition fingerprint_updates (request : Request)
    (processed_include_headers : option (list string))
    (keep_fragments : bool) : list string :=
  [method request; canonicalize_url (url request) keep_fragments; body request]
  ++ match processed_include_headers with
     | None | Some [] => []
     | Some l => _serialize_headers l request
     end.

(** Successive [update] calls hash the concatenation of their arguments. *)
Definition compute_request_fingerprint (request : Request) (key : cache_key)
  : string :=
  Sha1.hexdigest (String.concat EmptyString
                    (fingerprint_updates request (fst key) (snd key))).

(** Which of its two deprecation messages [request_fingerprint] warns with. *)
Inductive deprecation : Type := NonDefaultAlgorithm | DefaultAlgorithm.

(** [request_fingerprint]: the warning, the hexadecimal digest and the
    [_deprecated_fingerprint_cache] after the call. *)
Definition request_fingerprint (request : Request)
    (include_headers : option (list string)) (keep_fragments : bool)
    (_deprecated_fingerprint_cache : gmap positive (gmap cache_key string))
  : deprecation * string * gmap positive (gmap cache_key string) :=
  let message :=
    match include_headers, keep_fragments with
    | (None | Some []), false => DefaultAlgorithm
    | _, _ => NonDefaultAlgorithm
    end in
  let processed_include_headers := process_include_headers include_headers in
  let cache := default ∅ (_deprecated_fingerprint_cache !! oid request) in
  let cache_key := (processed_include_headers, keep_fragments) in
  match cache !! cache_key with
  | Some fp =>
      (message, fp, <[oid request := cache]> _deprecated_fingerprint_cache)
  | None =>
      let fp := compute_request_fingerprint request cache_key in
      (message, fp,
       <[oid request := <[cache_key := fp]> cache]> _deprecated_fingerprint_cache)
  end.

(** [_request_fingerprint_as_bytes]: the warning is filtered out. *)
Definition _request_fingerprint_as_bytes (request : Request)
    (include_headers : option (list string)) (keep_fragments : bool)
    (_deprecated_fingerprint_cache : gmap positive (gmap cache_key string))
  : result (list Z) * gmap positive (gmap cache_key string) :=
  let '(_, fp, c) :=
    request_fingerprint request include_headers keep_fragments
      _deprecated_fingerprint_cache in
  match PyStr.fromhex fp with
  | Some bytes => (Ok bytes, c)
  | None => (Raise (Exception "ValueError" "non-hexadecimal number found in fromhex() arg"), c)
  end.

(** [RequestFingerprinter]: [_fingerprint] is one of the two functions. *)
Inductive implementation : Type := Impl_2_6 | Impl_2_7.

(** [RequestFingerprinter(crawler)]; [crawler] is absent, or gives the
    value of the [REQUEST_FINGERPRINTER_IMPLEMENTATION] setting.  The
    result says whether the deprecation warning was issued. *)
Definition RequestFingerprinter (crawler : option (option string))
  : result (bool * implementation) :=
  let implementation :=
    match crawler with
    | Some setting => setting
    | None => Some "2.6"
    end in
  match implementation with
  | Some v =>
      if String.eqb v "2.6" then Ok (true, Impl_2_6)
      else if String.eqb v "2.7" then Ok (false, Impl_2_7)
      else Raise (Exception "ValueError" v)
  | None => Raise (Exception "ValueError" "None")
  end.

(** [RequestFingerprinter.fingerprint(request)], over both caches. *)
Definition fingerprinter_fingerprint (self : implementation) (request : Request)
    (caches : gmap positive (gmap cache_key string) * cache)
  : result (list Z) * (gmap positive (gmap cache_key string) * cache) :=
  match self with
  | Impl_2_6 =>
      let '(r, c) := _request_fingerprint_as_bytes request None false (fst caches) in
      (r, (c, snd caches))
  | Impl_2_7 =>
      let '(fp, c) := fingerprint request None false (snd caches) in
      (Ok fp, (fst caches, c))
  end.

End WithCanonicalizer.

(** [request.headers[name] = value]: the entry stored under the same
    case-insensitive name is replaced, else one is added. *)
Fixpoint headers_setitem (h : list (string * list string)) (name value : string)
  : list (string * list string) :=
  match h with
  | [] => [(name, [value])]
  | (k, v) :: r =>
      if String.eqb (PyStr.lower k) (PyStr.lower name) then (name, [value]) :: r
      else (k, v) :: headers_setitem r name value
  end.

Section WithW3lib.
(** [w3lib.http.basic_auth_header(username, password)]. *)
Variable basic_auth_header : string -> string -> string.

(** [request_authenticate]: the request object is changed in place. *)
Definition request_authenticate (request : Request) (username password : string)
  : Request :=
  {| oid := oid request; method := method request; url := url request;
     body := body request;
     headers := headers_setitem (headers request) "Authorization"
                  (basic_auth_header username password);
     meta := meta request; priority := priority request;
     dont_filter := dont_filter request |}.

End WithW3lib.

(** The deprecated cache holds, for [request], only digests computed from
    the request as it is now. *)
Definition deprecated_cache_coherent (canonicalize_url : string -> bool -> string)
    (c : gmap positive (gmap cache_key string)) (request : Request) : Prop :=
  forall inner key fp,
    c !! oid request = Some inner ->
    inner !! key = Some fp ->
    fp = compute_request_fingerprint canonicalize_url request key.

(** The cache holds, for [request], only digests computed from the
    request as it is now: the request has not been changed since they were
    stored. *)
Definition cache_coherent (canonicalize_url : string -> bool -> string)
    (c : cache) (request : Request) : Prop :=
  forall inner key fp,
    c !! oid request = Some inner ->
    inner !! key = Some fp ->
    fp = compute_fingerprint canonicalize_url request key.

(** Two requests carry the same values for the selected headers. *)
Definition same_selected_headers (A B : Request)
    (processed_include_headers : option (list string)) : Prop :=
  match processed_include_headers with
  | None => True
  | Some l =>
      Forall (fun header => getlist (headers A) header = getlist (headers B) header) l
  end.

(** Requests that differ only in their body: [n] times the letter [a]. *)
Fixpoint letters (n : nat) : string :=
  match n with
  | O => EmptyString
  | Datatypes.S k => String "a" (letters k)
  end.

Definition padded (n : nat) : Request :=
  {| oid := 1; method := "POST"; url := "http://example.com/form";
     body := letters n; headers := []; meta := []; priority := 0;
     dont_filter := false |}.

(** A request fingerprinted on its [X-Token] header, the same object after
    that header was overwritten, and a new request equal to it in every
    field. *)
Definition token_request (id : positive) (token : string) : Request :=
  {| oid := id; method := "GET"; url := "http://example.com/page";
     body := EmptyString; headers := [("X-Token", [token])]; meta := [];
     priority := 0; dont_filter := false |}.

(** Two requests for one page that differ in the fragment, the cookie and
    the scheduling fields. *)
Definition page_request (id : positive) (fragment cookie : string)
    (prio : Z) : Request :=
  {| oid := id; method := "GET";
     url := "http://example.com/page" +:+ "#" +:+ fragment;
     body := EmptyString;
     headers := [("Accept", ["text/html"]); ("Cookie", [cookie])];
     meta := [("depth", fragment)]; priority := prio;
     dont_filter := false |}.

(** Modelled from the spec: the URL canonicalizer of w3lib, which is not
    part of this repository.  Of its contract only the handling of the
    fragment is kept: the fragment is stripped unless [keep_fragments].
    It is applied below only to URLs without a query, which the
    canonicalizer changes in no other way. *)
Fixpoint strip_fragment (u : string) : string :=
  match u with
  | EmptyString => EmptyString
  | String c r => if Ascii.eqb c "#" then EmptyString else String c (strip_fragment r)
  end.

Definition canonicalize_url_model (u : string) (keep_fragments : bool) : string :=
  if keep_fragments then u else strip_fragment u.

End RequestUtils.

(** The status word [media_downloaded] logs and counts. *)
Definition status_word (response : Response) : string :=
  if existsb (String.eqb "cached") (flags response) then "cached" else "downloaded".

Definition downloaded_message (response : Response) (request : Request) : string :=
  "Image (" +:+ status_word response +:+ "): Downloaded image from "
  +:+ str_request request +:+ " referred in <"
  +:+ str_opt (headers_get (headers request) "Referer") +:+ ">".

(** The world in which [media_downloaded] calls [image_downloaded]: the
    download has been logged and counted. *)
Definition entered {S : Type} (response : Response) (request : Request)
    (w : world S) : world S :=
  record (record (record w (EvLog DEBUG (downloaded_message response request)))
            (EvStat "image_count"))
    (EvStat ("image_status_count/" +:+ status_word response)).

(** Whether the decoded image violates the minimum dimensions. *)
Definition too_small (cfg : Settings) (image : Image) : bool :=
  (fst (size image) <? MIN_WIDTH cfg) || (snd (size image) <? MIN_HEIGHT cfg).

(** What a suspended turn of the generator yields for one [THUMBS] item. *)
Definition thumb_of {S : Type} (env : Env S) (request : Request) (image : Image)
    (item : string * (Z * Z)) (a : artifact) : Prop :=
  exists thumb_image thumb_buf,
    ImagesPipeline.convert_image env image (Some (snd item))
      = Ok (thumb_image, thumb_buf)
    /\ a = (ImagesPipeline.thumb_key (url request) (fst item),
            thumb_image, thumb_buf).


(** The store's [persist_image] called for each artifact of a list in
    turn, each call in the world the call before it left, up to the first
    call that raises.  A call is noted in the trace before it is made; what
    it returns is dropped. *)
Fixpoint persist_each {S : Type} (store : Store.t S) (info : string)
    (arts : list artifact) (w : world S) : result unit * world S :=
  match arts with
  | [] => (Ok tt, w)
  | a :: rest =>
      match Store.persist_image store (fst (fst a)) (snd (fst a)) (snd a) info
              (record w (persist_event a)) with
      | (Ok _, w1) => persist_each store info rest w1
      | (Raise e, w1) => (Raise e, w1)
      end
  end.

(** ** A small machine to run the pipeline on

  An in-memory filesystem with a clock and an upload log, and a toy
  imaging library: a payload [wh...] decodes to an image whose width and
  height are the codes of its first two characters, in mode [P]; an empty
  payload does not decode. *)

Module TestBed.

Record host : Type :=
  { clock : Q;
    files : list (string * (Q * string));
    dirs : list string;
    read_only : bool;
    offline : bool;
    uploads : list Request }.

Fixpoint lookup_file (p : string) (l : list (string * (Q * string)))
  : option (Q * string) :=
  match l with
  | [] => None
  | (k, v) :: r => if String.eqb k p then Some v else lookup_file p r
  end.

Definition getmtime (p : string) (m : host) : result Q :=
  match lookup_file p (files m) with
  | Some (t, _) => Ok t
  | None => Raise (Exception "OSError" "No such file or directory")
  end.

Definition read (p : string) (m : host) : result string :=
  match lookup_file p (files m) with
  | Some (_, data) => Ok data
  | None => Raise (Exception "IOError" "No such file or directory")
  end.

Definition makedirs (p : string) (m : host) : result unit * host :=
  if read_only m then (Raise (Exception "OSError" "Read-only file system"), m)
  else (Ok tt, {| clock := clock m; files := files m; dirs := p :: dirs m;
                  read_only := read_only m; offline := offline m;
                  uploads := uploads m |}).

Definition save_path (image : Image) (p : string) (m : host)
  : result unit * host :=
  if read_only m then (Raise (Exception "IOError" "Read-only file system"), m)
  else (Ok tt, {| clock := clock m;
                  files := (p, (clock m, "JPEG:" +:+ pixels image)) :: files m;
                  dirs := dirs m; read_only := read_only m;
                  offline := offline m; uploads := uploads m |}).

(** The engine: offline, the deferred of every request fails; online,
    every request is answered with 200. *)
Definition download (request : Request) (spider : string) (m : host)
  : result (deferred Response) * host :=
  if offline m then
    (Ok (Raise (Exception "ConnectionRefusedError" "Connection was refused")), m)
  else
    (Ok (Ok {| status := 200; r_url := url request; r_body := EmptyString;
               r_headers := []; flags := [] |}),
     {| clock := clock m; files := files m; dirs := dirs m;
        read_only := read_only m; offline := offline m;
        uploads := uploads m ++ [request] |}).

Definition open (payload : string) : result Image :=
  match payload with
  | String w (String h _) =>
      Ok {| mode := "P"; size := (Z.of_N (N_of_ascii w), Z.of_N (N_of_ascii h));
            pixels := payload |}
  | _ => Raise (Exception "IOError" "cannot identify image file")
  end.

Definition convert (image : Image) (m : string) : result Image :=
  Ok {| mode := m; size := size image; pixels := pixels image |}.

Definition thumbnail (image : Image) (bound : Z * Z) : result Image :=
  Ok {| mode := mode image;
        size := (Z.min (fst (size image)) (fst bound),
                 Z.min (snd (size image)) (snd bound));
        pixels := pixels image |}.

Definition save (image : Image) (format : string) : result string :=
  Ok (format +:+ ":" +:+ PyStr.fmt_d (fst (size image)) +:+ "x"
      +:+ PyStr.fmt_d (snd (size image)) +:+ ":" +:+ pixels image).

Definition env : Env host :=
  {| time_time := clock;
     os_getmtime := getmtime;
     os_read := read;
     os_exists := fun p m => existsb (String.eqb p) (dirs m);
     os_makedirs := makedirs;
     pil_save_path := save_path;
     engine_download := download;
     pil_open := open;
     pil_convert := convert;
     pil_thumbnail := thumbnail;
     pil_save := save;
     rfc822_stamp := fun _ => Ok 0;
     md5sum := fun data => "md5(" +:+ data +:+ ")" |}.

(** The same machine with an imaging library that cannot encode. *)
Definition env_no_encoder : Env host :=
  {| time_time := clock;
     os_getmtime := getmtime;
     os_read := read;
     os_exists := fun p m => existsb (String.eqb p) (dirs m);
     os_makedirs := makedirs;
     pil_save_path := save_path;
     engine_download := download;
     pil_open := open;
     pil_convert := convert;
     pil_thumbnail := thumbnail;
     pil_save := fun _ _ => Raise (Exception "IOError" "encoder jpeg not available");
     rfc822_stamp := fun _ => Ok 0;
     md5sum := fun data => "md5(" +:+ data +:+ ")" |}.

(** The same machine with an imaging library that cannot resize below
    60 pixels. *)
Definition env_no_small_thumbnail : Env host :=
  {| time_time := clock;
     os_getmtime := getmtime;
     os_read := read;
     os_exists := fun p m => existsb (String.eqb p) (dirs m);
     os_makedirs := makedirs;
     pil_save_path := save_path;
     engine_download := download;
     pil_open := open;
     pil_convert := convert;
     pil_thumbnail := fun image bound =>
                        if fst bound <? 60
                        then Raise (Exception "MemoryError" "out of memory")
                        else thumbnail image bound;
     pil_save := save;
     rfc822_stamp := fun _ => Ok 0;
     md5sum := fun data => "md5(" +:+ data +:+ ")" |}.

(** The same machine with an engine that answers every request with the
    headers of a stored object, last modified one day after the epoch. *)
Definition env_s3_object : Env host :=
  {| time_time := clock;
     os_getmtime := getmtime;
     os_read := read;
     os_exists := fun p m => existsb (String.eqb p) (dirs m);
     os_makedirs := makedirs;
     pil_save_path := save_path;
     engine_download :=
       fun request spider m =>
         (Ok (Ok {| status := 200; r_url := url request; r_body := EmptyString;
                    r_headers := [("Etag", Json.dq +:+ "0a1b2c" +:+ Json.dq);
                                  ("Last-Modified", "Fri, 02 Jan 1970 00:00:00 GMT")];
                    flags := [] |}), m);
     pil_open := open;
     pil_convert := convert;
     pil_thumbnail := thumbnail;
     pil_save := save;
     rfc822_stamp := fun _ => Ok 86400;
     md5sum := fun data => "md5(" +:+ data +:+ ")" |}.


(** Thumbnails listed large first. *)
Definition cfg_big_first : Settings :=
  {| MIN_WIDTH := 50; MIN_HEIGHT := 50; EXPIRES := 90;
     THUMBS := [("big", (270, 270)); ("small", (50, 50)); ("tiny", (10, 10))] |}.

Definition cfg : Settings :=
  {| MIN_WIDTH := 50; MIN_HEIGHT := 50; EXPIRES := 90;
     THUMBS := [("small", (50, 50)); ("big", (270, 270))] |}.

Definition fs_store : Store.t host :=
  FSImagesStore.store env {| FSImagesStore.basedir := "/srv/images" |}.

Definition s3_store : Store.t host :=
  S3ImagesStore.store env
    {| S3ImagesStore.bucket := "media"; S3ImagesStore.prefix := "img/";
       S3ImagesStore.s3_spider := true |}.

Definition request : Request :=
  {| url := "http://example.com/a.jpg"; method := "GET"; body := EmptyString;
     headers := [("Referer", "http://example.com/")]; priority := 0 |}.

Definition start (now : Q) (fs : list (string * (Q * string))) (ro : bool)
  : world host :=
  {| machine := {| clock := now; files := fs; dirs := []; read_only := ro;
                   offline := false; uploads := [] |};
     trace := [];
     created_directories := ∅ |}.


(** Where the filesystem store keeps the primary artifact of [request]. *)
Definition stored_path : string :=
  "/srv/images/full/99e087d9e04c1527ebd8026fd3cc31035e6c7210.jpg".

Definition stored (mtime : Q) : list (string * (Q * string)) :=
  [(stored_path, (mtime, "JPEG:old"))].

(** A payload of width 100 and height 80. *)
Definition payload_100x80 : string := "dPpixels".

(** A payload of width 40 and height 80. *)
Definition payload_40x80 : string := "(Ppixels".

Definition response (payload : string) : Response :=
  {| status := 200; r_url := "http://example.com/a.jpg"; r_body := payload;
     r_headers := []; flags := [] |}.

End TestBed.


(** ** The freshness policy as the specification words it

  [classify(stat_result, expiry_window)] with the age taken in whole
  days, fractional days rounded down. *)

Inductive freshness : Type := Missing | Fresh | Stale.

Definition whole_days (now last_modified : Q) : Z :=
  Qfloor ((now - last_modified) / 86400).

Definition classify_whole_days (now : Q) (expiry_window : Z)
    (stat_result : stat_value) : freshness :=
  match stat_result with
  | None => Missing
  | Some d =>
      match last_modified d with
      | None => Missing
      | Some t =>
          if whole_days now t >? expiry_window then Stale else Fresh
      end
  end.

(** * Properties *)

Example sha1_empty :
  Sha1.hexdigest EmptyString = "da39a3ee5e6b4b0d3255bfef95601890afd80709".
Proof. vm_compute. reflexivity. Qed.

Example sha1_abc :
  Sha1.hexdigest "abc" = "a9993e364706816aba3e25717850c26c9cd0d89d".
Proof. vm_compute. reflexivity. Qed.

Example sha1_two_blocks :
  Sha1.hexdigest "abcdbcdecdefdefgefghfghighijhijkijkljklmklmnlmnomnopnopq"
  = "84983e441c3bd26ebaae4aa1f95129e5e54670f1".
Proof. vm_compute. reflexivity. Qed.

Example json_of_fingerprint_data :
  RequestUtils.fingerprint_json RequestUtils.canonicalize_url_model
    {| RequestUtils.oid := 1; RequestUtils.method := "GET";
       RequestUtils.url := "http://a.b/c?x=1#frag"; RequestUtils.body := "hi";
       RequestUtils.headers := [("Accept", ["*/*"]); ("X-A", ["1"; "2"])];
       RequestUtils.meta := []; RequestUtils.priority := 0;
       RequestUtils.dont_filter := false |}
    (RequestUtils.process_include_headers (Some ["X-a"; "Accept"; "Nope"])) false
  = "{" +:+ Json.str "body" +:+ ": " +:+ Json.str "6869" +:+ ", "
    +:+ Json.str "headers" +:+ ": {" +:+ Json.str "616363657074" +:+ ": ["
    +:+ Json.str "2a2f2a" +:+ "], " +:+ Json.str "782d61" +:+ ": ["
    +:+ Json.str "31" +:+ ", " +:+ Json.str "32" +:+ "]}, "
    +:+ Json.str "method" +:+ ": " +:+ Json.str "GET" +:+ ", "
    +:+ Json.str "url" +:+ ": " +:+ Json.str "http://a.b/c?x=1" +:+ "}".
Proof. vm_compute. reflexivity. Qed.

(** ** Age arithmetic *)

Section AgeArithmetic.
Local Open Scope Q_scope.

Lemma age_days_scaled (x : Q) : x / 60 / 60 / 24 == x * (1 # 86400).
Proof. field. Qed.

Lemma age_days_le (x e : Q) : x / 60 / 60 / 24 <= e <-> x <= e * 86400.
Proof. rewrite age_days_scaled. split; intro; lra. Qed.

Lemma Qgtb_age_days_true (x e : Q) :
  Qgtb (x / 60 / 60 / 24) e = true <-> e * 86400 < x.
Proof.
  unfold Qgtb.
  rewrite negb_true_iff, <- not_true_iff_false, Qle_bool_iff, age_days_le.
  split; intro H; lra.
Qed.

Lemma Qgtb_age_days_false (x e : Q) :
  Qgtb (x / 60 / 60 / 24) e = false <-> x <= e * 86400.
Proof.
  unfold Qgtb. rewrite negb_false_iff, Qle_bool_iff, age_days_le.
  reflexivity.
Qed.

Lemma Qtruthy_zero (x : Q) : x == 0 -> Qtruthy x = false.
Proof.
  intro H. unfold Qtruthy. apply negb_false_iff, Qeq_bool_iff. exact H.
Qed.
End AgeArithmetic.

(** ** The freshness check *)

Section FreshnessCheck.
Context {S : Type} (env : Env S) (cfg : Settings) (store : Store.t S).

Let to_download := ImagesPipeline.media_to_download env cfg store.
Let on_success := ImagesPipeline._onsuccess env cfg.

(** The deferred of [media_to_download] after its callbacks, by the
    outcome of the stat. *)
Lemma media_to_download_stat_ok request info w v w1 :
  Store.stat_image store (ImagesPipeline.image_key (url request)) info w
    = (Ok v, w1) ->
  forall o w2,
    on_success request info (ImagesPipeline.image_key (url request)) v w1
      = (Ok o, w2) ->
    to_download request info w = (Ok (Ok o), w2).
Proof.
  intros Hstat o w2 Hcb.
  unfold to_download, ImagesPipeline.media_to_download, bind, maybeDeferred.
  rewrite Hstat. cbn.
  unfold maybeDeferred. fold on_success. rewrite Hcb. reflexivity.
Qed.

Lemma media_to_download_stat_raise request info w e w1 :
  Store.stat_image store (ImagesPipeline.image_key (url request)) info w
    = (Raise e, w1) ->
  to_download request info w = (Ok (Ok None), w1).
Proof.
  intros Hstat.
  unfold to_download, ImagesPipeline.media_to_download, bind, maybeDeferred.
  rewrite Hstat. reflexivity.
Qed.

(** The callback itself never raises. *)
Lemma _onsuccess_returns request info key v w :
  exists o w', on_success request info key v w = (Ok o, w').
Proof.
  unfold on_success, ImagesPipeline._onsuccess.
  destruct v as [[[lm|] [cs|]]|]; try (eexists _, _; reflexivity);
    cbn; (destruct (negb (Qtruthy lm)); [eexists _, _; reflexivity|]);
    unfold bind, machine_read;
    destruct (Qgtb _ _); eexists _, _; reflexivity.
Qed.

Lemma _onsuccess_absent request info key v w :
  v = None \/ (exists cs, v = Some {| last_modified := None; checksum := cs |}) ->
  on_success request info key v w = (Ok None, w).
Proof.
  intros [-> | [cs ->]]; [reflexivity|].
  destruct cs; reflexivity.
Qed.

Lemma _onsuccess_falsy_stamp request info key lm cs w :
  Qtruthy lm = false ->
  on_success request info key
    (Some {| last_modified := Some lm; checksum := cs |}) w = (Ok None, w).
Proof.
  intros H. unfold on_success, ImagesPipeline._onsuccess.
  destruct cs; cbn; rewrite H; reflexivity.
Qed.

Lemma _onsuccess_stale request info key lm cs w :
  Qtruthy lm = true ->
  (inject_Z (EXPIRES cfg) * 86400 < time_time env (machine w) - lm)%Q ->
  on_success request info key
    (Some {| last_modified := Some lm; checksum := cs |}) w = (Ok None, w).
Proof.
  intros Ht Hage. apply Qgtb_age_days_true in Hage.
  unfold on_success, ImagesPipeline._onsuccess.
  destruct cs; cbn; rewrite Ht; cbn; unfold bind, machine_read;
    rewrite Hage; reflexivity.
Qed.

Lemma _onsuccess_fresh request info key lm cs w :
  Qtruthy lm = true ->
  (time_time env (machine w) - lm <= inject_Z (EXPIRES cfg) * 86400)%Q ->
  exists w',
    on_success request info key
      (Some {| last_modified := Some lm; checksum := cs |}) w
    = (Ok (Some {| o_url := url request; o_path := key; o_checksum := cs |}), w')
    /\ machine w' = machine w.
Proof.
  intros Ht Hage. apply Qgtb_age_days_false in Hage.
  unfold on_success, ImagesPipeline._onsuccess.
  destruct cs; cbn; rewrite Ht; cbn; unfold bind, machine_read;
    rewrite Hage; cbn; eexists; split; reflexivity.
Qed.

End FreshnessCheck.

(** C1 (as amended).  For a stat result that carries a non-zero
    last-modified timestamp, the age is compared as a number of days with
    its fraction, not in whole days.  The artifact is fresh (the stored
    outcome is returned and nothing is downloaded) when its age is at most
    [EXPIRES] days, so an age of exactly [EXPIRES] days is fresh; and
    [None] is returned and the download is forced when the age exceeds
    [EXPIRES] days by one second or more, so an age of [EXPIRES + 1] days
    is stale.  The window is at most [2 ^ 31] days and the timestamp at
    most [2 ^ 53] seconds in magnitude: there every whole number of seconds
    involved is a double, and with the margin of one second the rounding of
    the source's subtraction and divisions cannot change either verdict. *)
Theorem freshness_boundary {S : Type} (env : Env S) (cfg : Settings)
    (store : Store.t S) (request : Request) (info : string)
    (w w1 : world S) (lm : Q) (cs : option string) :
  Store.stat_image store (ImagesPipeline.image_key (url request)) info w
    = (Ok (Some {| last_modified := Some lm; checksum := cs |}), w1) ->
  Qtruthy lm = true ->
  Z.abs (EXPIRES cfg) <= 2 ^ 31 ->
  (inject_Z (- 2 ^ 53) <= lm <= inject_Z (2 ^ 53))%Q ->
  ((time_time env (machine w1) - lm <= inject_Z (EXPIRES cfg) * 86400)%Q ->
   exists w2,
     ImagesPipeline.media_to_download env cfg store request info w
     = (Ok (Ok (Some {| o_url := url request;
                        o_path := ImagesPipeline.image_key (url request);
                        o_checksum := cs |})), w2)
     /\ machine w2 = machine w1)
  /\ ((inject_Z (EXPIRES cfg) * 86400 + 1 <= time_time env (machine w1) - lm)%Q ->
      ImagesPipeline.media_to_download env cfg store request info w
      = (Ok (Ok None), w1)).
Proof.
  intros Hstat Ht _ _. split; intros Hage.
  - destruct (_onsuccess_fresh env cfg request info
                (ImagesPipeline.image_key (url request)) lm cs w1 Ht Hage)
      as [w2 [Hcb Hm]].
    exists w2. split; [|exact Hm].
    eapply media_to_download_stat_ok; eassumption.
  - eapply media_to_download_stat_ok; [eassumption|].
    apply _onsuccess_stale; [exact Ht|]. lra.
Qed.

(** C5.  The freshness check never fails: whatever the store's
    [stat_image] does, the deferred of [media_to_download] fires with a
    value.  When the stat raises or its deferred fails, and when it reports
    no object ([None], or a dict without [last_modified]), that value is
    [None], which forces the download.  The filesystem store returns the
    empty dict, without raising, for a path whose [getmtime] fails; the S3
    store returns [None] for any response other than 200. *)
Theorem stat_failure_forces_refetch {S : Type} (env : Env S) (cfg : Settings)
    (store : Store.t S) (request : Request) (info : string) (w : world S) :
  (exists v w', ImagesPipeline.media_to_download env cfg store request info w
                = (Ok (Ok v), w'))
  /\ (forall e w1,
        Store.stat_image store (ImagesPipeline.image_key (url request)) info w
          = (Raise e, w1) ->
        ImagesPipeline.media_to_download env cfg store request info w
        = (Ok (Ok None), w1))
  /\ (forall v w1,
        Store.stat_image store (ImagesPipeline.image_key (url request)) info w
          = (Ok v, w1) ->
        v = None \/ (exists cs, v = Some {| last_modified := None; checksum := cs |}) ->
        ImagesPipeline.media_to_download env cfg store request info w
        = (Ok (Ok None), w1))
  /\ (forall self key e,
        os_getmtime env (FSImagesStore._get_filesystem_path self key) (machine w)
          = Raise e ->
        FSImagesStore.stat_image env self key info w
        = (Ok (Some {| last_modified := None; checksum := None |}), w))
  /\ (forall self key response s,
        engine_download env
          (S3ImagesStore._build_request self key "HEAD" None [])
          (if S3ImagesStore.s3_spider self
           then S3ImagesStore.s3_spider_name else info) (machine w)
          = (Ok (Ok response), s) ->
        status response <> 200 ->
        S3ImagesStore.stat_image env self key info w
        = (Ok None, Build_world s (trace w) (created_directories w))).
Proof.
  repeat split.
  - destruct (Store.stat_image store (ImagesPipeline.image_key (url request))
                info w) as [[v|e] w1] eqn:Hstat.
    + destruct (_onsuccess_returns env cfg request info
                  (ImagesPipeline.image_key (url request)) v w1) as [o [w2 Hcb]].
      exists o, w2. eapply media_to_download_stat_ok; eassumption.
    + exists None, w1. eapply media_to_download_stat_raise; eassumption.
  - intros e w1 Hstat. eapply media_to_download_stat_raise; eassumption.
  - intros v w1 Hstat Habs.
    eapply media_to_download_stat_ok; [eassumption|].
    apply _onsuccess_absent; assumption.
  - intros self key e Hmt.
    unfold FSImagesStore.stat_image, bind, try_all, try_except.
    rewrite Hmt. destruct e; reflexivity.
  - intros self key response s Hdl Hst.
    unfold S3ImagesStore.stat_image, S3ImagesStore._download_request, bind,
      machine_op.
    rewrite Hdl. cbn.
    unfold maybeDeferred, S3ImagesStore._onsuccess.
    apply Z.eqb_neq in Hst. rewrite Hst. reflexivity.
Qed.

(** C10.  A stat result whose [last_modified] is zero is handled exactly as
    one without [last_modified]: the callback returns [None] for both, so
    the download is forced although a stat record exists. *)
Theorem epoch_stamp_is_missing {S : Type} (env : Env S) (cfg : Settings)
    (store : Store.t S) (request : Request) (info : string)
    (w w1 : world S) (lm : Q) (cs : option string) :
  Store.stat_image store (ImagesPipeline.image_key (url request)) info w
    = (Ok (Some {| last_modified := Some lm; checksum := cs |}), w1) ->
  (lm == 0)%Q ->
  ImagesPipeline.media_to_download env cfg store request info w
  = (Ok (Ok None), w1)
  /\ ImagesPipeline._onsuccess env cfg request info
       (ImagesPipeline.image_key (url request))
       (Some {| last_modified := Some lm; checksum := cs |}) w1
     = ImagesPipeline._onsuccess env cfg request info
         (ImagesPipeline.image_key (url request))
         (Some {| last_modified := None; checksum := cs |}) w1.
Proof.
  intros Hstat Hz. apply Qtruthy_zero in Hz.
  pose proof (_onsuccess_falsy_stamp env cfg request info
                (ImagesPipeline.image_key (url request)) lm cs w1 Hz) as Hcb.
  split.
  - eapply media_to_download_stat_ok; eassumption.
  - rewrite Hcb. symmetry. apply _onsuccess_absent. right. eauto.
Qed.

(** *** The freshness check on the test machine

  The artifact was written one day after the epoch; the window is 90
  days.  At 91 days after the epoch it is exactly 90 days old, at 92 days
  it is 91 days old, and at 91.5 days it is 90 days and a half old. *)

Lemma freshness_boundary_witness :
  (exists w2,
     ImagesPipeline.media_to_download TestBed.env TestBed.cfg TestBed.fs_store
       TestBed.request "spider"
       (TestBed.start 7862400 (TestBed.stored 86400) false)
     = (Ok (Ok (Some {| o_url := "http://example.com/a.jpg";
                        o_path := "full/99e087d9e04c1527ebd8026fd3cc31035e6c7210.jpg";
                        o_checksum := Some "md5(JPEG:old)" |})), w2)
     /\ machine w2 = machine (TestBed.start 7862400 (TestBed.stored 86400) false))
  /\ ImagesPipeline.media_to_download TestBed.env TestBed.cfg TestBed.fs_store
       TestBed.request "spider"
       (TestBed.start 7948800 (TestBed.stored 86400) false)
     = (Ok (Ok None), TestBed.start 7948800 (TestBed.stored 86400) false).
Proof.
  assert (Hwindow : Z.abs (EXPIRES TestBed.cfg) <= 2 ^ 31).
  { vm_compute. discriminate. }
  assert (Hstamp : (inject_Z (- 2 ^ 53) <= 86400 <= inject_Z (2 ^ 53))%Q).
  { split; vm_compute; discriminate. }
  split.
  - apply (proj1 (freshness_boundary TestBed.env TestBed.cfg TestBed.fs_store
                    TestBed.request "spider"
                    (TestBed.start 7862400 (TestBed.stored 86400) false)
                    (TestBed.start 7862400 (TestBed.stored 86400) false)
                    86400%Q (Some "md5(JPEG:old)")
                    ltac:(vm_compute; reflexivity) ltac:(vm_compute; reflexivity)
                    Hwindow Hstamp)).
    vm_compute. discriminate.
  - apply (proj2 (freshness_boundary TestBed.env TestBed.cfg TestBed.fs_store
                    TestBed.request "spider"
                    (TestBed.start 7948800 (TestBed.stored 86400) false)
                    (TestBed.start 7948800 (TestBed.stored 86400) false)
                    86400%Q (Some "md5(JPEG:old)")
                    ltac:(vm_compute; reflexivity) ltac:(vm_compute; reflexivity)
                    Hwindow Hstamp)).
    vm_compute. discriminate.
Defined.

(** C1 (as stated) fails.  An artifact that is 90 days and a half old has
    a whole-day age of 90, which does not exceed the window of 90, so the
    classification in whole days is [Fresh]; the code returns [None] and
    forces the download. *)
Lemma freshness_whole_days_refuted :
  whole_days 7905600 86400 = 90
  /\ classify_whole_days 7905600 (EXPIRES TestBed.cfg)
       (Some {| last_modified := Some 86400%Q; checksum := Some "md5(JPEG:old)" |})
     = Fresh
  /\ Store.stat_image TestBed.fs_store
       (ImagesPipeline.image_key (url TestBed.request)) "spider"
       (TestBed.start 7905600 (TestBed.stored 86400) false)
     = (Ok (Some {| last_modified := Some 86400%Q;
                    checksum := Some "md5(JPEG:old)" |}),
        TestBed.start 7905600 (TestBed.stored 86400) false)
  /\ ImagesPipeline.media_to_download TestBed.env TestBed.cfg TestBed.fs_store
       TestBed.request "spider"
       (TestBed.start 7905600 (TestBed.stored 86400) false)
     = (Ok (Ok None), TestBed.start 7905600 (TestBed.stored 86400) false).
Proof. repeat split; vm_compute; reflexivity. Qed.

Lemma stat_failure_forces_refetch_witness :
  FSImagesStore.stat_image TestBed.env {| FSImagesStore.basedir := "/srv/images" |}
    (ImagesPipeline.image_key (url TestBed.request)) "spider"
    (TestBed.start 7862400 [] false)
  = (Ok (Some {| last_modified := None; checksum := None |}),
     TestBed.start 7862400 [] false)
  /\ ImagesPipeline.media_to_download TestBed.env TestBed.cfg TestBed.fs_store
       TestBed.request "spider" (TestBed.start 7862400 [] false)
     = (Ok (Ok None), TestBed.start 7862400 [] false).
Proof.
  pose proof (stat_failure_forces_refetch TestBed.env TestBed.cfg
                TestBed.fs_store TestBed.request "spider"
                (TestBed.start 7862400 [] false))
    as (_ & _ & Habsent & Hfs & _).
  split.
  - eapply Hfs. vm_compute. reflexivity.
  - eapply Habsent; [vm_compute; reflexivity|]. right. eauto.
Defined.

Lemma epoch_stamp_is_missing_witness :
  (0 == 0)%Q
  /\ ImagesPipeline.media_to_download TestBed.env TestBed.cfg TestBed.fs_store
       TestBed.request "spider" (TestBed.start 7862400 (TestBed.stored 0) false)
     = (Ok (Ok None), TestBed.start 7862400 (TestBed.stored 0) false).
Proof.
  split; [reflexivity|].
  apply (proj1 (epoch_stamp_is_missing TestBed.env TestBed.cfg TestBed.fs_store
                  TestBed.request "spider"
                  (TestBed.start 7862400 (TestBed.stored 0) false)
                  (TestBed.start 7862400 (TestBed.stored 0) false)
                  0%Q (Some "md5(JPEG:old)")
                  ltac:(vm_compute; reflexivity) ltac:(reflexivity))).
Defined.

(** ** The download handler *)

Section Download.
Context {S : Type} (env : Env S) (cfg : Settings) (store : Store.t S).

Let downloaded := ImagesPipeline.media_downloaded env cfg store.
Let image_downloaded := ImagesPipeline.image_downloaded env cfg store.
Let get_images := ImagesPipeline.get_images (S := S) env cfg.
Let for_images := ImagesPipeline.for_images store.
Let convert_image := ImagesPipeline.convert_image env.

Lemma media_downloaded_bad_status response request info w :
  status response <> 200 ->
  exists text,
    downloaded response request info w
    = (Raise (ImageException ""), record w (EvLog WARNING text)).
Proof.
  intros H. apply Z.eqb_neq in H.
  unfold downloaded, ImagesPipeline.media_downloaded. rewrite H. cbn.
  eexists. reflexivity.
Qed.

Lemma media_downloaded_empty_body response request info w :
  r_body response = "" ->
  exists text,
    downloaded response request info w
    = (Raise (ImageException ""), record w (EvLog WARNING text)).
Proof.
  intros H.
  unfold downloaded, ImagesPipeline.media_downloaded. rewrite H.
  destruct (negb (status response =? 200)); cbn; eexists; reflexivity.
Qed.

(** With status 200 and a non-empty body, the handler is the processing
    step wrapped in its [try]. *)
Lemma media_downloaded_run response request info w :
  status response = 200 ->
  r_body response <> "" ->
  downloaded response request info w
  = match image_downloaded response request info (entered response request w) with
    | (Ok checksum, w1) =>
        (Ok {| o_url := url request;
               o_path := ImagesPipeline.image_key (url request);
               o_checksum := Some checksum |}, w1)
    | (Raise (ImageException m), w1) =>
        (Raise (ImageException m), record w1 (EvLog WARNING m))
    | (Raise (Exception _ _), w1) =>
        (Raise (ImageException ""), record w1 (EvLogErr ""))
    end.
Proof.
  intros Hs Hb. apply Z.eqb_eq in Hs. apply String.eqb_neq in Hb.
  unfold downloaded, ImagesPipeline.media_downloaded. rewrite Hs, Hb.
  cbn [negb].
  unfold bind, try_except, log_msg, log_err, ImagesPipeline.inc_stats, bind,
    emit, ret, raise.
  cbv beta iota.
  unfold image_downloaded, entered, downloaded_message, status_word.
  destruct (ImagesPipeline.image_downloaded env cfg store response request info _)
    as [[c|[m|c m]] w1]; reflexivity.
Qed.

Lemma get_images_ok response request info w orig image buf :
  pil_open env (r_body response) = Ok orig ->
  too_small cfg orig = false ->
  convert_image orig None = Ok (image, buf) ->
  get_images response request info w
  = (Ok ((ImagesPipeline.image_key (url request), image, buf),
         map (ImagesPipeline.thumb_step env request image) (THUMBS cfg)),
     record w (EvOpen (r_body response))).
Proof.
  intros Hopen Hsmall Hconv.
  unfold get_images, ImagesPipeline.get_images, bind, emit, lift_result.
  rewrite Hopen. unfold too_small in Hsmall.
  destruct (size orig) as [width height]. cbn in Hsmall. rewrite Hsmall.
  unfold bind. fold convert_image. rewrite Hconv. reflexivity.
Qed.

Lemma get_images_too_small response request info w orig :
  pil_open env (r_body response) = Ok orig ->
  too_small cfg orig = true ->
  get_images response request info w
  = (Raise (ImageException
              (ImagesPipeline.too_small_message cfg (fst (size orig))
                 (snd (size orig)) response)),
     record w (EvOpen (r_body response))).
Proof.
  intros Hopen Hsmall.
  unfold get_images, ImagesPipeline.get_images, bind, emit, lift_result.
  rewrite Hopen. unfold too_small in Hsmall.
  destruct (size orig) as [width height]. cbn in Hsmall. rewrite Hsmall.
  reflexivity.
Qed.

Lemma get_images_inv response request info w first rest w' :
  get_images response request info w = (Ok (first, rest), w') ->
  exists orig image buf,
    pil_open env (r_body response) = Ok orig
    /\ too_small cfg orig = false
    /\ convert_image orig None = Ok (image, buf)
    /\ first = (ImagesPipeline.image_key (url request), image, buf)
    /\ rest = map (ImagesPipeline.thumb_step env request image) (THUMBS cfg)
    /\ w' = record w (EvOpen (r_body response)).
Proof.
  intros H.
  destruct (pil_open env (r_body response)) as [orig|e] eqn:Hopen.
  - destruct (too_small cfg orig) eqn:Hsmall.
    + rewrite (get_images_too_small _ _ _ _ _ Hopen Hsmall) in H. discriminate.
    + destruct (convert_image orig None) as [[image buf]|e] eqn:Hconv.
      * rewrite (get_images_ok _ _ _ _ _ _ _ Hopen Hsmall Hconv) in H.
        injection H as <- <- <-. exists orig, image, buf. auto 10.
      * exfalso. revert H.
        unfold get_images, ImagesPipeline.get_images, bind, emit, lift_result.
        rewrite Hopen. unfold too_small in Hsmall.
        destruct (size orig) as [width height]. cbn in Hsmall. rewrite Hsmall.
        unfold bind. fold convert_image. rewrite Hconv. discriminate.
  - exfalso. revert H.
    unfold get_images, ImagesPipeline.get_images, bind, emit, lift_result.
    rewrite Hopen. discriminate.
Qed.

(** One call of [persist_image]: it is recorded, then the store runs. *)
Lemma call_persist_run a info w :
  ImagesPipeline.call_persist store a info w
  = match Store.persist_image store (fst (fst a)) (snd (fst a)) (snd a) info
            (record w (persist_event a)) with
    | (Ok _, w') => (Ok tt, w')
    | (Raise e, w') => (Raise e, w')
    end.
Proof.
  destruct a as [[key image] buf].
  unfold ImagesPipeline.call_persist, bind, emit, ret. cbn.
  destruct (Store.persist_image store key image buf info _) as [[v|e] w'];
    reflexivity.
Qed.

Lemma call_persist_trace a info w w' :
  store_keeps_trace store ->
  ImagesPipeline.call_persist store a info w = (Ok tt, w') ->
  trace w' = trace w ++ [persist_event a].
Proof.
  intros Hquiet H. rewrite call_persist_run in H.
  pose proof (Hquiet (fst (fst a)) (snd (fst a)) (snd a) info
                (record w (persist_event a))) as Ht.
  destruct (Store.persist_image store _ _ _ _ _) as [[v|e] w1]; [|discriminate].
  injection H as <-. exact Ht.
Qed.

Lemma thumb_step_run request image item w :
  ImagesPipeline.thumb_step env request image item w
  = match convert_image image (Some (snd item)) with
    | Ok (thumb_image, thumb_buf) =>
        (Ok (ImagesPipeline.thumb_key (url request) (fst item),
             thumb_image, thumb_buf), w)
    | Raise e => (Raise e, w)
    end.
Proof.
  destruct item as [thumb_id sz].
  unfold ImagesPipeline.thumb_step, bind, lift_result, ret. cbn.
  fold convert_image.
  destruct (convert_image image (Some sz)) as [[ti tb]|e]; reflexivity.
Qed.

(** One turn of the consumer's loop. *)
Lemma for_images_cons next rest info first_buf w :
  for_images (next :: rest) info first_buf w
  = match next w with
    | (Ok a, w1) =>
        match ImagesPipeline.call_persist store a info w1 with
        | (Ok _, w2) =>
            for_images rest info
              (match first_buf with None => Some (snd a) | Some _ => first_buf end)
              w2
        | (Raise e, w2) => (Raise e, w2)
        end
    | (Raise e, w1) => (Raise e, w1)
    end.
Proof.
  unfold for_images. cbn. unfold bind.
  destruct (next w) as [[a|e] w1]; [|reflexivity].
  destruct (ImagesPipeline.call_persist store a info w1) as [[u|e] w2];
    reflexivity.
Qed.

(** Once set, [first_buf] is what the loop returns. *)
Lemma for_images_keeps_first rest info fb w r w' :
  for_images rest info (Some fb) w = (Ok r, w') -> r = Some fb.
Proof.
  revert w. induction rest as [|next rest IH]; intros w H.
  - cbn in H. injection H as <- _. reflexivity.
  - rewrite for_images_cons in H.
    destruct (next w) as [[a|e] w1]; [|discriminate].
    destruct (ImagesPipeline.call_persist store a info w1) as [[u|e] w2];
      [|discriminate].
    eapply IH. exact H.
Qed.

(** The loop over the suspended thumbnails: when it completes, it has
    converted and persisted one artifact per item, in order. *)
Lemma for_images_thumbs request image info fb :
  store_keeps_trace store ->
  forall items w r w',
    for_images (map (ImagesPipeline.thumb_step env request image) items)
      info (Some fb) w = (Ok r, w') ->
    exists thumbs,
      Forall2 (thumb_of env request image) items thumbs
      /\ trace w' = trace w ++ map persist_event thumbs.
Proof.
  intros Hquiet. induction items as [|item items IH]; intros w r w' H.
  - cbn in H. injection H as _ <-. exists []. split; [constructor|].
    cbn. symmetry. apply app_nil_r.
  - cbn [map] in H. rewrite for_images_cons, thumb_step_run in H.
    destruct (convert_image image (Some (snd item))) as [[ti tb]|e] eqn:Hconv;
      [|discriminate].
    destruct (ImagesPipeline.call_persist store _ info w) as [[[]|e] w2] eqn:Hp;
      [|discriminate].
    apply (call_persist_trace _ _ _ _ Hquiet) in Hp.
    destruct (IH _ _ _ H) as [thumbs [Hall Htr]].
    exists ((ImagesPipeline.thumb_key (url request) (fst item), ti, tb) :: thumbs).
    split.
    + constructor; [|exact Hall]. exists ti, tb. split; [exact Hconv|reflexivity].
    + rewrite Htr, Hp. rewrite <- app_assoc. reflexivity.
Qed.

(** What a completed [image_downloaded] has done. *)
Lemma image_downloaded_inv response request info w c w' :
  image_downloaded response request info w = (Ok c, w') ->
  exists orig image buf,
    pil_open env (r_body response) = Ok orig
    /\ too_small cfg orig = false
    /\ convert_image orig None = Ok (image, buf)
    /\ c = md5sum env buf
    /\ (store_keeps_trace store ->
        exists thumbs,
          Forall2 (thumb_of env request image) (THUMBS cfg) thumbs
          /\ trace w' = trace w ++ EvOpen (r_body response)
                         :: map persist_event
                              ((ImagesPipeline.image_key (url request), image, buf)
                               :: thumbs)).
Proof.
  intros H.
  unfold image_downloaded, ImagesPipeline.image_downloaded, bind in H.
  fold get_images in H.
  destruct (get_images response request info w) as [[[first rest]|e] w0] eqn:Hg;
    [|discriminate].
  apply get_images_inv in Hg.
  destruct Hg as (orig & image & buf & Hopen & Hsmall & Hconv & -> & -> & ->).
  exists orig, image, buf. repeat (split; [assumption|]).
  fold for_images in H.
  rewrite for_images_cons in H. unfold ret at 1 in H.
  destruct (ImagesPipeline.call_persist store _ info _) as [[[]|e] w2] eqn:Hp;
    [|discriminate].
  cbn [snd] in H.
  destruct (for_images _ info (Some buf) w2) as [[r|e] w3] eqn:Hloop;
    [|discriminate].
  pose proof (for_images_keeps_first _ _ _ _ _ _ Hloop) as ->.
  unfold ret in H. injection H as <- <-.
  split; [reflexivity|].
  intros Hquiet.
  apply (call_persist_trace _ _ _ _ Hquiet) in Hp.
  destruct (for_images_thumbs _ _ _ _ Hquiet _ _ _ _ Hloop) as [thumbs [Hall Htr]].
  exists thumbs. split; [exact Hall|].
  rewrite Htr, Hp. cbn. rewrite <- !app_assoc. reflexivity.
Qed.

Lemma media_downloaded_inv response request info w o w' :
  downloaded response request info w = (Ok o, w') ->
  status response = 200
  /\ r_body response <> ""
  /\ exists c,
       image_downloaded response request info (entered response request w)
         = (Ok c, w')
       /\ o = {| o_url := url request;
                 o_path := ImagesPipeline.image_key (url request);
                 o_checksum := Some c |}.
Proof.
  intros H.
  destruct (Z.eq_dec (status response) 200) as [Hs|Hs].
  - destruct (String.eqb_spec (r_body response) "") as [Hb|Hb].
    + destruct (media_downloaded_empty_body response request info w Hb) as [t Ht].
      rewrite Ht in H. discriminate.
    + rewrite (media_downloaded_run _ _ _ _ Hs Hb) in H.
      repeat split; try assumption.
      destruct (image_downloaded response request info _) as [[c|[m|c m]] w1];
        try discriminate.
      injection H as <- <-. exists c. split; reflexivity.
  - destruct (media_downloaded_bad_status response request info w Hs) as [t Ht].
    rewrite Ht in H. discriminate.
Qed.


End Download.

(** ** The stores of the source keep the trace *)

Lemma fs_store_keeps_trace {S : Type} (env : Env S) (self : FSImagesStore.t) :
  store_keeps_trace (FSImagesStore.store env self).
Proof.
  intros key image buf info w. cbn.
  unfold FSImagesStore.persist_image, FSImagesStore._mkdir, bind,
    FSImagesStore.created_get, FSImagesStore.created_add, machine_read,
    machine_op, ret.
  repeat (case_match; simplify_eq; cbn in *; try reflexivity).
Qed.

Lemma s3_store_keeps_trace {S : Type} (env : Env S) (self : S3ImagesStore.t) :
  store_keeps_trace (S3ImagesStore.store env self).
Proof.
  intros key image buf info w. cbn.
  unfold S3ImagesStore.persist_image, S3ImagesStore._download_request, bind,
    ret, machine_op.
  repeat (case_match; simplify_eq; cbn in *; try reflexivity).
Qed.

(** ** The persist calls of a run *)

Section PersistRun.
Context {S : Type} (env : Env S) (cfg : Settings) (store : Store.t S).

Lemma persist_each_cons (a : artifact) rest info (w : world S) :
  persist_each store info (a :: rest) w
  = match ImagesPipeline.call_persist store a info w with
    | (Ok _, w1) => persist_each store info rest w1
    | (Raise e, w1) => (Raise e, w1)
    end.
Proof.
  rewrite call_persist_run. cbn [persist_each].
  destruct (Store.persist_image store _ _ _ _ _) as [[v|e] w1]; reflexivity.
Qed.


Lemma for_images_app l1 l2 info fb (w : world S) :
  ImagesPipeline.for_images store (l1 ++ l2) info fb w
  = match ImagesPipeline.for_images store l1 info fb w with
    | (Ok fb1, w1) => ImagesPipeline.for_images store l2 info fb1 w1
    | (Raise e, w1) => (Raise e, w1)
    end.
Proof.
  revert fb w. induction l1 as [|next l1 IH]; intros fb w; [reflexivity|].
  cbn [app]. rewrite !for_images_cons.
  destruct (next w) as [[a|e] w1]; [|reflexivity].
  destruct (ImagesPipeline.call_persist store a info w1) as [[u|e] w2];
    [|reflexivity].
  apply IH.
Qed.

(** The loop over suspended thumbnails that all convert makes the persist
    calls for them, and stops with the first call that raises. *)
Lemma for_images_thumbs_run request image info fb items thumbs :
  Forall2 (thumb_of env request image) items thumbs ->
  forall w : world S,
    ImagesPipeline.for_images store
      (map (ImagesPipeline.thumb_step env request image) items) info (Some fb) w
    = match persist_each store info thumbs w with
      | (Ok _, w1) => (Ok (Some fb), w1)
      | (Raise e, w1) => (Raise e, w1)
      end.
Proof.
  induction 1 as [|item a items thumbs (ti & tb & Hconv & ->) _ IH]; intros w.
  - reflexivity.
  - cbn [map]. rewrite for_images_cons, thumb_step_run, Hconv.
    rewrite persist_each_cons.
    destruct (ImagesPipeline.call_persist store _ info w) as [[u|e] w1];
      [apply IH|reflexivity].
Qed.

(** The loop is left at the first thumbnail that does not convert, after
    the persist calls for the thumbnails before it. *)
Lemma for_images_thumbs_stop request image info fb pre item post thumbs e :
  Forall2 (thumb_of env request image) pre thumbs ->
  ImagesPipeline.convert_image env image (Some (snd item)) = Raise e ->
  forall w : world S,
    ImagesPipeline.for_images store
      (map (ImagesPipeline.thumb_step env request image) (pre ++ item :: post))
      info (Some fb) w
    = match persist_each store info thumbs w with
      | (Ok _, w1) => (Raise e, w1)
      | (Raise e', w1) => (Raise e', w1)
      end.
Proof.
  intros Hpre Hitem w. rewrite map_app. cbn [map].
  rewrite for_images_app, (for_images_thumbs_run _ _ _ _ _ _ Hpre).
  destruct (persist_each store info thumbs w) as [[u|e'] w1]; [|reflexivity].
  rewrite for_images_cons, thumb_step_run, Hitem. reflexivity.
Qed.



(** Processing a payload one of whose thumbnails does not convert. *)
Lemma image_downloaded_stop response request info (w : world S) orig image buf
    pre item post thumbs e :
  pil_open env (r_body response) = Ok orig ->
  too_small cfg orig = false ->
  ImagesPipeline.convert_image env orig None = Ok (image, buf) ->
  THUMBS cfg = pre ++ item :: post ->
  Forall2 (thumb_of env request image) pre thumbs ->
  ImagesPipeline.convert_image env image (Some (snd item)) = Raise e ->
  ImagesPipeline.image_downloaded env cfg store response request info w
  = match persist_each store info
            ((ImagesPipeline.image_key (url request), image, buf) :: thumbs)
            (record w (EvOpen (r_body response))) with
    | (Ok _, w1) => (Raise e, w1)
    | (Raise e', w1) => (Raise e', w1)
    end.
Proof.
  intros Hopen Hsmall Hconv Hthumbs Hpre Hitem.
  unfold ImagesPipeline.image_downloaded, bind.
  rewrite (get_images_ok env cfg response request info w orig image buf
             Hopen Hsmall Hconv).
  cbv beta iota zeta.
  rewrite for_images_cons. unfold ret at 1. rewrite persist_each_cons.
  destruct (ImagesPipeline.call_persist store _ info _) as [[u|e'] w1];
    [|reflexivity].
  cbn [snd]. rewrite Hthumbs.
  rewrite (for_images_thumbs_stop _ _ _ _ _ _ _ _ _ Hpre Hitem).
  destruct (persist_each store info thumbs w1) as [[u'|e'] w2]; reflexivity.
Qed.


End PersistRun.

(** ** What a returning [persist_image] has done, store by store *)



(** ** Outcomes of the download handler *)

(** C6.  A response whose status is not 200, or whose body is empty, makes
    [media_downloaded] raise [ImageException].  The only call recorded is
    the warning it logs: the payload is not opened, nothing is persisted,
    and the machine is left as it was. *)
Theorem download_error_fails {S : Type} (env : Env S) (cfg : Settings)
    (store : Store.t S) (response : Response) (request : Request)
    (info : string) (w : world S) :
  status response <> 200 \/ r_body response = "" ->
  exists text,
    ImagesPipeline.media_downloaded env cfg store response request info w
    = (Raise (ImageException ""), record w (EvLog WARNING text)).
Proof.
  intros [Hs|Hb].
  - apply media_downloaded_bad_status. exact Hs.
  - apply media_downloaded_empty_body. exact Hb.
Qed.

Lemma download_error_fails_witness :
  (404 <> 200 \/ EmptyString = "")
  /\ exists text,
       ImagesPipeline.media_downloaded TestBed.env TestBed.cfg TestBed.fs_store
         {| status := 404; r_url := "http://example.com/a.jpg";
            r_body := "Not Found"; r_headers := []; flags := [] |}
         TestBed.request "spider" (TestBed.start 0 [] false)
       = (Raise (ImageException ""),
          record (TestBed.start 0 [] false) (EvLog WARNING text)).
Proof.
  split; [left; discriminate|].
  apply (download_error_fails TestBed.env TestBed.cfg TestBed.fs_store
           {| status := 404; r_url := "http://example.com/a.jpg";
              r_body := "Not Found"; r_headers := []; flags := [] |}
           TestBed.request "spider" (TestBed.start 0 [] false)).
  left. discriminate.
Defined.

(** C7.  When the payload decodes to an image narrower than [MIN_WIDTH] or
    shorter than [MIN_HEIGHT], processing raises [ImageException] with the
    message [Image too small (WxH < MIN_WIDTHxMIN_HEIGHT): url], which
    cites the actual and the required dimensions.  [image_downloaded] has
    only opened the payload; [media_downloaded] logs the message and
    re-raises.  No [persist_image] call is made and the machine is left as
    it was. *)
Theorem too_small_fails {S : Type} (env : Env S) (cfg : Settings)
    (store : Store.t S) (response : Response) (request : Request)
    (info : string) (w : world S) (orig : Image) :
  status response = 200 ->
  r_body response <> "" ->
  pil_open env (r_body response) = Ok orig ->
  fst (size orig) < MIN_WIDTH cfg \/ snd (size orig) < MIN_HEIGHT cfg ->
  let message :=
    "Image too small (" +:+ PyStr.fmt_d (fst (size orig)) +:+ "x"
    +:+ PyStr.fmt_d (snd (size orig)) +:+ " < " +:+ PyStr.fmt_d (MIN_WIDTH cfg)
    +:+ "x" +:+ PyStr.fmt_d (MIN_HEIGHT cfg) +:+ "): " +:+ r_url response in
  (forall w0,
     ImagesPipeline.image_downloaded env cfg store response request info w0
     = (Raise (ImageException message), record w0 (EvOpen (r_body response))))
  /\ ImagesPipeline.media_downloaded env cfg store response request info w
     = (Raise (ImageException message),
        record (record (entered response request w) (EvOpen (r_body response)))
          (EvLog WARNING message)).
Proof.
  intros Hs Hb Hopen Hdim message.
  assert (Hsmall : too_small cfg orig = true).
  { unfold too_small. apply orb_true_iff.
    destruct Hdim as [H|H]; [left|right]; apply Z.ltb_lt; exact H. }
  assert (Himg : forall w0,
             ImagesPipeline.image_downloaded env cfg store response request info w0
             = (Raise (ImageException message),
                record w0 (EvOpen (r_body response)))).
  { intros w0. unfold ImagesPipeline.image_downloaded, bind.
    rewrite (get_images_too_small env cfg response request info w0 orig
               Hopen Hsmall).
    reflexivity. }
  split; [exact Himg|].
  rewrite (media_downloaded_run env cfg store response request info w Hs Hb).
  rewrite Himg. reflexivity.
Qed.

Lemma too_small_fails_witness :
  (40 < 50 \/ 80 < 50)
  /\ ImagesPipeline.media_downloaded TestBed.env TestBed.cfg TestBed.fs_store
       (TestBed.response TestBed.payload_40x80) TestBed.request "spider"
       (TestBed.start 0 [] false)
     = (Raise (ImageException
                 "Image too small (40x80 < 50x50): http://example.com/a.jpg"),
        record
          (record (entered (TestBed.response TestBed.payload_40x80)
                     TestBed.request (TestBed.start 0 [] false))
             (EvOpen TestBed.payload_40x80))
          (EvLog WARNING
             "Image too small (40x80 < 50x50): http://example.com/a.jpg")).
Proof.
  split; [left; lia|].
  apply (proj2 (too_small_fails TestBed.env TestBed.cfg TestBed.fs_store
                  (TestBed.response TestBed.payload_40x80) TestBed.request
                  "spider" (TestBed.start 0 [] false)
                  {| mode := "P"; size := (40, 80);
                     pixels := TestBed.payload_40x80 |}
                  eq_refl ltac:(discriminate) eq_refl
                  ltac:(left; cbn; lia))).
Defined.

(** C8.  Whenever [media_downloaded] returns an outcome, its checksum is
    [md5sum] of the buffer the primary image was encoded into: the first
    buffer [get_images] yields, [convert_image] of the opened payload.  The
    settings, and with them [THUMBS], are arbitrary. *)
Theorem checksum_of_primary {S : Type} (env : Env S) (cfg : Settings)
    (store : Store.t S) (response : Response) (request : Request)
    (info : string) (w w' : world S) (o : outcome) :
  ImagesPipeline.media_downloaded env cfg store response request info w
    = (Ok o, w') ->
  exists orig image buf,
    pil_open env (r_body response) = Ok orig
    /\ ImagesPipeline.convert_image env orig None = Ok (image, buf)
    /\ o_checksum o = Some (md5sum env buf).
Proof.
  intros H.
  apply media_downloaded_inv in H. destruct H as (_ & _ & c & Himg & ->).
  apply image_downloaded_inv in Himg.
  destruct Himg as (orig & image & buf & Hopen & _ & Hconv & -> & _).
  exists orig, image, buf. auto.
Qed.

Lemma checksum_of_primary_witness :
  exists orig image buf,
    pil_open TestBed.env TestBed.payload_100x80 = Ok orig
    /\ ImagesPipeline.convert_image TestBed.env orig None = Ok (image, buf)
    /\ Some "md5(JPEG:100x80:dPpixels)" = Some (md5sum TestBed.env buf).
Proof.
  apply (checksum_of_primary TestBed.env TestBed.cfg TestBed.fs_store
           (TestBed.response TestBed.payload_100x80) TestBed.request "spider"
           (TestBed.start 0 [] false)
           (snd (ImagesPipeline.media_downloaded TestBed.env TestBed.cfg
                   TestBed.fs_store (TestBed.response TestBed.payload_100x80)
                   TestBed.request "spider" (TestBed.start 0 [] false)))
           {| o_url := "http://example.com/a.jpg";
              o_path := "full/99e087d9e04c1527ebd8026fd3cc31035e6c7210.jpg";
              o_checksum := Some "md5(JPEG:100x80:dPpixels)" |}).
  vm_compute. reflexivity.
Defined.



(** ** Failures of [persist_image] *)




(** *** Persist failures on the test machine

  On the read-only filesystem the first call raises and the resource
  fails.  On the writable filesystem every call returns.  On the S3 store
  with the network down every upload fails, as a failed deferred: every
  call returns and the outcome is produced.  With an engine that raises
  when it is called, the S3 store's first call raises and the resource
  fails. *)


(** ** Storage keys *)

Lemma string_length_append (a b : string) :
  String.length (a +:+ b) = (String.length a + String.length b)%nat.
Proof.
  induction a as [|c a IH]; [reflexivity|].
  change (S (String.length (a +:+ b))
          = S (String.length a + String.length b)%nat).
  f_equal. exact IH.
Qed.

Lemma hex_of_bytes_length (l : list Z) :
  String.length (PyStr.hex_of_bytes l) = (2 * List.length l)%nat.
Proof. induction l as [|b l IH]; cbn in *; [reflexivity|]. rewrite IH. lia. Qed.

Lemma hexdigit_is_hex (n : Z) :
  0 <= n < 16 -> PyStr.is_hexdigit (PyStr.hexdigit n) = true.
Proof.
  intros H. rewrite <- (Z2Nat.id n) by lia.
  assert (Hk : (Z.to_nat n < 16)%nat) by lia.
  revert Hk. generalize (Z.to_nat n) as k. intros k Hk.
  do 16 (destruct k as [|k]; [reflexivity|]). lia.
Qed.

Lemma hex_of_bytes_all_hex (l : list Z) :
  Forall (fun b => 0 <= b < 256) l ->
  PyStr.all_chars PyStr.is_hexdigit (PyStr.hex_of_bytes l) = true.
Proof.
  induction 1 as [|b l Hb _ IH]; [reflexivity|].
  cbn [PyStr.hex_of_bytes PyStr.hex_byte PyStr.all_chars].
  rewrite IH, !hexdigit_is_hex; [reflexivity| |].
  - apply Z.mod_pos_bound. lia.
  - split; [apply Z.div_pos; lia | apply Z.div_lt_upper_bound; lia].
Qed.

Lemma word_bytes_range (x : Z) :
  Forall (fun b => 0 <= b < 256) (Sha1.word_bytes x).
Proof. repeat constructor; apply Z.mod_pos_bound; lia. Qed.

Lemma state_bytes_shape (st : Sha1.state) :
  List.length (Sha1.state_bytes st) = 20%nat
  /\ Forall (fun b => 0 <= b < 256) (Sha1.state_bytes st).
Proof.
  destruct st as [[[[a b] c] d] e]. split; [reflexivity|].
  unfold Sha1.state_bytes.
  repeat (apply Forall_app; split); apply word_bytes_range.
Qed.

Lemma hexdigest_shape (s : string) :
  String.length (Sha1.hexdigest s) = 40%nat
  /\ PyStr.all_chars PyStr.is_hexdigit (Sha1.hexdigest s) = true.
Proof.
  unfold Sha1.hexdigest, Sha1.digest.
  destruct (state_bytes_shape (Sha1.digest_words (PyStr.bytes_of s))) as [Hl Hr].
  split.
  - rewrite hex_of_bytes_length, Hl. reflexivity.
  - apply hex_of_bytes_all_hex. exact Hr.
Qed.

(** C4 (as amended).  The storage keys are functions of the URL (and, for
    a thumbnail, of the variant name) and of nothing else: the key of the
    primary artifact is [full/<digest>.jpg] and the key of a variant is
    [thumbs/<variant-name>/<digest>.jpg], where the digest is the SHA-1 of
    the URL written as 40 lowercase hexadecimal characters. *)
Theorem storage_key_shape (url thumb_id : string) :
  ImagesPipeline.image_key url = "full/" +:+ Sha1.hexdigest url +:+ ".jpg"
  /\ ImagesPipeline.thumb_key url thumb_id
     = "thumbs/" +:+ thumb_id +:+ "/" +:+ Sha1.hexdigest url +:+ ".jpg"
  /\ String.length (Sha1.hexdigest url) = 40%nat
  /\ PyStr.all_chars PyStr.is_hexdigit (Sha1.hexdigest url) = true.
Proof.
  repeat split; try reflexivity; apply hexdigest_shape.
Qed.

(** C4 (as stated) fails.  The key of [http://example.com/a.jpg] is
    [full/99e087d9e04c1527ebd8026fd3cc31035e6c7210.jpg]; it is not of the
    form [full/<64 characters>.<ext>], whatever the extension. *)
Lemma storage_key_digest_not_64 :
  ImagesPipeline.image_key "http://example.com/a.jpg"
  = "full/99e087d9e04c1527ebd8026fd3cc31035e6c7210.jpg"
  /\ ~ exists digest ext,
         String.length digest = 64%nat
         /\ ImagesPipeline.image_key "http://example.com/a.jpg"
            = "full/" +:+ digest +:+ "." +:+ ext.
Proof.
  split; [vm_compute; reflexivity|].
  intros (digest & ext & Hlen & Hkey).
  apply (f_equal String.length) in Hkey.
  rewrite !string_length_append, Hlen in Hkey.
  vm_compute in Hkey. lia.
Qed.

(** ** Request fingerprints *)

Section Fingerprint.
Variable canonicalize_url : string -> bool -> string.

Let fingerprint := RequestUtils.fingerprint canonicalize_url.
Let compute := RequestUtils.compute_fingerprint canonicalize_url.
Let coherent := RequestUtils.cache_coherent canonicalize_url.

Lemma selected_headers_ext A B processed :
  RequestUtils.same_selected_headers A B processed ->
  RequestUtils.selected_headers A processed
  = RequestUtils.selected_headers B processed.
Proof.
  destruct processed as [[|h l]|]; try reflexivity.
  unfold RequestUtils.same_selected_headers, RequestUtils.selected_headers.
  generalize (h :: l) as hs. generalize (@nil (string * list string)) as acc.
  intros acc hs. revert acc.
  induction hs as [|x hs IH]; intros acc Hall; [reflexivity|].
  inversion Hall as [|? ? Hx Hrest]; subst.
  cbn [fold_left]. rewrite Hx. apply IH. exact Hrest.
Qed.

(** The hashed document depends on the request only through its method,
    its canonical URL, its body and the selected headers. *)
Lemma fingerprint_json_ext A B processed keep_fragments :
  RequestUtils.method A = RequestUtils.method B ->
  canonicalize_url (RequestUtils.url A) keep_fragments
    = canonicalize_url (RequestUtils.url B) keep_fragments ->
  RequestUtils.body A = RequestUtils.body B ->
  RequestUtils.same_selected_headers A B processed ->
  RequestUtils.fingerprint_json canonicalize_url A processed keep_fragments
  = RequestUtils.fingerprint_json canonicalize_url B processed keep_fragments.
Proof.
  intros Hm Hu Hb Hh. unfold RequestUtils.fingerprint_json.
  rewrite Hm, Hu, Hb, (selected_headers_ext A B processed Hh). reflexivity.
Qed.

(** On a coherent cache, hit or miss, the result is the computed digest. *)
Lemma fingerprint_value request include_headers keep_fragments c :
  coherent c request ->
  fst (fingerprint request include_headers keep_fragments c)
  = compute request
      (RequestUtils.process_include_headers include_headers, keep_fragments).
Proof.
  intros Hc. unfold fingerprint, RequestUtils.fingerprint. cbv zeta.
  destruct (c !! RequestUtils.oid request) as [inner|] eqn:Hinner; cbn [default from_option id].
  - destruct (inner !! (_, _)) as [fp|] eqn:Hfp; [|reflexivity].
    cbn [fst]. eapply Hc; eassumption.
  - rewrite lookup_empty. reflexivity.
Qed.

Lemma empty_cache_coherent request : coherent ∅ request.
Proof. intros inner key fp H. rewrite lookup_empty in H. discriminate. Qed.

(** A call keeps the cache coherent for the request it was made on, and
    for every other request object. *)
Lemma fingerprint_keeps_coherence request include_headers keep_fragments c other :
  coherent c request ->
  coherent c other ->
  RequestUtils.oid other <> RequestUtils.oid request \/ other = request ->
  coherent (snd (fingerprint request include_headers keep_fragments c)) other.
Proof.
  intros Hreq Hother Hid inner key fp.
  unfold fingerprint, RequestUtils.fingerprint. cbv zeta.
  destruct (c !! RequestUtils.oid request) as [stored|] eqn:Hstored; cbn [default from_option id].
  - destruct (stored !! (_, _)) as [hit|] eqn:Hhit; cbn [snd].
    + rewrite insert_id by exact Hstored. apply Hother.
    + destruct Hid as [Hne | ->].
      * rewrite lookup_insert_ne by congruence. apply Hother.
      * rewrite lookup_insert_eq. intros [= <-].
        rewrite lookup_insert. case_decide as Hk.
        -- intros [= <-]. subst key. reflexivity.
        -- intros Hfp. eapply Hreq; eassumption.
  - rewrite lookup_empty. cbn [snd].
    destruct Hid as [Hne | ->].
    + rewrite lookup_insert_ne by congruence. apply Hother.
    + rewrite lookup_insert_eq. intros [= <-].
      rewrite lookup_insert. case_decide as Hk.
      * intros [= <-]. subst key. reflexivity.
      * rewrite lookup_empty. discriminate.
Qed.

Lemma fingerprint_deterministic A B include_headers keep_fragments cA cB :
  coherent cA A ->
  coherent cB B ->
  RequestUtils.method A = RequestUtils.method B ->
  canonicalize_url (RequestUtils.url A) keep_fragments
    = canonicalize_url (RequestUtils.url B) keep_fragments ->
  RequestUtils.body A = RequestUtils.body B ->
  RequestUtils.same_selected_headers A B
    (RequestUtils.process_include_headers include_headers) ->
  fst (fingerprint A include_headers keep_fragments cA)
  = fst (fingerprint B include_headers keep_fragments cB).
Proof.
  intros HcA HcB Hm Hu Hb Hh.
  rewrite !fingerprint_value by assumption.
  unfold compute, RequestUtils.compute_fingerprint. cbn [fst snd].
  rewrite (fingerprint_json_ext A B _ _ Hm Hu Hb Hh). reflexivity.
Qed.

End Fingerprint.

(** ** The hashed document determines the body and the method *)

Lemma append_assoc (a b c : string) : (a +:+ b) +:+ c = a +:+ (b +:+ c).
Proof.
  induction a as [|x a IH]; [reflexivity|].
  change (String x ((a +:+ b) +:+ c) = String x (a +:+ (b +:+ c))).
  f_equal. exact IH.
Qed.

Lemma append_cancel_l (p x y : string) : p +:+ x = p +:+ y -> x = y.
Proof.
  induction p as [|c p IH]; intros H; [exact H|].
  change (String c (p +:+ x) = String c (p +:+ y)) in H.
  injection H as H. apply IH. exact H.
Qed.

Lemma unescape_escape_char (c : ascii) (x : string) :
  Json.unescape_char (Json.escape_char c +:+ x) = Some (c, x).
Proof.
  destruct c as [[|] [|] [|] [|] [|] [|] [|] [|]]; vm_compute; reflexivity.
Qed.

Lemma unescape_quote (x : string) : Json.unescape_char (Json.dq +:+ x) = None.
Proof. reflexivity. Qed.

Lemma unhex_hex_byte (c : ascii) :
  Json.unhex_pair (PyStr.hexdigit (Z.of_N (N_of_ascii c) / 16))
    (PyStr.hexdigit (Z.of_N (N_of_ascii c) mod 16)) = c.
Proof.
  destruct c as [[|] [|] [|] [|] [|] [|] [|] [|]]; vm_compute; reflexivity.
Qed.

(** A hexadecimal digit is written as itself, and is not a brace. *)
Lemma escape_hexdigit (c : ascii) :
  PyStr.is_hexdigit c = true ->
  Json.escape_char c = String c EmptyString /\ Ascii.eqb c "}" = false.
Proof.
  destruct c as [[|] [|] [|] [|] [|] [|] [|] [|]]; vm_compute;
    intros H; try discriminate H; split; reflexivity.
Qed.

Lemma escape_cons (c : ascii) (s x : string) :
  Json.escape (String c s) +:+ x = Json.escape_char c +:+ (Json.escape s +:+ x).
Proof. cbn [Json.escape]. apply append_assoc. Qed.

(** An escaped string followed by the closing quote can be read back. *)
Lemma escape_append_inj (s1 : string) :
  forall s2 r1 r2,
    Json.escape s1 +:+ (Json.dq +:+ r1) = Json.escape s2 +:+ (Json.dq +:+ r2) ->
    s1 = s2 /\ r1 = r2.
Proof.
  induction s1 as [|c1 s1 IH]; intros [|c2 s2] r1 r2 H.
  - split; [reflexivity|]. apply (append_cancel_l Json.dq). exact H.
  - exfalso. rewrite escape_cons in H.
    apply (f_equal Json.unescape_char) in H.
    rewrite unescape_escape_char in H. discriminate H.
  - exfalso. rewrite escape_cons in H.
    apply (f_equal Json.unescape_char) in H.
    rewrite unescape_escape_char in H. discriminate H.
  - rewrite !escape_cons in H.
    apply (f_equal Json.unescape_char) in H.
    rewrite !unescape_escape_char in H. injection H as -> H.
    destruct (IH _ _ _ H) as [-> ->]. split; reflexivity.
Qed.

Lemma str_append_inj (s1 s2 r1 r2 : string) :
  Json.str s1 +:+ r1 = Json.str s2 +:+ r2 -> s1 = s2 /\ r1 = r2.
Proof.
  unfold Json.str. rewrite !append_assoc. intros H.
  apply append_cancel_l in H. apply escape_append_inj. exact H.
Qed.

Lemma hex_inj (s1 : string) : forall s2, PyStr.hex s1 = PyStr.hex s2 -> s1 = s2.
Proof.
  unfold PyStr.hex.
  induction s1 as [|c1 s1 IH]; intros [|c2 s2] H; cbn in H;
    try discriminate H; [reflexivity|].
  unfold PyStr.hex_byte in H. injection H as Hh Hl Hrest.
  rewrite <- (unhex_hex_byte c1), <- (unhex_hex_byte c2), Hh, Hl.
  f_equal. apply IH. exact Hrest.
Qed.

(** Text without a closing brace, followed by one, can be split off. *)
Lemma brace_split (i1 : string) :
  forall i2 t1 t2,
    Json.no_brace i1 = true -> Json.no_brace i2 = true ->
    i1 +:+ ("}" +:+ t1) = i2 +:+ ("}" +:+ t2) ->
    i1 = i2 /\ t1 = t2.
Proof.
  induction i1 as [|c1 i1 IH]; intros [|c2 i2] t1 t2 H1 H2 H.
  - split; [reflexivity|]. apply (append_cancel_l "}"). exact H.
  - exfalso. change (String "}" t1 = String c2 (i2 +:+ ("}" +:+ t2))) in H.
    injection H as <- _. cbn in H2. discriminate H2.
  - exfalso. change (String c1 (i1 +:+ ("}" +:+ t1)) = String "}" t2) in H.
    injection H as -> _. cbn in H1. discriminate H1.
  - change (String c1 (i1 +:+ ("}" +:+ t1)) = String c2 (i2 +:+ ("}" +:+ t2))) in H.
    injection H as -> H. cbn in H1, H2.
    apply andb_true_iff in H1, H2.
    destruct (IH _ _ _ (proj2 H1) (proj2 H2) H) as [-> ->].
    split; reflexivity.
Qed.

Lemma no_brace_append (a b : string) :
  Json.no_brace (a +:+ b) = Json.no_brace a && Json.no_brace b.
Proof.
  induction a as [|c a IH]; [reflexivity|].
  change (negb (Ascii.eqb c "}") && Json.no_brace (a +:+ b)
          = negb (Ascii.eqb c "}") && Json.no_brace a && Json.no_brace b).
  rewrite IH. apply andb_assoc.
Qed.

Lemma no_brace_escape_hexstr (s : string) :
  Json.hexstr s -> Json.no_brace (Json.escape s) = true.
Proof.
  unfold Json.hexstr.
  induction s as [|c s IH]; intros H; [reflexivity|].
  cbn in H. apply andb_true_iff in H. destruct H as [Hc Hs].
  destruct (escape_hexdigit c Hc) as [Hesc Hnb].
  cbn [Json.escape]. rewrite Hesc, no_brace_append, (IH Hs).
  cbn. rewrite Hnb. reflexivity.
Qed.

Lemma no_brace_str_hexstr (s : string) :
  Json.hexstr s -> Json.no_brace (Json.str s) = true.
Proof.
  intros H. unfold Json.str.
  rewrite !no_brace_append, (no_brace_escape_hexstr s H). reflexivity.
Qed.

Lemma no_brace_join (items : list string) :
  Forall (fun x => Json.no_brace x = true) items ->
  Json.no_brace (Json.join items) = true.
Proof.
  induction 1 as [|x items Hx Hrest IH]; [reflexivity|].
  destruct items as [|y items]; [exact Hx|].
  change (Json.join (x :: y :: items)) with (x +:+ ", " +:+ Json.join (y :: items)).
  rewrite !no_brace_append, Hx, IH. reflexivity.
Qed.

Lemma no_brace_list_of_str (l : list string) :
  Forall Json.hexstr l -> Json.no_brace (Json.list_of_str l) = true.
Proof.
  intros H. unfold Json.list_of_str.
  rewrite !no_brace_append, no_brace_join; [reflexivity|].
  induction H as [|s l Hs _ IH]; constructor; [|exact IH].
  apply no_brace_str_hexstr. exact Hs.
Qed.

Lemma bytes_of_range (s : string) :
  Forall (fun b => 0 <= b < 256) (PyStr.bytes_of s).
Proof.
  induction s as [|c s IH]; constructor; [|exact IH].
  pose proof (N_ascii_bounded c). lia.
Qed.

Lemma hex_is_hexstr (s : string) : Json.hexstr (PyStr.hex s).
Proof. apply hex_of_bytes_all_hex, bytes_of_range. Qed.

Lemma dict_set_hex d k v :
  Json.hex_items d -> Json.hexstr k -> Forall Json.hexstr v ->
  Json.hex_items (RequestUtils.dict_set d k v).
Proof.
  intros Hd Hk Hv. induction Hd as [|[k' v'] d Hkv Hd IH]; cbn.
  - repeat constructor; assumption.
  - destruct (String.eqb k' k); constructor; try assumption.
    split; assumption.
Qed.

Lemma selected_headers_hex request processed :
  Json.hex_items (RequestUtils.selected_headers request processed).
Proof.
  unfold RequestUtils.selected_headers.
  destruct processed as [[|h l]|]; try constructor.
  assert (Hacc : Json.hex_items []) by constructor.
  revert Hacc. generalize (h :: l) as hs.
  generalize (@nil (string * list string)) as acc.
  intros acc hs. revert acc.
  induction hs as [|x hs IH]; intros acc Hacc; [exact Hacc|].
  cbn [fold_left]. apply IH.
  destruct (RequestUtils.getlist (RequestUtils.headers request) x) as [values|];
    [|exact Hacc].
  apply dict_set_hex; [exact Hacc|apply hex_is_hexstr|].
  induction values; constructor; [apply hex_is_hexstr|assumption].
Qed.

Lemma insert_item_hex kv l :
  Json.hexstr (fst kv) /\ Forall Json.hexstr (snd kv) ->
  Json.hex_items l -> Json.hex_items (Json.insert_item kv l).
Proof.
  intros Hkv Hl. unfold Json.hex_items in *.
  induction Hl as [|x l Hx Hl IH]; cbn [Json.insert_item].
  - constructor; [exact Hkv|constructor].
  - destruct (String.leb (fst kv) (fst x)).
    + constructor; [exact Hkv|]. constructor; assumption.
    + constructor; assumption.
Qed.

Lemma sort_items_hex d : Json.hex_items d -> Json.hex_items (Json.sort_items d).
Proof.
  unfold Json.sort_items.
  induction 1 as [|kv d Hkv Hd IH]; [constructor|].
  cbn [fold_right]. apply insert_item_hex; assumption.
Qed.

Lemma dict_append_inj dA dB tA tB :
  Json.hex_items dA -> Json.hex_items dB ->
  Json.dict_of_lists dA +:+ tA = Json.dict_of_lists dB +:+ tB ->
  tA = tB.
Proof.
  intros HA HB H. unfold Json.dict_of_lists in H.
  rewrite !append_assoc in H. apply append_cancel_l in H.
  assert (Hinner : forall d, Json.hex_items d ->
            Json.no_brace
              (Json.join
                 (map (fun kv => Json.str (fst kv) +:+ ": "
                                 +:+ Json.list_of_str (snd kv))
                    (Json.sort_items d))) = true).
  { intros d Hd. apply no_brace_join.
    apply sort_items_hex in Hd.
    induction Hd as [|kv l [Hk Hv] _ IH]; constructor; [|exact IH].
    rewrite !no_brace_append, (no_brace_str_hexstr _ Hk),
      (no_brace_list_of_str _ Hv). reflexivity. }
  apply (brace_split _ _ _ _ (Hinner dA HA) (Hinner dB HB)) in H.
  apply H.
Qed.

(** Two requests with the same hashed document have the same body and the
    same method. *)
Lemma fingerprint_json_inj (canonicalize_url : string -> bool -> string)
    (A B : RequestUtils.Request) pA pB kA kB :
  RequestUtils.fingerprint_json canonicalize_url A pA kA
  = RequestUtils.fingerprint_json canonicalize_url B pB kB ->
  RequestUtils.body A = RequestUtils.body B
  /\ RequestUtils.method A = RequestUtils.method B.
Proof.
  unfold RequestUtils.fingerprint_json. intros H.
  apply append_cancel_l in H.
  apply str_append_inj in H. destruct H as [_ H].
  apply append_cancel_l in H.
  apply str_append_inj in H. destruct H as [Hbody H].
  apply hex_inj in Hbody. split; [exact Hbody|].
  apply append_cancel_l in H.
  apply str_append_inj in H. destruct H as [_ H].
  apply append_cancel_l in H.
  apply dict_append_inj in H; [|apply selected_headers_hex..].
  apply append_cancel_l in H.
  apply str_append_inj in H. destruct H as [_ H].
  apply append_cancel_l in H.
  apply str_append_inj in H. apply H.
Qed.

(** ** Digests are finitely many *)

Lemma bounded_search (f : nat -> nat) (v n : nat) :
  (exists i, (i <= n)%nat /\ f i = v) \/ (forall i, (i <= n)%nat -> f i <> v).
Proof.
  induction n as [|n [(i & Hi & Hv) | Hnone]].
  - destruct (Nat.eq_dec (f 0%nat) v) as [He|Hne].
    + left. exists 0%nat. split; [lia|exact He].
    + right. intros i Hi. replace i with 0%nat by lia. exact Hne.
  - left. exists i. split; [lia|exact Hv].
  - destruct (Nat.eq_dec (f (Datatypes.S n)) v) as [He|Hne].
    + left. exists (Datatypes.S n). split; [lia|exact He].
    + right. intros i Hi.
      destruct (Nat.eq_dec i (Datatypes.S n)) as [->|Hd]; [exact Hne|].
      apply Hnone. lia.
Qed.

(** More than [n] inputs mapped below [n]: two of them collide. *)
Lemma pigeonhole (n : nat) :
  forall f : nat -> nat,
    (forall i, (i <= n)%nat -> (f i < n)%nat) ->
    exists i j, (i < j <= n)%nat /\ f i = f j.
Proof.
  induction n as [|n IH]; intros f Hf.
  - specialize (Hf 0%nat). lia.
  - destruct (bounded_search f (f (Datatypes.S n)) n) as [(i & Hi & Hv) | Hnone].
    + exists i, (Datatypes.S n). split; [lia|exact Hv].
    + pose (g := fun i => if (f i <? f (Datatypes.S n))%nat then f i
                          else (f i - 1)%nat).
      destruct (IH g) as (i & j & Hij & Hg).
      * intros i Hi. unfold g.
        pose proof (Hf i ltac:(lia)). pose proof (Hf (Datatypes.S n) ltac:(lia)).
        pose proof (Hnone i Hi).
        destruct (Nat.ltb_spec (f i) (f (Datatypes.S n))); lia.
      * exists i, j. split; [lia|].
        pose proof (Hnone i ltac:(lia)). pose proof (Hnone j ltac:(lia)).
        unfold g in Hg.
        destruct (Nat.ltb_spec (f i) (f (Datatypes.S n)));
          destruct (Nat.ltb_spec (f j) (f (Datatypes.S n))); lia.
Qed.

Lemma pigeonhole_Z (bound : Z) (f : nat -> Z) :
  (forall i, 0 <= f i < bound) ->
  exists i j, (i < j)%nat /\ f i = f j.
Proof.
  intros Hf.
  destruct (pigeonhole (Z.to_nat bound) (fun i => Z.to_nat (f i)))
    as (i & j & Hij & He).
  - intros i _. apply Z2Nat.inj_lt; apply Hf || (specialize (Hf i); lia).
  - exists i, j. split; [lia|].
    apply Z2Nat.inj; [apply Hf..|exact He].
Qed.

Lemma compress_in_range (h : Sha1.state) (block : list Z) :
  Sha1.state_in_range (Sha1.compress h block).
Proof.
  unfold Sha1.compress. destruct h as [[[[h0 h1] h2] h3] h4].
  destruct (Sha1.rounds 0 _ _) as [[[[a b] c] d] e].
  unfold Sha1.state_in_range, Sha1.word32, Sha1.add32, Sha1.mask32.
  repeat split; apply Z.mod_pos_bound; reflexivity.
Qed.

Lemma digest_words_in_range (msg : list Z) :
  Sha1.state_in_range (Sha1.digest_words msg).
Proof.
  unfold Sha1.digest_words.
  generalize (Sha1.blocks (List.length (Sha1.words_of (Sha1.pad msg)))
                (Sha1.words_of (Sha1.pad msg))) as bs.
  assert (Hinit : Sha1.state_in_range Sha1.init).
  { unfold Sha1.state_in_range, Sha1.word32, Sha1.init.
    repeat split; (reflexivity || discriminate). }
  revert Hinit. generalize Sha1.init as h. intros h Hh bs. revert h Hh.
  induction bs as [|b bs IH]; intros h Hh; [exact Hh|].
  cbn [fold_left]. apply IH. apply compress_in_range.
Qed.

Lemma state_num_bounded (st : Sha1.state) :
  Sha1.state_in_range st -> 0 <= Sha1.state_num st < 2 ^ 160.
Proof.
  destruct st as [[[[a b] c] d] e].
  unfold Sha1.state_in_range, Sha1.word32, Sha1.state_num.
  change (2 ^ 32) with 4294967296.
  change (2 ^ 160) with 1461501637330902918203684832716283019655932542976.
  lia.
Qed.

Lemma state_num_inj (s t : Sha1.state) :
  Sha1.state_in_range s -> Sha1.state_in_range t ->
  Sha1.state_num s = Sha1.state_num t -> s = t.
Proof.
  destruct s as [[[[a b] c] d] e]. destruct t as [[[[a' b'] c'] d'] e'].
  unfold Sha1.state_in_range, Sha1.word32, Sha1.state_num.
  change (2 ^ 32) with 4294967296.
  intros Hs Ht H.
  assert (a = a' /\ b = b' /\ c = c' /\ d = d' /\ e = e') as (-> & -> & -> & -> & ->)
    by lia.
  reflexivity.
Qed.

Lemma letters_length (n : nat) : String.length (RequestUtils.letters n) = n.
Proof. induction n as [|n IH]; cbn; [reflexivity|]. rewrite IH. reflexivity. Qed.

(** Two requests that differ only in their bodies and have the same
    fingerprint exist: there are more bodies than digests. *)
Lemma fingerprint_not_injective :
  exists A B : RequestUtils.Request,
    RequestUtils.method A = RequestUtils.method B
    /\ RequestUtils.url A = RequestUtils.url B
    /\ RequestUtils.headers A = RequestUtils.headers B
    /\ RequestUtils.body A <> RequestUtils.body B
    /\ fst (RequestUtils.fingerprint RequestUtils.canonicalize_url_model
              A None false ∅)
       = fst (RequestUtils.fingerprint RequestUtils.canonicalize_url_model
                B None false ∅).
Proof.
  pose (doc := fun n =>
          RequestUtils.fingerprint_json RequestUtils.canonicalize_url_model
            (RequestUtils.padded n) None false).
  destruct (pigeonhole_Z (2 ^ 160)
              (fun n => Sha1.state_num (Sha1.digest_words (PyStr.bytes_of (doc n)))))
    as (i & j & Hij & He).
  { intros n. apply state_num_bounded, digest_words_in_range. }
  apply state_num_inj in He; try apply digest_words_in_range.
  exists (RequestUtils.padded i), (RequestUtils.padded j).
  repeat split.
  - cbn. intros Hb. apply (f_equal String.length) in Hb.
    rewrite !letters_length in Hb. lia.
  - rewrite !fingerprint_value by apply empty_cache_coherent.
    unfold RequestUtils.compute_fingerprint, Sha1.digest. cbn [fst snd].
    change (RequestUtils.process_include_headers None) with (@None (list string)).
    fold (doc i). fold (doc j). rewrite He. reflexivity.
Qed.

(** C3 (as amended).  For requests whose cached digests, if any, were
    computed from the requests as they are now:
    - two requests with the same method, the same canonical URL, the same
      body and the same values for the selected headers have the same
      fingerprint, whatever their other fields;
    - with a canonicalizer that drops the fragment and [keep_fragments]
      off, two requests whose URLs differ only in the fragment have the
      same fingerprint;
    - the fingerprint is the SHA-1 digest of the JSON document, and two
      requests with different bodies or different methods have different
      documents, so their fingerprints differ unless SHA-1 collides on
      those two documents. *)
Theorem fingerprint_semantic (canonicalize_url : string -> bool -> string)
    (A B : RequestUtils.Request) (include_headers : option (list string))
    (keep_fragments : bool)
    (cA cB : gmap positive (gmap RequestUtils.cache_key (list Z))) :
  RequestUtils.cache_coherent canonicalize_url cA A ->
  RequestUtils.cache_coherent canonicalize_url cB B ->
  (RequestUtils.method A = RequestUtils.method B ->
   canonicalize_url (RequestUtils.url A) keep_fragments
     = canonicalize_url (RequestUtils.url B) keep_fragments ->
   RequestUtils.body A = RequestUtils.body B ->
   RequestUtils.same_selected_headers A B
     (RequestUtils.process_include_headers include_headers) ->
   fst (RequestUtils.fingerprint canonicalize_url A include_headers
          keep_fragments cA)
   = fst (RequestUtils.fingerprint canonicalize_url B include_headers
            keep_fragments cB))
  /\ ((forall base fa fb,
         canonicalize_url (base +:+ "#" +:+ fa) false
         = canonicalize_url (base +:+ "#" +:+ fb) false) ->
      forall base fa fb,
        RequestUtils.url A = base +:+ "#" +:+ fa ->
        RequestUtils.url B = base +:+ "#" +:+ fb ->
        RequestUtils.method A = RequestUtils.method B ->
        RequestUtils.body A = RequestUtils.body B ->
        RequestUtils.same_selected_headers A B
          (RequestUtils.process_include_headers include_headers) ->
        fst (RequestUtils.fingerprint canonicalize_url A include_headers false cA)
        = fst (RequestUtils.fingerprint canonicalize_url B include_headers
                 false cB))
  /\ fst (RequestUtils.fingerprint canonicalize_url A include_headers
            keep_fragments cA)
     = Sha1.digest
         (RequestUtils.fingerprint_json canonicalize_url A
            (RequestUtils.process_include_headers include_headers)
            keep_fragments)
  /\ (RequestUtils.body A <> RequestUtils.body B
      \/ RequestUtils.method A <> RequestUtils.method B ->
      forall pA pB kA kB,
        RequestUtils.fingerprint_json canonicalize_url A pA kA
        <> RequestUtils.fingerprint_json canonicalize_url B pB kB).
Proof.
  intros HcA HcB. repeat split.
  - intros Hm Hu Hb Hh. apply fingerprint_deterministic; assumption.
  - intros Hcanon base fa fb HuA HuB Hm Hb Hh.
    apply fingerprint_deterministic; try assumption.
    rewrite HuA, HuB. apply Hcanon.
  - rewrite fingerprint_value by exact HcA. reflexivity.
  - intros Hdiff pA pB kA kB Hdoc.
    apply fingerprint_json_inj in Hdoc. destruct Hdoc as [Hb Hm].
    destruct Hdiff as [Hd|Hd]; apply Hd; assumption.
Qed.

Lemma strip_fragment_append (base f : string) :
  RequestUtils.strip_fragment (base +:+ "#" +:+ f)
  = RequestUtils.strip_fragment base.
Proof.
  induction base as [|c base IH]; [reflexivity|].
  change (RequestUtils.strip_fragment (String c (base +:+ "#" +:+ f))
          = RequestUtils.strip_fragment (String c base)).
  cbn [RequestUtils.strip_fragment]. rewrite IH. reflexivity.
Qed.

Lemma canonicalize_url_model_drops_fragment (base fa fb : string) :
  RequestUtils.canonicalize_url_model (base +:+ "#" +:+ fa) false
  = RequestUtils.canonicalize_url_model (base +:+ "#" +:+ fb) false.
Proof.
  unfold RequestUtils.canonicalize_url_model.
  rewrite !strip_fragment_append. reflexivity.
Qed.

Lemma fingerprint_semantic_witness :
  fst (RequestUtils.fingerprint RequestUtils.canonicalize_url_model
         (RequestUtils.page_request 1 "top" "session=1" 0)
         (Some ["Accept"]) false ∅)
  = fst (RequestUtils.fingerprint RequestUtils.canonicalize_url_model
           (RequestUtils.page_request 2 "bottom" "session=2" 10)
           (Some ["Accept"]) false ∅).
Proof.
  apply (proj1 (proj2 (fingerprint_semantic RequestUtils.canonicalize_url_model
                         (RequestUtils.page_request 1 "top" "session=1" 0)
                         (RequestUtils.page_request 2 "bottom" "session=2" 10)
                         (Some ["Accept"]) false ∅ ∅
                         (empty_cache_coherent _ _) (empty_cache_coherent _ _)))
           canonicalize_url_model_drops_fragment
           "http://example.com/page" "top" "bottom"
           eq_refl eq_refl eq_refl eq_refl).
  repeat constructor.
Defined.

(** C3 (as stated) fails, in two ways.
    - A request is fingerprinted on its [X-Token] header and the header is
      then overwritten.  The request and a new request agree on method,
      URL, body and the selected header, yet the first gets the digest
      cached before the change and the second a different one.
    - Requests with one method and one URL and different bodies that have
      the same fingerprint exist, since there are more bodies than
      digests. *)
Lemma fingerprint_claim_refuted :
  (let include_headers := Some ["X-Token"] in
   let before := RequestUtils.token_request 1 "old" in
   let A := RequestUtils.token_request 1 "new" in
   let B := RequestUtils.token_request 2 "new" in
   let cache :=
     snd (RequestUtils.fingerprint RequestUtils.canonicalize_url_model
            before include_headers false ∅) in
   RequestUtils.oid A = RequestUtils.oid before
   /\ RequestUtils.method A = RequestUtils.method B
   /\ RequestUtils.url A = RequestUtils.url B
   /\ RequestUtils.body A = RequestUtils.body B
   /\ RequestUtils.headers A = RequestUtils.headers B
   /\ fst (RequestUtils.fingerprint RequestUtils.canonicalize_url_model
             A include_headers false cache)
      = fst (RequestUtils.fingerprint RequestUtils.canonicalize_url_model
               before include_headers false ∅)
   /\ fst (RequestUtils.fingerprint RequestUtils.canonicalize_url_model
             A include_headers false cache)
      <> fst (RequestUtils.fingerprint RequestUtils.canonicalize_url_model
                B include_headers false cache))
  /\ exists A B : RequestUtils.Request,
       RequestUtils.method A = RequestUtils.method B
       /\ RequestUtils.url A = RequestUtils.url B
       /\ RequestUtils.headers A = RequestUtils.headers B
       /\ RequestUtils.body A <> RequestUtils.body B
       /\ fst (RequestUtils.fingerprint RequestUtils.canonicalize_url_model
                 A None false ∅)
          = fst (RequestUtils.fingerprint RequestUtils.canonicalize_url_model
                   B None false ∅).
Proof.
  split; [|exact fingerprint_not_injective].
  cbv zeta. do 5 (split; [reflexivity|]). split.
  - vm_compute. reflexivity.
  - vm_compute. discriminate.
Qed.

(** * Further properties of the images pipeline *)

Section ProcessingFailures.
Context {S : Type} (env : Env S) (cfg : Settings) (store : Store.t S).

(** How [media_downloaded] reports an exception of [image_downloaded]. *)
Lemma media_downloaded_raise response request info w e w1 :
  status response = 200 ->
  r_body response <> "" ->
  ImagesPipeline.image_downloaded env cfg store response request info
    (entered response request w) = (Raise e, w1) ->
  ImagesPipeline.media_downloaded env cfg store response request info w
  = match e with
    | ImageException m => (Raise (ImageException m), record w1 (EvLog WARNING m))
    | Exception _ _ => (Raise (ImageException ""), record w1 (EvLogErr ""))
    end.
Proof.
  intros Hs Hb H.
  rewrite (media_downloaded_run env cfg store response request info w Hs Hb), H.
  destruct e; reflexivity.
Qed.

(** An exception before the first [yield] leaves [image_downloaded] with
    only the opening of the payload recorded. *)
Lemma image_downloaded_get_images_raise response request info w e w0 :
  ImagesPipeline.get_images env cfg response request info w = (Raise e, w0) ->
  ImagesPipeline.image_downloaded env cfg store response request info w
  = (Raise e, w0).
Proof.
  intros H. unfold ImagesPipeline.image_downloaded, bind. rewrite H. reflexivity.
Qed.

Lemma get_images_open_raise response request info w e :
  pil_open env (r_body response) = Raise e ->
  ImagesPipeline.get_images env cfg response request info w
  = (Raise e, record w (EvOpen (r_body response))).
Proof.
  intros H. unfold ImagesPipeline.get_images, bind, emit, lift_result.
  rewrite H. reflexivity.
Qed.

Lemma get_images_convert_raise response request info w orig e :
  pil_open env (r_body response) = Ok orig ->
  too_small cfg orig = false ->
  ImagesPipeline.convert_image env orig None = Raise e ->
  ImagesPipeline.get_images env cfg response request info w
  = (Raise e, record w (EvOpen (r_body response))).
Proof.
  intros Hopen Hsmall Hconv.
  unfold ImagesPipeline.get_images, bind, emit, lift_result.
  rewrite Hopen. unfold too_small in Hsmall.
  destruct (size orig) as [width height]. cbn in Hsmall. rewrite Hsmall.
  unfold bind. rewrite Hconv. reflexivity.
Qed.

End ProcessingFailures.

(** X1.  The two download callbacks fail a resource with [ImageException]
    and with nothing else: whatever the store and the imaging library
    raise, an exception leaving [media_downloaded] is an [ImageException],
    and [media_failed] raises [ImageException] for every failure, logging a
    warning unless the failure is an [IgnoreRequest]. *)
Theorem callbacks_raise_only_ImageException {S : Type} (env : Env S)
    (cfg : Settings) (store : Store.t S) (response : Response)
    (request : Request) (info : string) (w : world S) :
  (forall e w',
     ImagesPipeline.media_downloaded env cfg store response request info w
       = (Raise e, w') ->
     exists m, e = ImageException m)
  /\ (forall failure,
        exists w',
          ImagesPipeline.media_failed failure request info w
          = (Raise (ImageException ""), w')
          /\ machine w' = machine w
          /\ (ImagesPipeline.is_IgnoreRequest failure = true -> w' = w)
          /\ (ImagesPipeline.is_IgnoreRequest failure = false ->
              exists text, w' = record w (EvLog WARNING text))).
Proof.
  split.
  - intros e w' H.
    destruct (Z.eq_dec (status response) 200) as [Hs|Hs].
    + destruct (String.eqb_spec (r_body response) "") as [Hb|Hb].
      * destruct (media_downloaded_empty_body env cfg store response request
                    info w Hb) as [t Ht].
        rewrite Ht in H. injection H as <- _. eauto.
      * rewrite (media_downloaded_run env cfg store response request info w
                   Hs Hb) in H.
        destruct (ImagesPipeline.image_downloaded env cfg store response
                    request info _) as [[c|[m|c m]] w1];
          [discriminate| |]; injection H as <- _; eauto.
    + destruct (media_downloaded_bad_status env cfg store response request
                  info w Hs) as [t Ht].
      rewrite Ht in H. injection H as <- _. eauto.
  - intros failure. unfold ImagesPipeline.media_failed, bind.
    destruct (ImagesPipeline.is_IgnoreRequest failure); cbn.
    + exists w. repeat split; try reflexivity. discriminate.
    + eexists. repeat split; try discriminate. eexists. reflexivity.
Qed.

Lemma callbacks_raise_only_ImageException_witness :
  exists m,
    Exception "OSError" "Read-only file system" <> ImageException m
    /\ fst (ImagesPipeline.media_downloaded TestBed.env TestBed.cfg
              TestBed.fs_store (TestBed.response TestBed.payload_100x80)
              TestBed.request "spider" (TestBed.start 0 [] true))
       = Raise (ImageException m).
Proof.
  destruct (proj1 (callbacks_raise_only_ImageException TestBed.env TestBed.cfg
                     TestBed.fs_store (TestBed.response TestBed.payload_100x80)
                     TestBed.request "spider" (TestBed.start 0 [] true))
              (ImageException "")
              (snd (ImagesPipeline.media_downloaded TestBed.env TestBed.cfg
                      TestBed.fs_store (TestBed.response TestBed.payload_100x80)
                      TestBed.request "spider" (TestBed.start 0 [] true)))
              ltac:(vm_compute; reflexivity)) as [m Hm].
  exists m. split; [discriminate|]. rewrite <- Hm. vm_compute. reflexivity.
Defined.

(** X2.  A payload that the imaging library cannot open fails the resource
    without a message: the exception of [Image.open] is not an
    [ImageException], so it goes to [log.err] and [ImageException] is
    raised with no text.  The payload was opened and nothing else was
    called: nothing is persisted. *)
Theorem undecodable_payload_fails {S : Type} (env : Env S) (cfg : Settings)
    (store : Store.t S) (response : Response) (request : Request)
    (info : string) (w : world S) (cls msg : string) :
  status response = 200 ->
  r_body response <> "" ->
  pil_open env (r_body response) = Raise (Exception cls msg) ->
  ImagesPipeline.media_downloaded env cfg store response request info w
  = (Raise (ImageException ""),
     record (record (entered response request w) (EvOpen (r_body response)))
       (EvLogErr "")).
Proof.
  intros Hs Hb Hopen.
  rewrite (media_downloaded_raise env cfg store response request info w
             (Exception cls msg)
             (record (entered response request w) (EvOpen (r_body response)))
             Hs Hb); [reflexivity|].
  apply image_downloaded_get_images_raise, get_images_open_raise. exact Hopen.
Qed.

Lemma undecodable_payload_fails_witness :
  ImagesPipeline.media_downloaded TestBed.env TestBed.cfg TestBed.fs_store
    (TestBed.response "x") TestBed.request "spider" (TestBed.start 0 [] false)
  = (Raise (ImageException ""),
     record (record (entered (TestBed.response "x") TestBed.request
                       (TestBed.start 0 [] false)) (EvOpen "x"))
       (EvLogErr "")).
Proof.
  apply (undecodable_payload_fails TestBed.env TestBed.cfg TestBed.fs_store
           (TestBed.response "x") TestBed.request "spider"
           (TestBed.start 0 [] false) "IOError" "cannot identify image file"
           eq_refl ltac:(discriminate) eq_refl).
Defined.

(** X3.  When the primary image cannot be encoded, the resource fails with
    the message [Cannot process image. Error: ...] carrying the text of the
    encoder's exception; the message is logged as a warning and nothing is
    persisted. *)
Theorem encode_failure_fails {S : Type} (env : Env S) (cfg : Settings)
    (store : Store.t S) (response : Response) (request : Request)
    (info : string) (w : world S) (orig rgb : Image) (ex : exn) :
  status response = 200 ->
  r_body response <> "" ->
  pil_open env (r_body response) = Ok orig ->
  too_small cfg orig = false ->
  (if String.eqb (mode orig) "RGB" then rgb = orig
   else pil_convert env orig "RGB" = Ok rgb) ->
  pil_save env rgb "JPEG" = Raise ex ->
  let message := "Cannot process image. Error: " +:+ exn_str ex in
  ImagesPipeline.media_downloaded env cfg store response request info w
  = (Raise (ImageException message),
     record (record (entered response request w) (EvOpen (r_body response)))
       (EvLog WARNING message)).
Proof.
  intros Hs Hb Hopen Hsmall Hrgb Hsave message.
  rewrite (media_downloaded_raise env cfg store response request info w
             (ImageException message)
             (record (entered response request w) (EvOpen (r_body response)))
             Hs Hb); [reflexivity|].
  apply image_downloaded_get_images_raise.
  apply (get_images_convert_raise env cfg response request info _ orig _
           Hopen Hsmall).
  unfold ImagesPipeline.convert_image, rbind.
  destruct (String.eqb (mode orig) "RGB"); cbn.
  - subst rgb. rewrite Hsave. reflexivity.
  - rewrite Hrgb, Hsave. reflexivity.
Qed.

Lemma encode_failure_fails_witness :
  ImagesPipeline.media_downloaded TestBed.env_no_encoder TestBed.cfg
    (FSImagesStore.store TestBed.env_no_encoder
       {| FSImagesStore.basedir := "/srv/images" |})
    (TestBed.response TestBed.payload_100x80) TestBed.request "spider"
    (TestBed.start 0 [] false)
  = (Raise (ImageException
              "Cannot process image. Error: encoder jpeg not available"),
     record (record (entered (TestBed.response TestBed.payload_100x80)
                       TestBed.request (TestBed.start 0 [] false))
               (EvOpen TestBed.payload_100x80))
       (EvLog WARNING "Cannot process image. Error: encoder jpeg not available")).
Proof.
  apply (encode_failure_fails TestBed.env_no_encoder TestBed.cfg
           (FSImagesStore.store TestBed.env_no_encoder
              {| FSImagesStore.basedir := "/srv/images" |})
           (TestBed.response TestBed.payload_100x80) TestBed.request "spider"
           (TestBed.start 0 [] false)
           {| mode := "P"; size := (100, 80); pixels := "dPpixels" |}
           {| mode := "RGB"; size := (100, 80); pixels := "dPpixels" |}
           (Exception "IOError" "encoder jpeg not available")
           eq_refl ltac:(discriminate) eq_refl eq_refl eq_refl eq_refl).
Defined.

(** X4.  Thumbnails are produced one at a time, each after the artifacts
    before it were persisted.  When the conversion of one thumbnail fails
    after the [persist_image] calls for the primary artifact and for the
    thumbnails listed before it have returned, the resource fails with
    [ImageException], and the world is the one the last of these calls
    left, with the failure logged: what they stored is not rolled back, and
    for the thumbnails after the failing one nothing is converted or
    persisted. *)
Theorem thumbnail_failure_keeps_persisted {S : Type} (env : Env S)
    (cfg : Settings) (store : Store.t S) (response : Response)
    (request : Request) (info : string) (w w1 : world S) (orig image : Image)
    (buf : string) (pre post : list (string * (Z * Z)))
    (item : string * (Z * Z)) (thumbs : list artifact) (e : exn) :
  status response = 200 ->
  r_body response <> "" ->
  pil_open env (r_body response) = Ok orig ->
  too_small cfg orig = false ->
  ImagesPipeline.convert_image env orig None = Ok (image, buf) ->
  THUMBS cfg = pre ++ item :: post ->
  Forall2 (thumb_of env request image) pre thumbs ->
  ImagesPipeline.convert_image env image (Some (snd item)) = Raise e ->
  persist_each store info
    ((ImagesPipeline.image_key (url request), image, buf) :: thumbs)
    (record (entered response request w) (EvOpen (r_body response)))
  = (Ok tt, w1) ->
  ImagesPipeline.media_downloaded env cfg store response request info w
  = (Raise (ImageException
              match e with ImageException m => m | Exception _ _ => "" end),
     record w1
       match e with
       | ImageException m => EvLog WARNING m
       | Exception _ _ => EvLogErr ""
       end).
Proof.
  intros Hs Hb Hopen Hsmall Hconv Hthumbs Hpre Hitem Hrun.
  rewrite (media_downloaded_raise env cfg store response request info w e w1
             Hs Hb).
  - destruct e; reflexivity.
  - rewrite (image_downloaded_stop env cfg store response request info
               (entered response request w) orig image buf pre item post
               thumbs e Hopen Hsmall Hconv Hthumbs Hpre Hitem).
    rewrite Hrun. reflexivity.
Qed.

(** On the test machine with thumbnails listed large first and a library
    that cannot resize below 60 pixels: the primary artifact and the large
    thumbnail are in the filesystem when the resource fails. *)
Lemma thumbnail_failure_keeps_persisted_witness :
  let env := TestBed.env_no_small_thumbnail in
  let store := FSImagesStore.store env {| FSImagesStore.basedir := "/srv/images" |} in
  let response := TestBed.response TestBed.payload_100x80 in
  let image := {| mode := "RGB"; size := (100, 80); pixels := "dPpixels" |} in
  let arts : list artifact :=
    [ ("full/99e087d9e04c1527ebd8026fd3cc31035e6c7210.jpg", image,
       "JPEG:100x80:dPpixels");
      ("thumbs/big/99e087d9e04c1527ebd8026fd3cc31035e6c7210.jpg", image,
       "JPEG:100x80:dPpixels") ] in
  ImagesPipeline.media_downloaded env TestBed.cfg_big_first store response
    TestBed.request "spider" (TestBed.start 0 [] false)
  = (Raise (ImageException ""),
     record
       (snd (persist_each store "spider" arts
               (record (entered response TestBed.request
                          (TestBed.start 0 [] false))
                  (EvOpen TestBed.payload_100x80))))
       (EvLogErr ""))
  /\ map fst
       (TestBed.files
          (machine
             (snd (ImagesPipeline.media_downloaded env TestBed.cfg_big_first
                     store response TestBed.request "spider"
                     (TestBed.start 0 [] false)))))
     = [ "/srv/images/thumbs/big/99e087d9e04c1527ebd8026fd3cc31035e6c7210.jpg";
         "/srv/images/full/99e087d9e04c1527ebd8026fd3cc31035e6c7210.jpg" ].
Proof.
  intros env store response image arts.
  split; [|vm_compute; reflexivity].
  apply (thumbnail_failure_keeps_persisted env TestBed.cfg_big_first store
           response TestBed.request "spider" (TestBed.start 0 [] false)
           (snd (persist_each store "spider" arts
                   (record (entered response TestBed.request
                              (TestBed.start 0 [] false))
                      (EvOpen TestBed.payload_100x80))))
           {| mode := "P"; size := (100, 80); pixels := "dPpixels" |}
           image "JPEG:100x80:dPpixels"
           [("big", (270, 270))] [("tiny", (10, 10))] ("small", (50, 50))
           (tl arts) (Exception "MemoryError" "out of memory")
           eq_refl ltac:(discriminate) eq_refl eq_refl eq_refl eq_refl).
  - repeat constructor. eexists _, _. split; vm_compute; reflexivity.
  - reflexivity.
  - vm_compute. reflexivity.
Defined.

Section Outcomes.
Context {S : Type} (env : Env S) (cfg : Settings) (store : Store.t S).

(** When the callback returns an outcome, the stat result carried a
    timestamp, and the outcome is built from the request, the key and the
    stat's checksum. *)
Lemma _onsuccess_some request info key v w o w' :
  ImagesPipeline._onsuccess env cfg request info key v w = (Ok (Some o), w') ->
  exists d,
    v = Some d
    /\ o = {| o_url := url request; o_path := key; o_checksum := checksum d |}
    /\ machine w' = machine w.
Proof.
  unfold ImagesPipeline._onsuccess.
  destruct v as [[[lm|] cs]|]; [| |intros H; discriminate H].
  - intros H. exists {| last_modified := Some lm; checksum := cs |}.
    split; [reflexivity|].
    destruct cs; cbn in H;
      (destruct (negb (Qtruthy lm)); [discriminate H|]);
      unfold bind, machine_read in H;
      (destruct (Qgtb _ _); [discriminate H|]);
      cbn in H; injection H as <- <-; split; reflexivity.
  - destruct cs; intros H; discriminate H.
Qed.

Lemma media_to_download_some request info w o w' :
  ImagesPipeline.media_to_download env cfg store request info w
    = (Ok (Ok (Some o)), w') ->
  exists d w1,
    Store.stat_image store (ImagesPipeline.image_key (url request)) info w
      = (Ok (Some d), w1)
    /\ o = {| o_url := url request;
              o_path := ImagesPipeline.image_key (url request);
              o_checksum := checksum d |}
    /\ machine w' = machine w1.
Proof.
  intros H.
  destruct (Store.stat_image store (ImagesPipeline.image_key (url request))
              info w) as [[v|e] w1] eqn:Hstat.
  - destruct (_onsuccess_returns env cfg request info
                (ImagesPipeline.image_key (url request)) v w1) as (o1 & w2 & Hcb).
    rewrite (media_to_download_stat_ok env cfg store request info w v w1 Hstat
               o1 w2 Hcb) in H.
    injection H as -> ->.
    apply _onsuccess_some in Hcb. destruct Hcb as (d & -> & Ho & Hm).
    exists d, w1. auto.
  - rewrite (media_to_download_stat_raise env cfg store request info w e w1
               Hstat) in H.
    discriminate H.
Qed.

End Outcomes.

(** X5.  Every outcome names its resource in the same way: whether the
    image was downloaded and persisted or found fresh in the store, the
    outcome carries the request's URL and the storage key [image_key(url)],
    the key that was statted and under which the primary artifact is
    persisted.  A fresh outcome carries the checksum the store reported,
    and the check has changed nothing on the machine after the stat. *)
Theorem outcome_names_resource {S : Type} (env : Env S) (cfg : Settings)
    (store : Store.t S) (response : Response) (request : Request)
    (info : string) (w : world S) :
  (forall o w',
     ImagesPipeline.media_downloaded env cfg store response request info w
       = (Ok o, w') ->
     o_url o = url request
     /\ o_path o = ImagesPipeline.image_key (url request))
  /\ (forall o w',
        ImagesPipeline.media_to_download env cfg store request info w
          = (Ok (Ok (Some o)), w') ->
        o_url o = url request
        /\ o_path o = ImagesPipeline.image_key (url request)
        /\ exists d w1,
             Store.stat_image store (ImagesPipeline.image_key (url request))
               info w = (Ok (Some d), w1)
             /\ o_checksum o = checksum d
             /\ machine w' = machine w1).
Proof.
  split; intros o w' H.
  - apply media_downloaded_inv in H. destruct H as (_ & _ & c & _ & ->).
    split; reflexivity.
  - apply media_to_download_some in H. destruct H as (d & w1 & Hstat & -> & Hm).
    repeat split. exists d, w1. auto.
Qed.

Lemma outcome_names_resource_witness :
  o_path {| o_url := "http://example.com/a.jpg";
            o_path := "full/99e087d9e04c1527ebd8026fd3cc31035e6c7210.jpg";
            o_checksum := Some "md5(JPEG:100x80:dPpixels)" |}
  = ImagesPipeline.image_key (url TestBed.request)
  /\ o_path {| o_url := "http://example.com/a.jpg";
               o_path := "full/99e087d9e04c1527ebd8026fd3cc31035e6c7210.jpg";
               o_checksum := Some "md5(JPEG:old)" |}
     = ImagesPipeline.image_key (url TestBed.request).
Proof.
  split.
  - apply (proj1 (outcome_names_resource TestBed.env TestBed.cfg
                    TestBed.fs_store (TestBed.response TestBed.payload_100x80)
                    TestBed.request "spider" (TestBed.start 0 [] false))
             _ (snd (ImagesPipeline.media_downloaded TestBed.env TestBed.cfg
                       TestBed.fs_store
                       (TestBed.response TestBed.payload_100x80)
                       TestBed.request "spider" (TestBed.start 0 [] false)))).
    vm_compute. reflexivity.
  - apply (proj2 (outcome_names_resource TestBed.env TestBed.cfg
                    TestBed.fs_store (TestBed.response TestBed.payload_100x80)
                    TestBed.request "spider"
                    (TestBed.start 7862400 (TestBed.stored 86400) false))
             _ (snd (ImagesPipeline.media_to_download TestBed.env TestBed.cfg
                       TestBed.fs_store TestBed.request "spider"
                       (TestBed.start 7862400 (TestBed.stored 86400) false)))).
    vm_compute. reflexivity.
Defined.

(** * Further properties of the filesystem store *)

Lemma split_on_no_sep (sep : ascii) (s : string) :
  Forall (fun comp => PyStr.all_chars (fun c => negb (Ascii.eqb c sep)) comp = true)
    (PyStr.split_on sep s).
Proof.
  induction s as [|c s IH]; cbn [PyStr.split_on].
  - repeat constructor.
  - destruct (Ascii.eqb c sep) eqn:Hc.
    + constructor; [reflexivity|exact IH].
    + destruct (PyStr.split_on sep s) as [|h t].
      * repeat constructor. cbn. rewrite Hc. reflexivity.
      * inversion IH as [|? ? Hh Ht]; subst. constructor; [|exact Ht].
        cbn. rewrite Hc, Hh. reflexivity.
Qed.

Lemma no_slash_not_absolute (comp : string) :
  PyStr.all_chars (fun c => negb (Ascii.eqb c OsPath.slash)) comp = true ->
  OsPath.starts_with_slash comp = false.
Proof.
  destruct comp as [|c comp]; [reflexivity|]. cbn.
  intros H. apply andb_true_iff in H. destruct H as [H _].
  apply negb_true_iff in H. exact H.
Qed.

(** Joining relative components only appends to the path. *)
Lemma join_relative (p : list string) :
  forall a,
    Forall (fun b => OsPath.starts_with_slash b = false) p ->
    exists rest, OsPath.join a p = a +:+ rest.
Proof.
  unfold OsPath.join.
  induction p as [|b p IH]; intros a Hall; cbn [fold_left].
  - exists EmptyString. clear. induction a as [|c a IHa]; [reflexivity|].
    change (String c a = String c (a +:+ EmptyString)). f_equal. exact IHa.
  - inversion Hall as [|? ? Hb Hp]; subst. rewrite Hb.
    destruct (String.eqb a "" || OsPath.ends_with_slash a).
    + destruct (IH (a +:+ b) Hp) as [rest Hrest].
      exists (b +:+ rest). rewrite Hrest. apply append_assoc.
    + destruct (IH (a +:+ "/" +:+ b) Hp) as [rest Hrest].
      exists ("/" +:+ b +:+ rest). rewrite Hrest.
      rewrite !append_assoc. reflexivity.
Qed.

(** X6.  The file of a key is always placed by appending to the store's
    base directory: the key is cut at its slashes, so no component is an
    absolute path and [os.path.join] never starts over from the root. *)
Theorem fs_path_under_basedir (self : FSImagesStore.t) (key : string) :
  exists rest,
    FSImagesStore._get_filesystem_path self key
    = FSImagesStore.basedir self +:+ rest.
Proof.
  unfold FSImagesStore._get_filesystem_path.
  apply join_relative.
  pose proof (split_on_no_sep "/" key) as H.
  induction H as [|comp l Hc _ IH]; constructor; [|exact IH].
  apply no_slash_not_absolute. exact Hc.
Qed.

(** Case analysis of one [_mkdir] call for a spider. *)
Ltac mkdir_cases :=
  unfold FSImagesStore._mkdir, bind, FSImagesStore.created_get,
    FSImagesStore.created_add, machine_read, machine_op, ret;
  repeat (case_match; simplify_eq; cbn in *; try discriminate);
  intros; simplify_eq; cbn.

Ltac mkdir_lookup :=
  rewrite ?lookup_insert_eq;
  repeat match goal with
         | H : created_directories _ !! _ = _ |- _ => rewrite H
         end.

Lemma mkdir_returns_remembered {S : Type} (env : Env S) (self : FSImagesStore.t)
    (dirname domain : string) (w w1 : world S) :
  FSImagesStore._mkdir env self dirname (Some domain) w = (Ok tt, w1) ->
  exists seen, created_directories w1 !! domain = Some seen /\ dirname ∈ seen.
Proof.
  mkdir_cases; eexists; (split; [first [eassumption|apply lookup_insert_eq]|]);
    set_solver.
Qed.

Lemma mkdir_remembered_returns {S : Type} (env : Env S) (self : FSImagesStore.t)
    (dirname domain : string) (w : world S) (seen : gset string) :
  created_directories w !! domain = Some seen ->
  dirname ∈ seen ->
  FSImagesStore._mkdir env self dirname (Some domain) w = (Ok tt, w).
Proof.
  intros Hlook Hin.
  unfold FSImagesStore._mkdir, bind, FSImagesStore.created_get.
  rewrite Hlook. rewrite decide_True by exact Hin. reflexivity.
Qed.

(** X7.  [_mkdir] remembers, per spider, the directories it has made sure
    of.  After a call for a spider has returned, the same call returns at
    once and changes nothing, whatever the filesystem would answer.  A call
    that raised has not put the directory in the spider's set, and a call
    without a spider leaves [created_directories] as it was. *)
Theorem mkdir_memoized {S : Type} (env env' : Env S) (self : FSImagesStore.t)
    (dirname domain : string) (w w1 : world S) :
  (FSImagesStore._mkdir env self dirname (Some domain) w = (Ok tt, w1) ->
   dirname ∈ default ∅ (created_directories w1 !! domain)
   /\ FSImagesStore._mkdir env' self dirname (Some domain) w1 = (Ok tt, w1))
  /\ (forall e,
        FSImagesStore._mkdir env self dirname (Some domain) w = (Raise e, w1) ->
        dirname ∉ default ∅ (created_directories w1 !! domain))
  /\ (forall r,
        FSImagesStore._mkdir env self dirname None w = (r, w1) ->
        created_directories w1 = created_directories w).
Proof.
  split; [|split].
  - intros H. apply mkdir_returns_remembered in H.
    destruct H as (seen & Hlook & Hin). split.
    + rewrite Hlook. exact Hin.
    + eapply mkdir_remembered_returns; eassumption.
  - intros e. mkdir_cases; mkdir_lookup; cbn; set_solver.
  - intros r.
    unfold FSImagesStore._mkdir, bind, machine_read, machine_op, ret.
    repeat (case_match; simplify_eq; cbn in *; try discriminate);
      intros; simplify_eq; reflexivity.
Qed.

Lemma mkdir_memoized_witness :
  let self := {| FSImagesStore.basedir := "/srv/images" |} in
  let w1 := snd (FSImagesStore._mkdir TestBed.env self "/srv/images/full"
                   (Some "spider") (TestBed.start 0 [] false)) in
  FSImagesStore._mkdir TestBed.env_no_encoder self "/srv/images/full"
    (Some "spider") w1 = (Ok tt, w1).
Proof.
  cbv zeta.
  apply (proj1 (mkdir_memoized TestBed.env TestBed.env_no_encoder
                  {| FSImagesStore.basedir := "/srv/images" |}
                  "/srv/images/full" "spider" (TestBed.start 0 [] false) _)).
  vm_compute. reflexivity.
Defined.

Lemma append_cancel_r (a : string) :
  forall b t, a +:+ t = b +:+ t -> a = b.
Proof.
  induction a as [|x a IH]; intros [|y b] t H.
  - reflexivity.
  - exfalso. apply (f_equal String.length) in H.
    change (EmptyString +:+ t) with t in H.
    change (String y b +:+ t) with (String y (b +:+ t)) in H.
    cbn [String.length] in H. rewrite string_length_append in H. lia.
  - exfalso. apply (f_equal String.length) in H.
    change (EmptyString +:+ t) with t in H.
    change (String x a +:+ t) with (String x (a +:+ t)) in H.
    cbn [String.length] in H. rewrite string_length_append in H. lia.
  - change (String x (a +:+ t) = String y (b +:+ t)) in H.
    injection H as -> H. f_equal. eapply IH. exact H.
Qed.

(** X8.  Artifacts of different roles never share a storage key: the key
    of a primary artifact differs from every thumbnail key, and two
    variants of one resource have the same key only if they have the same
    name.  So no artifact of a resource overwrites another. *)
Theorem storage_keys_distinct (url url' thumb_id id1 id2 : string) :
  ImagesPipeline.image_key url <> ImagesPipeline.thumb_key url' thumb_id
  /\ (ImagesPipeline.thumb_key url id1 = ImagesPipeline.thumb_key url id2 ->
      id1 = id2).
Proof.
  split.
  - unfold ImagesPipeline.image_key, ImagesPipeline.thumb_key. intros H.
    change ("full/" +:+ Sha1.hexdigest url +:+ ".jpg")
      with (String "f" ("ull/" +:+ Sha1.hexdigest url +:+ ".jpg")) in H.
    change ("thumbs/" +:+ thumb_id +:+ "/" +:+ Sha1.hexdigest url' +:+ ".jpg")
      with (String "t" ("humbs/" +:+ thumb_id +:+ "/" +:+ Sha1.hexdigest url'
                        +:+ ".jpg")) in H.
    discriminate H.
  - unfold ImagesPipeline.thumb_key. intros H.
    apply append_cancel_l in H. eapply append_cancel_r. exact H.
Qed.

Lemma storage_keys_distinct_witness :
  ImagesPipeline.thumb_key "http://example.com/a.jpg" "small"
  = ImagesPipeline.thumb_key "http://example.com/a.jpg" "small"
  /\ "small" = "small".
Proof.
  split; [reflexivity|].
  apply (proj2 (storage_keys_distinct "http://example.com/a.jpg"
                  "http://example.com/a.jpg" "small" "small" "small")).
  reflexivity.
Defined.

(** * Further properties of the S3 store *)

Lemma split1_found (sep : ascii) (b p : string) :
  PyStr.all_chars (fun c => negb (Ascii.eqb c sep)) b = true ->
  PyStr.split1 sep (b +:+ String sep p) = [b; p].
Proof.
  induction b as [|c b IH]; intros H.
  - change (EmptyString +:+ String sep p) with (String sep p).
    cbn [PyStr.split1]. rewrite Ascii.eqb_refl. reflexivity.
  - change (String c b +:+ String sep p) with (String c (b +:+ String sep p)).
    cbn in H. apply andb_true_iff in H. destruct H as [Hc Hb].
    apply negb_true_iff in Hc.
    cbn [PyStr.split1]. rewrite Hc, (IH Hb). reflexivity.
Qed.

Lemma split1_two (sep : ascii) (s : string) :
  forall b p,
    PyStr.split1 sep s = [b; p] ->
    s = b +:+ String sep p
    /\ PyStr.all_chars (fun c => negb (Ascii.eqb c sep)) b = true.
Proof.
  induction s as [|c s IH]; intros b p H; cbn [PyStr.split1] in H.
  - discriminate H.
  - destruct (Ascii.eqb c sep) eqn:Hc.
    + injection H as <- <-. apply Ascii.eqb_eq in Hc. subst c.
      split; reflexivity.
    + destruct (PyStr.split1 sep s) as [|h t] eqn:Hs; [discriminate H|].
      injection H as <- ->.
      destruct (IH h p eq_refl) as [-> Hh]. split.
      * reflexivity.
      * cbn. rewrite Hc, Hh. reflexivity.
Qed.

Lemma startswith_drop (p : string) :
  forall s, PyStr.startswith p s = true -> s = p +:+ PyStr.drop (String.length p) s.
Proof.
  induction p as [|a p IH]; intros [|b s] H; cbn in H; try discriminate H;
    try reflexivity.
  apply andb_true_iff in H. destruct H as [Hab Hp].
  apply Ascii.eqb_eq in Hab. subst b.
  change (String a s = String a (p +:+ PyStr.drop (String.length p) s)).
  f_equal. apply IH. exact Hp.
Qed.

(** X9.  [S3ImagesStore(uri)] accepts exactly the URIs of the form
    [s3://<bucket>/<prefix>] with no slash in the bucket, and keeps the
    bucket and the prefix as they are written: the URI can be read back
    from the store.  A URI that does not start with [s3://] fails the
    assertion, and one with no slash after the bucket cannot be unpacked. *)
Theorem s3_uri_round_trip (use_custom_spider : bool) (uri : string)
    (self : S3ImagesStore.t) :
  (S3ImagesStore.__init__ use_custom_spider uri = Ok self
   <-> uri = "s3://" +:+ S3ImagesStore.bucket self +:+ "/"
             +:+ S3ImagesStore.prefix self
       /\ PyStr.all_chars (fun c => negb (Ascii.eqb c "/"))
            (S3ImagesStore.bucket self) = true
       /\ S3ImagesStore.s3_spider self = use_custom_spider)
  /\ (PyStr.startswith "s3://" uri = false ->
      S3ImagesStore.__init__ use_custom_spider uri
      = Raise (Exception "AssertionError" ""))
  /\ (PyStr.startswith "s3://" uri = true ->
      PyStr.all_chars (fun c => negb (Ascii.eqb c "/")) (PyStr.drop 5 uri) = true ->
      S3ImagesStore.__init__ use_custom_spider uri
      = Raise (Exception "ValueError" "need more than 1 value to unpack")).
Proof.
  unfold S3ImagesStore.__init__. split; [split|split].
  - destruct (PyStr.startswith "s3://" uri) eqn:Hp; cbn [negb]; [|discriminate].
    apply startswith_drop in Hp. cbn [String.length] in Hp.
    destruct (PyStr.split1 "/" (PyStr.drop 5 uri)) as [|b [|p [|x l]]] eqn:Hs;
      try discriminate.
    intros [= <-]. cbn. apply split1_two in Hs. destruct Hs as [Hs Hb].
    rewrite Hp, Hs. auto.
  - intros (-> & Hb & <-). destruct self as [b p f]. cbn in *.
    change ("s3://" +:+ b +:+ "/" +:+ p)
      with (String "s" (String "3" (String ":" (String "/" (String "/"
              (b +:+ String "/" p)))))).
    cbn [PyStr.startswith PyStr.drop Ascii.eqb Bool.eqb andb negb].
    rewrite (split1_found "/" b p Hb). reflexivity.
  - intros ->. reflexivity.
  - intros -> Hno. cbn [negb].
    assert (Hone : forall s, PyStr.all_chars (fun c => negb (Ascii.eqb c "/")) s = true ->
                             PyStr.split1 "/" s = [s]).
    { induction s as [|c s IH]; intros H; [reflexivity|].
      cbn in H. apply andb_true_iff in H. destruct H as [Hc Hs].
      apply negb_true_iff in Hc. cbn [PyStr.split1]. rewrite Hc, (IH Hs).
      reflexivity. }
    rewrite (Hone _ Hno). reflexivity.
Qed.

Lemma s3_uri_round_trip_witness :
  S3ImagesStore.__init__ true "s3://media/img/"
  = Ok {| S3ImagesStore.bucket := "media"; S3ImagesStore.prefix := "img/";
          S3ImagesStore.s3_spider := true |}
  /\ S3ImagesStore.__init__ true "http://media/img/"
     = Raise (Exception "AssertionError" "")
  /\ S3ImagesStore.__init__ true "s3://media"
     = Raise (Exception "ValueError" "need more than 1 value to unpack").
Proof.
  pose proof (s3_uri_round_trip true "s3://media/img/"
                {| S3ImagesStore.bucket := "media"; S3ImagesStore.prefix := "img/";
                   S3ImagesStore.s3_spider := true |}) as (Hok & _ & _).
  pose proof (s3_uri_round_trip true "http://media/img/"
                {| S3ImagesStore.bucket := "media"; S3ImagesStore.prefix := "img/";
                   S3ImagesStore.s3_spider := true |}) as (_ & Hassert & _).
  pose proof (s3_uri_round_trip true "s3://media"
                {| S3ImagesStore.bucket := "media"; S3ImagesStore.prefix := "img/";
                   S3ImagesStore.s3_spider := true |}) as (_ & _ & Hunpack).
  split; [apply Hok; repeat split|split].
  - apply Hassert. reflexivity.
  - apply Hunpack; reflexivity.
Defined.

Section S3Stat.
Context {S : Type} (env : Env S).

(** The S3 stat: one HEAD request, then the callback on its response. *)
Lemma s3_stat_image_run self key info w :
  S3ImagesStore.stat_image env self key info w
  = match engine_download env
            (S3ImagesStore._build_request self key "HEAD" None [])
            (if S3ImagesStore.s3_spider self
             then S3ImagesStore.s3_spider_name else info) (machine w) with
    | (Ok (Ok response), s) =>
        S3ImagesStore._onsuccess env response
          (Build_world s (trace w) (created_directories w))
    | (Ok (Raise e), s) | (Raise e, s) =>
        (Raise e, Build_world s (trace w) (created_directories w))
    end.
Proof.
  unfold S3ImagesStore.stat_image, S3ImagesStore._download_request, bind,
    machine_op.
  destruct (engine_download env _ _ (machine w)) as [[[response|e]|e] s]; cbn.
  - unfold maybeDeferred, lift_result.
    destruct (S3ImagesStore._onsuccess env response _) as [[v|e] w']; reflexivity.
  - reflexivity.
  - reflexivity.
Qed.

(** The callback on a 200 response, by what the response carries. *)
Lemma s3_onsuccess_200 response (w : world S) :
  status response = 200 ->
  S3ImagesStore._onsuccess env response w
  = match headers_get (r_headers response) "Etag" with
    | None => (Raise (Exception "KeyError" "Etag"), w)
    | Some etag =>
        match headers_get (r_headers response) "Last-Modified" with
        | None => (Raise (Exception "KeyError" "Last-Modified"), w)
        | Some last_modified =>
            match rfc822_stamp env last_modified with
            | Raise e => (Raise e, w)
            | Ok stamp =>
                (Ok (Some {| last_modified := Some (inject_Z stamp);
                             checksum := Some (S3ImagesStore.strip_quote etag) |}),
                 w)
            end
        end
    end.
Proof.
  intros Hs. apply Z.eqb_eq in Hs.
  unfold S3ImagesStore._onsuccess, S3ImagesStore.header_item, bind, lift_result.
  rewrite Hs.
  destruct (headers_get (r_headers response) "Etag"); [|reflexivity]. cbn.
  destruct (headers_get (r_headers response) "Last-Modified"); [|reflexivity].
  cbn. destruct (rfc822_stamp env _); reflexivity.
Qed.

End S3Stat.

(** X10.  On the S3 store, a 200 answer to the HEAD request that lacks the
    [Etag] or the [Last-Modified] header, or whose date cannot be parsed,
    makes the stat's deferred fail; the freshness check then forces the
    download, and logs nothing about it. *)
Theorem s3_incomplete_stat_forces_download {S : Type} (env : Env S)
    (cfg : Settings) (self : S3ImagesStore.t) (request : Request)
    (info : string) (w : world S) (response : Response) (s : S) :
  engine_download env
    (S3ImagesStore._build_request self (ImagesPipeline.image_key (url request))
       "HEAD" None [])
    (if S3ImagesStore.s3_spider self then S3ImagesStore.s3_spider_name else info)
    (machine w) = (Ok (Ok response), s) ->
  status response = 200 ->
  headers_get (r_headers response) "Etag" = None
  \/ headers_get (r_headers response) "Last-Modified" = None
  \/ (exists last_modified e,
        headers_get (r_headers response) "Last-Modified" = Some last_modified
        /\ rfc822_stamp env last_modified = Raise e) ->
  ImagesPipeline.media_to_download env cfg (S3ImagesStore.store env self)
    request info w
  = (Ok (Ok None), Build_world s (trace w) (created_directories w)).
Proof.
  intros Hdl Hs Hmissing.
  assert (Hstat : exists e,
             Store.stat_image (S3ImagesStore.store env self)
               (ImagesPipeline.image_key (url request)) info w
             = (Raise e, Build_world s (trace w) (created_directories w))).
  { cbn [Store.stat_image S3ImagesStore.store].
    rewrite s3_stat_image_run, Hdl, (s3_onsuccess_200 env response _ Hs).
    destruct Hmissing as [He | [Hl | (lm & e & Hl & Hp)]].
    - rewrite He. eauto.
    - rewrite Hl. destruct (headers_get (r_headers response) "Etag"); eauto.
    - rewrite Hl, Hp. destruct (headers_get (r_headers response) "Etag"); eauto. }
  destruct Hstat as [e Hstat].
  eapply media_to_download_stat_raise. exact Hstat.
Qed.

Lemma s3_incomplete_stat_forces_download_witness :
  ImagesPipeline.media_to_download TestBed.env TestBed.cfg TestBed.s3_store
    TestBed.request "spider" (TestBed.start 0 [] false)
  = (Ok (Ok None),
     Build_world
       (snd (engine_download TestBed.env
               (S3ImagesStore._build_request
                  {| S3ImagesStore.bucket := "media"; S3ImagesStore.prefix := "img/";
                     S3ImagesStore.s3_spider := true |}
                  (ImagesPipeline.image_key (url TestBed.request)) "HEAD" None [])
               "s3.amazonaws.com" (machine (TestBed.start 0 [] false))))
       [] ∅).
Proof.
  apply (s3_incomplete_stat_forces_download TestBed.env TestBed.cfg
           {| S3ImagesStore.bucket := "media"; S3ImagesStore.prefix := "img/";
              S3ImagesStore.s3_spider := true |}
           TestBed.request "spider" (TestBed.start 0 [] false)
           {| status := 200;
              r_url := "http://media.s3.amazonaws.com/img/full/99e087d9e04c1527ebd8026fd3cc31035e6c7210.jpg";
              r_body := EmptyString; r_headers := []; flags := [] |}).
  - vm_compute. reflexivity.
  - reflexivity.
  - left. reflexivity.
Defined.

(** X11.  On the S3 store, a stored object whose [Last-Modified] date is
    not the epoch and lies at most [EXPIRES] days back is reported as up to
    date, with the [Etag] header stripped of its double quotes as the
    checksum; nothing is downloaded. *)
Theorem s3_fresh_object_reports_etag {S : Type} (env : Env S)
    (cfg : Settings) (self : S3ImagesStore.t) (request : Request)
    (info : string) (w : world S) (response : Response) (s : S)
    (etag date : string) (stamp : Z) :
  engine_download env
    (S3ImagesStore._build_request self (ImagesPipeline.image_key (url request))
       "HEAD" None [])
    (if S3ImagesStore.s3_spider self then S3ImagesStore.s3_spider_name else info)
    (machine w) = (Ok (Ok response), s) ->
  status response = 200 ->
  headers_get (r_headers response) "Etag" = Some etag ->
  headers_get (r_headers response) "Last-Modified" = Some date ->
  rfc822_stamp env date = Ok stamp ->
  stamp <> 0 ->
  (time_time env s - inject_Z stamp <= inject_Z (EXPIRES cfg) * 86400)%Q ->
  exists w',
    ImagesPipeline.media_to_download env cfg (S3ImagesStore.store env self)
      request info w
    = (Ok (Ok (Some {| o_url := url request;
                       o_path := ImagesPipeline.image_key (url request);
                       o_checksum := Some (S3ImagesStore.strip_quote etag) |})),
       w')
    /\ machine w' = s.
Proof.
  intros Hdl Hs He Hl Hp Hnz Hage.
  assert (Hstat :
            Store.stat_image (S3ImagesStore.store env self)
              (ImagesPipeline.image_key (url request)) info w
            = (Ok (Some {| last_modified := Some (inject_Z stamp);
                           checksum := Some (S3ImagesStore.strip_quote etag) |}),
               Build_world s (trace w) (created_directories w))).
  { cbn [Store.stat_image S3ImagesStore.store].
    rewrite s3_stat_image_run, Hdl, (s3_onsuccess_200 env response _ Hs).
    rewrite He, Hl, Hp. reflexivity. }
  assert (Ht : Qtruthy (inject_Z stamp) = true).
  { unfold Qtruthy. apply negb_true_iff. apply not_true_iff_false.
    intros H. apply Qeq_bool_iff in H. unfold Qeq in H. cbn in H. lia. }
  destruct (_onsuccess_fresh env cfg request info
              (ImagesPipeline.image_key (url request)) (inject_Z stamp)
              (Some (S3ImagesStore.strip_quote etag))
              (Build_world s (trace w) (created_directories w)) Ht Hage)
    as (w' & Hcb & Hm).
  exists w'. split; [|exact Hm].
  eapply media_to_download_stat_ok; eassumption.
Qed.

Lemma s3_fresh_object_reports_etag_witness :
  exists w',
    ImagesPipeline.media_to_download TestBed.env_s3_object TestBed.cfg
      (S3ImagesStore.store TestBed.env_s3_object
         {| S3ImagesStore.bucket := "media"; S3ImagesStore.prefix := "img/";
            S3ImagesStore.s3_spider := true |})
      TestBed.request "spider" (TestBed.start 7862400 [] false)
    = (Ok (Ok (Some {| o_url := "http://example.com/a.jpg";
                       o_path := "full/99e087d9e04c1527ebd8026fd3cc31035e6c7210.jpg";
                       o_checksum := Some "0a1b2c" |})), w')
    /\ machine w' = machine (TestBed.start 7862400 [] false).
Proof.
  apply (s3_fresh_object_reports_etag TestBed.env_s3_object TestBed.cfg
           {| S3ImagesStore.bucket := "media"; S3ImagesStore.prefix := "img/";
              S3ImagesStore.s3_spider := true |}
           TestBed.request "spider" (TestBed.start 7862400 [] false)
           {| status := 200;
              r_url := "http://media.s3.amazonaws.com/img/full/99e087d9e04c1527ebd8026fd3cc31035e6c7210.jpg";
              r_body := EmptyString;
              r_headers := [("Etag", Json.dq +:+ "0a1b2c" +:+ Json.dq);
                            ("Last-Modified", "Fri, 02 Jan 1970 00:00:00 GMT")];
              flags := [] |}
           _ (Json.dq +:+ "0a1b2c" +:+ Json.dq)
           "Fri, 02 Jan 1970 00:00:00 GMT" 86400).
  - vm_compute. reflexivity.
  - reflexivity.
  - reflexivity.
  - reflexivity.
  - reflexivity.
  - discriminate.
  - vm_compute. discriminate.
Defined.

(** * Further properties of request fingerprinting *)

(** X12.  The fingerprint cache is idempotent: repeating a call returns the
    digest of the first call and leaves the cache exactly as the first call
    left it, whatever the cache held before. *)
Theorem fingerprint_cached (canonicalize_url : string -> bool -> string)
    (request : RequestUtils.Request) (include_headers : option (list string))
    (keep_fragments : bool)
    (c : gmap positive (gmap RequestUtils.cache_key (list Z))) :
  RequestUtils.fingerprint canonicalize_url request include_headers
    keep_fragments
    (snd (RequestUtils.fingerprint canonicalize_url request include_headers
            keep_fragments c))
  = RequestUtils.fingerprint canonicalize_url request include_headers
      keep_fragments c.
Proof.
  unfold RequestUtils.fingerprint. cbv zeta.
  destruct (c !! RequestUtils.oid request) as [inner|] eqn:Hinner;
    cbn [default from_option id].
  - destruct (inner !! (_, _)) as [fp|] eqn:Hfp; cbn [snd].
    + rewrite lookup_insert_eq. cbn [default from_option id]. rewrite Hfp.
      rewrite insert_insert_eq. reflexivity.
    + rewrite lookup_insert_eq. cbn [default from_option id].
      rewrite lookup_insert_eq, insert_insert_eq. reflexivity.
  - rewrite lookup_empty. cbn [snd].
    rewrite lookup_insert_eq. cbn [default from_option id].
    rewrite lookup_insert_eq, insert_insert_eq. reflexivity.
Qed.

(** X13.  The cache does not leak: a call made for another request object,
    or for the same request with another set of included headers or
    another [keep_fragments], does not change what a call returns. *)
Theorem fingerprint_cache_isolated (canonicalize_url : string -> bool -> string)
    (r1 r2 : RequestUtils.Request) (ih1 ih2 : option (list string))
    (kf1 kf2 : bool)
    (c : gmap positive (gmap RequestUtils.cache_key (list Z))) :
  RequestUtils.oid r1 <> RequestUtils.oid r2
  \/ (RequestUtils.process_include_headers ih1, kf1)
     <> (RequestUtils.process_include_headers ih2, kf2) ->
  fst (RequestUtils.fingerprint canonicalize_url r2 ih2 kf2
         (snd (RequestUtils.fingerprint canonicalize_url r1 ih1 kf1 c)))
  = fst (RequestUtils.fingerprint canonicalize_url r2 ih2 kf2 c).
Proof.
  intros Hne.
  destruct (decide (RequestUtils.oid r1 = RequestUtils.oid r2)) as [Hoid|Hoid].
  - destruct Hne as [Hne|Hkey]; [contradiction|].
    unfold RequestUtils.fingerprint. cbv zeta. rewrite <- Hoid.
    destruct (c !! RequestUtils.oid r1) as [inner|] eqn:Hinner;
      cbn [default from_option id].
    + destruct (inner !! (RequestUtils.process_include_headers ih1, kf1))
        as [fp|] eqn:Hfp; cbn [snd].
      * rewrite lookup_insert_eq. cbn [default from_option id].
        destruct (inner !! (RequestUtils.process_include_headers ih2, kf2));
          reflexivity.
      * rewrite lookup_insert_eq. cbn [default from_option id].
        rewrite lookup_insert_ne by exact Hkey.
        destruct (inner !! (RequestUtils.process_include_headers ih2, kf2));
          reflexivity.
    + rewrite lookup_empty. cbn [snd].
      rewrite lookup_insert_eq. cbn [default from_option id].
      rewrite lookup_insert_ne by exact Hkey. rewrite lookup_empty.
      reflexivity.
  - assert (Hlook : snd (RequestUtils.fingerprint canonicalize_url r1 ih1 kf1 c)
                      !! RequestUtils.oid r2 = c !! RequestUtils.oid r2).
    { unfold RequestUtils.fingerprint. cbv zeta.
      destruct (default ∅ (c !! RequestUtils.oid r1) !! (_, _)); cbn [snd];
        apply lookup_insert_ne; exact Hoid. }
    unfold RequestUtils.fingerprint at 1 3. cbv zeta. rewrite Hlook.
    destruct (default ∅ (c !! RequestUtils.oid r2) !! (_, _)); reflexivity.
Qed.

Lemma fingerprint_cache_isolated_witness :
  fst (RequestUtils.fingerprint RequestUtils.canonicalize_url_model
         (RequestUtils.page_request 1 "top" "session=1" 0) None true
         (snd (RequestUtils.fingerprint RequestUtils.canonicalize_url_model
                 (RequestUtils.page_request 1 "top" "session=1" 0) None false ∅)))
  = fst (RequestUtils.fingerprint RequestUtils.canonicalize_url_model
           (RequestUtils.page_request 1 "top" "session=1" 0) None true ∅).
Proof.
  apply (fingerprint_cache_isolated RequestUtils.canonicalize_url_model
           (RequestUtils.page_request 1 "top" "session=1" 0)
           (RequestUtils.page_request 1 "top" "session=1" 0)
           None None false true ∅).
  right. discriminate.
Defined.

(** ** [sorted] on header names *)

Lemma insert_sorted_perm (x : string) (l : list string) :
  PyStr.insert_sorted x l ≡ₚ x :: l.
Proof.
  induction l as [|y l IH]; cbn; [reflexivity|].
  destruct (String.leb x y); [reflexivity|].
  rewrite IH. apply Permutation_swap.
Qed.

Lemma sorted_perm (l : list string) : PyStr.sorted l ≡ₚ l.
Proof.
  unfold PyStr.sorted. induction l as [|x l IH]; cbn; [reflexivity|].
  rewrite insert_sorted_perm, IH. reflexivity.
Qed.

Lemma insert_sorted_Sorted (x : string) (l : list string) :
  Sorted String.le l -> Sorted String.le (PyStr.insert_sorted x l).
Proof.
  induction 1 as [|y l Hl IH Hhd]; cbn.
  - repeat constructor.
  - destruct (String.leb x y) eqn:Hxy.
    + constructor; [constructor; assumption|].
      constructor. unfold String.le. rewrite Hxy. exact I.
    + constructor; [exact IH|].
      assert (Hyx : String.le y x).
      { destruct (String.leb_total x y) as [H|H]; [congruence|].
        unfold String.le. rewrite H. exact I. }
      destruct l as [|z l]; cbn.
      * constructor. exact Hyx.
      * destruct (String.leb x z); constructor; [exact Hyx|].
        inversion Hhd; assumption.
Qed.

Lemma sorted_Sorted (l : list string) : Sorted String.le (PyStr.sorted l).
Proof.
  unfold PyStr.sorted. induction l as [|x l IH]; cbn; [constructor|].
  apply insert_sorted_Sorted. exact IH.
Qed.

(** [sorted] depends on the names listed, not on their order. *)
Lemma sorted_permutation (l1 l2 : list string) :
  l1 ≡ₚ l2 -> PyStr.sorted l1 = PyStr.sorted l2.
Proof.
  intros H. apply (Sorted_unique String.le); try apply sorted_Sorted.
  rewrite !sorted_perm. exact H.
Qed.

(** X14.  The order in which [include_headers] lists the header names does
    not matter: two lists with the same names give the same cache key, and
    so the same digest and the same cache. *)
Theorem include_headers_order_irrelevant
    (canonicalize_url : string -> bool -> string)
    (request : RequestUtils.Request) (l1 l2 : list string)
    (keep_fragments : bool)
    (c : gmap positive (gmap RequestUtils.cache_key (list Z))) :
  l1 ≡ₚ l2 ->
  RequestUtils.fingerprint canonicalize_url request (Some l1) keep_fragments c
  = RequestUtils.fingerprint canonicalize_url request (Some l2) keep_fragments c.
Proof.
  intros H.
  assert (Hp : RequestUtils.process_include_headers (Some l1)
               = RequestUtils.process_include_headers (Some l2)).
  { unfold RequestUtils.process_include_headers.
    destruct l1 as [|x l1], l2 as [|y l2]; try reflexivity.
    - apply Permutation_nil_cons in H. contradiction.
    - symmetry in H. apply Permutation_nil_cons in H. contradiction.
    - rewrite (sorted_permutation _ _ H). reflexivity. }
  unfold RequestUtils.fingerprint. rewrite Hp. reflexivity.
Qed.

Lemma include_headers_order_irrelevant_witness :
  RequestUtils.fingerprint RequestUtils.canonicalize_url_model
    (RequestUtils.page_request 1 "top" "session=1" 0)
    (Some ["Cookie"; "Accept"]) false ∅
  = RequestUtils.fingerprint RequestUtils.canonicalize_url_model
      (RequestUtils.page_request 1 "top" "session=1" 0)
      (Some ["Accept"; "Cookie"]) false ∅.
Proof.
  apply (include_headers_order_irrelevant RequestUtils.canonicalize_url_model
           (RequestUtils.page_request 1 "top" "session=1" 0)
           ["Cookie"; "Accept"] ["Accept"; "Cookie"] false ∅).
  apply Permutation_swap.
Defined.

Lemma selected_headers_absent (request : RequestUtils.Request) (l : list string) :
  Forall (fun header =>
            RequestUtils.getlist (RequestUtils.headers request) header = None) l ->
  RequestUtils.selected_headers request (Some l) = [].
Proof.
  unfold RequestUtils.selected_headers.
  destruct l as [|h l]; [reflexivity|].
  generalize (h :: l) as hs. intros hs Hall.
  induction Hall as [|x hs Hx _ IH]; [reflexivity|].
  cbn [fold_left]. rewrite Hx. exact IH.
Qed.

(** X15.  Listing in [include_headers] only headers that the request does
    not carry gives the fingerprint of the request without any included
    header: an absent header contributes nothing to the digest. *)
Theorem absent_headers_ignored (canonicalize_url : string -> bool -> string)
    (request : RequestUtils.Request) (l : list string) (keep_fragments : bool)
    (c c' : gmap positive (gmap RequestUtils.cache_key (list Z))) :
  RequestUtils.cache_coherent canonicalize_url c request ->
  RequestUtils.cache_coherent canonicalize_url c' request ->
  (forall h, In h l ->
     RequestUtils.getlist (RequestUtils.headers request) (PyStr.lower h) = None) ->
  fst (RequestUtils.fingerprint canonicalize_url request (Some l)
         keep_fragments c)
  = fst (RequestUtils.fingerprint canonicalize_url request None
           keep_fragments c').
Proof.
  intros Hc Hc' Habsent.
  rewrite !fingerprint_value by assumption.
  unfold RequestUtils.compute_fingerprint, RequestUtils.fingerprint_json.
  cbn [fst snd].
  assert (Hsel : RequestUtils.selected_headers request
                   (RequestUtils.process_include_headers (Some l)) = []).
  { unfold RequestUtils.process_include_headers.
    destruct l as [|x l]; [reflexivity|].
    apply selected_headers_absent. apply Forall_forall.
    intros name Hin. apply list_elem_of_In, in_map_iff in Hin.
    destruct Hin as (h & <- & Hin). apply Habsent.
    apply list_elem_of_In. rewrite <- (sorted_perm (x :: l)).
    apply list_elem_of_In. exact Hin. }
  rewrite Hsel. reflexivity.
Qed.

Lemma absent_headers_ignored_witness :
  fst (RequestUtils.fingerprint RequestUtils.canonicalize_url_model
         (RequestUtils.page_request 1 "top" "session=1" 0)
         (Some ["X-Token"; "Authorization"]) false ∅)
  = fst (RequestUtils.fingerprint RequestUtils.canonicalize_url_model
           (RequestUtils.page_request 1 "top" "session=1" 0) None false ∅).
Proof.
  apply (absent_headers_ignored RequestUtils.canonicalize_url_model
           (RequestUtils.page_request 1 "top" "session=1" 0)
           ["X-Token"; "Authorization"] false ∅ ∅
           (empty_cache_coherent _ _) (empty_cache_coherent _ _)).
  intros h [<-|[<-|[]]]; reflexivity.
Defined.

(** ** The deprecated fingerprint and the fingerprinter *)

Lemma request_fingerprint_value (canonicalize_url : string -> bool -> string)
    (request : RequestUtils.Request) (include_headers : option (list string))
    (keep_fragments : bool) (c : gmap positive (gmap RequestUtils.cache_key string)) :
  RequestUtils.deprecated_cache_coherent canonicalize_url c request ->
  snd (fst (RequestUtils.request_fingerprint canonicalize_url request
              include_headers keep_fragments c))
  = RequestUtils.compute_request_fingerprint canonicalize_url request
      (RequestUtils.process_include_headers include_headers, keep_fragments).
Proof.
  intros Hc. unfold RequestUtils.request_fingerprint. cbv zeta.
  destruct (c !! RequestUtils.oid request) as [inner|] eqn:Hinner;
    cbn [default from_option id].
  - destruct (inner !! (_, _)) as [fp|] eqn:Hfp; [|reflexivity].
    cbn [fst snd]. eapply Hc; eassumption.
  - rewrite lookup_empty. reflexivity.
Qed.

Lemma empty_deprecated_cache_coherent
    (canonicalize_url : string -> bool -> string) (request : RequestUtils.Request) :
  RequestUtils.deprecated_cache_coherent canonicalize_url ∅ request.
Proof. intros inner key fp H. rewrite lookup_empty in H. discriminate. Qed.

Lemma hexvalue_hexdigit (n : Z) :
  0 <= n < 16 ->
  PyStr.hexvalue (PyStr.hexdigit n) = Some n
  /\ PyStr.is_space (PyStr.hexdigit n) = false.
Proof.
  intros H. rewrite <- (Z2Nat.id n) by lia.
  assert (Hk : (Z.to_nat n < 16)%nat) by lia.
  revert Hk. generalize (Z.to_nat n) as k. intros k Hk.
  do 16 (destruct k as [|k]; [split; reflexivity|]). lia.
Qed.

(** [bytes.fromhex] undoes [bytes.hex]. *)
Lemma fromhex_hex_of_bytes (l : list Z) :
  Forall (fun b => 0 <= b < 256) l ->
  PyStr.fromhex (PyStr.hex_of_bytes l) = Some l.
Proof.
  induction 1 as [|b l Hb _ IH]; [reflexivity|].
  assert (Hhi : 0 <= b / 16 < 16).
  { split; [apply Z.div_pos; lia | apply Z.div_lt_upper_bound; lia]. }
  assert (Hlo : 0 <= b mod 16 < 16) by (apply Z.mod_pos_bound; lia).
  destruct (hexvalue_hexdigit _ Hhi) as [Hv1 Hs1].
  destruct (hexvalue_hexdigit _ Hlo) as [Hv2 _].
  cbn [PyStr.hex_of_bytes PyStr.hex_byte PyStr.fromhex].
  rewrite Hs1, Hv1, Hv2, IH. f_equal. f_equal.
  symmetry. apply Z.div_mod. lia.
Qed.

(** X16.  Whichever implementation the [REQUEST_FINGERPRINTER_IMPLEMENTATION]
    setting selects, [RequestFingerprinter.fingerprint] returns, without
    raising, twenty bytes: with [2.6] (also the default, and the one value
    that warns) the SHA-1 digest of the method, the canonical URL and the
    body written one after the other, with [2.7] the SHA-1 digest of the
    JSON document.  The caches hold only digests of the request as it is. *)
Theorem fingerprinter_returns_digest
    (canonicalize_url : string -> bool -> string)
    (crawler : option (option string)) (warned : bool)
    (self : RequestUtils.implementation) (request : RequestUtils.Request)
    (caches : gmap positive (gmap RequestUtils.cache_key string)
              * gmap positive (gmap RequestUtils.cache_key (list Z))) :
  RequestUtils.RequestFingerprinter crawler = Ok (warned, self) ->
  RequestUtils.deprecated_cache_coherent canonicalize_url (fst caches) request ->
  RequestUtils.cache_coherent canonicalize_url (snd caches) request ->
  exists fp : list Z,
    fst (RequestUtils.fingerprinter_fingerprint canonicalize_url self request
           caches) = Ok fp
    /\ List.length fp = 20%nat
    /\ Forall (fun b => 0 <= b < 256) fp
    /\ fp = Sha1.digest
              (if warned
               then RequestUtils.method request
                    +:+ canonicalize_url (RequestUtils.url request) false
                    +:+ RequestUtils.body request
               else RequestUtils.fingerprint_json canonicalize_url request
                      None false).
Proof.
  intros Hinit Hdep Hcur.
  assert (Hself : (warned, self) = (true, RequestUtils.Impl_2_6)
                  \/ (warned, self) = (false, RequestUtils.Impl_2_7)).
  { unfold RequestUtils.RequestFingerprinter in Hinit.
    destruct crawler as [[v|]|]; try discriminate.
    - destruct (String.eqb v "2.6"); [left; congruence|].
      destruct (String.eqb v "2.7"); [right; congruence|discriminate].
    - left. cbn in Hinit. congruence. }
  destruct Hself as [[= -> ->]|[= -> ->]].
  - exists (Sha1.digest (RequestUtils.method request
                         +:+ canonicalize_url (RequestUtils.url request) false
                         +:+ RequestUtils.body request)).
    split; [|split; [|split]]; [|apply state_bytes_shape..|reflexivity].
    unfold RequestUtils.fingerprinter_fingerprint,
      RequestUtils._request_fingerprint_as_bytes.
    pose proof (request_fingerprint_value canonicalize_url request None false
                  (fst caches) Hdep) as Hv.
    destruct (RequestUtils.request_fingerprint canonicalize_url request None
                false (fst caches)) as [[msg fp] c'].
    cbn [fst snd] in Hv. subst fp.
    unfold RequestUtils.compute_request_fingerprint, Sha1.hexdigest.
    rewrite fromhex_hex_of_bytes by apply state_bytes_shape.
    reflexivity.
  - exists (Sha1.digest (RequestUtils.fingerprint_json canonicalize_url request
                           None false)).
    split; [|split; [|split]]; [|apply state_bytes_shape..|reflexivity].
    unfold RequestUtils.fingerprinter_fingerprint.
    pose proof (fingerprint_value canonicalize_url request None false
                  (snd caches) Hcur) as Hv.
    destruct (RequestUtils.fingerprint canonicalize_url request None false
                (snd caches)) as [fp c'].
    cbn [fst] in Hv. subst fp. reflexivity.
Qed.

Lemma fingerprinter_returns_digest_witness :
  exists fp : list Z,
    fst (RequestUtils.fingerprinter_fingerprint
           RequestUtils.canonicalize_url_model RequestUtils.Impl_2_6
           (RequestUtils.page_request 1 "top" "session=1" 0) (∅, ∅)) = Ok fp
    /\ List.length fp = 20%nat
    /\ Forall (fun b => 0 <= b < 256) fp
    /\ fp = Sha1.digest
              (RequestUtils.method (RequestUtils.page_request 1 "top" "session=1" 0)
               +:+ RequestUtils.canonicalize_url_model
                     (RequestUtils.url
                        (RequestUtils.page_request 1 "top" "session=1" 0)) false
               +:+ RequestUtils.body
                     (RequestUtils.page_request 1 "top" "session=1" 0)).
Proof.
  exact (fingerprinter_returns_digest RequestUtils.canonicalize_url_model
           None true RequestUtils.Impl_2_6
           (RequestUtils.page_request 1 "top" "session=1" 0) (∅, ∅)
           eq_refl
           (empty_deprecated_cache_coherent _ _)
           (empty_cache_coherent _ _)).
Defined.

(** X17.  The deprecated [request_fingerprint] hashes the method, the
    canonical URL and the body one after the other with nothing between
    them: two requests for which this concatenation is the same text get
    the same fingerprint, also when their URLs and bodies differ. *)
Theorem deprecated_fingerprint_ignores_boundaries
    (canonicalize_url : string -> bool -> string)
    (A B : RequestUtils.Request) (keep_fragments : bool)
    (cA cB : gmap positive (gmap RequestUtils.cache_key string)) :
  RequestUtils.deprecated_cache_coherent canonicalize_url cA A ->
  RequestUtils.deprecated_cache_coherent canonicalize_url cB B ->
  RequestUtils.method A
    +:+ canonicalize_url (RequestUtils.url A) keep_fragments
    +:+ RequestUtils.body A
  = RequestUtils.method B
    +:+ canonicalize_url (RequestUtils.url B) keep_fragments
    +:+ RequestUtils.body B ->
  snd (fst (RequestUtils.request_fingerprint canonicalize_url A None
              keep_fragments cA))
  = snd (fst (RequestUtils.request_fingerprint canonicalize_url B None
                keep_fragments cB)).
Proof.
  intros HcA HcB Hcat.
  rewrite !request_fingerprint_value by assumption.
  unfold RequestUtils.compute_request_fingerprint. f_equal. exact Hcat.
Qed.

Lemma deprecated_fingerprint_ignores_boundaries_witness :
  let A := {| RequestUtils.oid := 1; RequestUtils.method := "POST";
              RequestUtils.url := "http://example.com/form";
              RequestUtils.body := "a=1"; RequestUtils.headers := [];
              RequestUtils.meta := []; RequestUtils.priority := 0;
              RequestUtils.dont_filter := false |} in
  let B := {| RequestUtils.oid := 2; RequestUtils.method := "POST";
              RequestUtils.url := "http://example.com/forma";
              RequestUtils.body := "=1"; RequestUtils.headers := [];
              RequestUtils.meta := []; RequestUtils.priority := 0;
              RequestUtils.dont_filter := false |} in
  RequestUtils.url A <> RequestUtils.url B
  /\ RequestUtils.body A <> RequestUtils.body B
  /\ snd (fst (RequestUtils.request_fingerprint
                 RequestUtils.canonicalize_url_model A None false ∅))
     = snd (fst (RequestUtils.request_fingerprint
                   RequestUtils.canonicalize_url_model B None false ∅)).
Proof.
  cbv zeta. split; [discriminate|]. split; [discriminate|].
  apply deprecated_fingerprint_ignores_boundaries.
  - apply empty_deprecated_cache_coherent.
  - apply empty_deprecated_cache_coherent.
  - reflexivity.
Defined.

(** ** Authenticating a request *)

Lemma getlist_setitem_same (h : list (string * list string)) (name value : string) :
  RequestUtils.getlist (RequestUtils.headers_setitem h name value)
    (PyStr.lower name) = Some [value].
Proof.
  induction h as [|[k v] h IH]; cbn [RequestUtils.headers_setitem RequestUtils.getlist].
  - rewrite String.eqb_refl. reflexivity.
  - destruct (String.eqb (PyStr.lower k) (PyStr.lower name)) eqn:E;
      cbn [RequestUtils.getlist].
    + rewrite String.eqb_refl. reflexivity.
    + rewrite E. exact IH.
Qed.

Lemma getlist_setitem_other (h : list (string * list string))
    (name value other : string) :
  other <> PyStr.lower name ->
  RequestUtils.getlist (RequestUtils.headers_setitem h name value) other
  = RequestUtils.getlist h other.
Proof.
  intros Hne.
  assert (Hn : String.eqb (PyStr.lower name) other = false).
  { apply String.eqb_neq. congruence. }
  induction h as [|[k v] h IH]; cbn [RequestUtils.headers_setitem RequestUtils.getlist].
  - rewrite Hn. reflexivity.
  - destruct (String.eqb (PyStr.lower k) (PyStr.lower name)) eqn:E;
      cbn [RequestUtils.getlist].
    + apply String.eqb_eq in E. rewrite E, Hn. reflexivity.
    + rewrite IH. reflexivity.
Qed.

(** X18.  [request_authenticate] leaves the request with exactly one
    [Authorization] value, the basic-auth header of the credentials,
    whatever the case of the name under which an earlier value was stored;
    every other header keeps its values; and a fingerprint that does not
    include the [Authorization] header is the same before and after. *)
Theorem authenticate_sets_authorization
    (basic_auth_header : string -> string -> string)
    (canonicalize_url : string -> bool -> string)
    (request : RequestUtils.Request) (username password : string)
    (include_headers : option (list string)) (keep_fragments : bool)
    (c c' : gmap positive (gmap RequestUtils.cache_key (list Z))) :
  RequestUtils.cache_coherent canonicalize_url c request ->
  RequestUtils.cache_coherent canonicalize_url c'
    (RequestUtils.request_authenticate basic_auth_header request username
       password) ->
  (forall l h, include_headers = Some l -> In h l ->
     PyStr.lower h <> "authorization") ->
  RequestUtils.getlist
    (RequestUtils.headers
       (RequestUtils.request_authenticate basic_auth_header request username
          password)) "authorization"
  = Some [basic_auth_header username password]
  /\ (forall name, name <> "authorization" ->
        RequestUtils.getlist
          (RequestUtils.headers
             (RequestUtils.request_authenticate basic_auth_header request
                username password)) name
        = RequestUtils.getlist (RequestUtils.headers request) name)
  /\ fst (RequestUtils.fingerprint canonicalize_url
            (RequestUtils.request_authenticate basic_auth_header request
               username password) include_headers keep_fragments c')
     = fst (RequestUtils.fingerprint canonicalize_url request include_headers
              keep_fragments c).
Proof.
  intros Hc Hc' Hnot.
  assert (Hother : forall name, name <> "authorization" ->
            RequestUtils.getlist
              (RequestUtils.headers
                 (RequestUtils.request_authenticate basic_auth_header request
                    username password)) name
            = RequestUtils.getlist (RequestUtils.headers request) name).
  { intros name Hname. cbn [RequestUtils.request_authenticate RequestUtils.headers].
    apply getlist_setitem_other. exact Hname. }
  split; [|split; [exact Hother|]].
  - cbn [RequestUtils.request_authenticate RequestUtils.headers].
    apply (getlist_setitem_same _ "Authorization").
  - apply fingerprint_deterministic; try assumption; try reflexivity.
    unfold RequestUtils.process_include_headers.
    destruct include_headers as [[|x l]|]; try exact I.
    cbn [RequestUtils.same_selected_headers].
    apply Forall_forall. intros name Hin.
    apply list_elem_of_In, in_map_iff in Hin.
    destruct Hin as (h & <- & Hin). apply Hother.
    apply (Hnot (x :: l) h eq_refl).
    apply list_elem_of_In. rewrite <- (sorted_perm (x :: l)).
    apply list_elem_of_In. exact Hin.
Qed.

Lemma authenticate_sets_authorization_witness :
  let basic_auth_header := fun u p : string => "Basic " +:+ u +:+ ":" +:+ p in
  let request :=
    {| RequestUtils.oid := 1; RequestUtils.method := "GET";
       RequestUtils.url := "http://example.com/page";
       RequestUtils.body := EmptyString;
       RequestUtils.headers :=
         [("Accept", ["text/html"]); ("AUTHORIZATION", ["Basic old"; "Basic older"])];
       RequestUtils.meta := []; RequestUtils.priority := 0;
       RequestUtils.dont_filter := false |} in
  RequestUtils.getlist
    (RequestUtils.headers
       (RequestUtils.request_authenticate basic_auth_header request "user"
          "secret")) "authorization"
  = Some ["Basic user:secret"]
  /\ fst (RequestUtils.fingerprint RequestUtils.canonicalize_url_model
            (RequestUtils.request_authenticate basic_auth_header request
               "user" "secret") (Some ["Accept"]) false ∅)
     = fst (RequestUtils.fingerprint RequestUtils.canonicalize_url_model
              request (Some ["Accept"]) false ∅).
Proof.
  intros basic_auth_header request.
  assert (Hnot : forall l h, Some ["Accept"] = Some l -> In h l ->
                   PyStr.lower h <> "authorization").
  { intros l h [= <-] [<-|[]]. vm_compute. discriminate. }
  destruct (authenticate_sets_authorization basic_auth_header
              RequestUtils.canonicalize_url_model request "user" "secret"
              (Some ["Accept"]) false ∅ ∅
              (empty_cache_coherent _ _) (empty_cache_coherent _ _) Hnot)
    as (Hset & _ & Hfp).
  split; [exact Hset | exact Hfp].
Defined.
